(** * Cadence MHDP mailbox transport and Layerscape Gen4 PCIe config reads

    A shallow embedding of
    - [drivers/gpu/drm/bridge/cadence/cdns-mhdp-common.c] (bus accessor,
      mailbox transport, command layer, link training, transfer-unit search;
      further on DPCD access, hot-plug queries, firmware load, keep-alive
      check and video configuration),
    - [drivers/pci/controller/mobiveil/pcie-layerscape-gen4.c]
      ([ls_pcie_g4_read_other_conf]; further on host init, link state and
      the hot-reset work).

    C integers are [Z] with the wrap-around of their declared type written
    out; byte buffers are [list Z]; the device handle is a record threaded
    through every call by a small state monad.  The hardware behind
    [readl]/[writel] and the kernel's sleeping primitives form an abstract
    [Platform]; every logical bus access is recorded in a trace, and the
    properties are stated over that trace. *)

From Stdlib Require Import ZArith List Lia Bool.
Import ListNotations.
Local Open Scope Z_scope.

(** ** Fixed-width integer conversions *)

Definition u8 (x : Z) : Z := x mod 2 ^ 8.
Definition u16 (x : Z) : Z := x mod 2 ^ 16.
Definition u32 (x : Z) : Z := x mod 2 ^ 32.
Definition u64 (x : Z) : Z := x mod 2 ^ 64.

(** Conversion of a 32-bit pattern to C [int]. *)
Definition s32 (x : Z) : Z := (x + 2 ^ 31) mod 2 ^ 32 - 2 ^ 31.

(** ** Unaligned big-endian accessors ([asm/unaligned.h] and lines 58-72) *)

Definition put_unaligned_be16 (val : Z) : list Z :=
  [u8 (Z.shiftr (u16 val) 8); u8 (u16 val)].

Definition put_unaligned_be24 (val : Z) : list Z :=
  [u8 (Z.shiftr (u32 val) 16); u8 (Z.shiftr (u32 val) 8); u8 (u32 val)].

Definition put_unaligned_be32 (val : Z) : list Z :=
  [u8 (Z.shiftr (u32 val) 24); u8 (Z.shiftr (u32 val) 16);
   u8 (Z.shiftr (u32 val) 8); u8 (u32 val)].

(** [p] is the buffer, [off] the byte offset of the field in it. *)
Definition get_unaligned_be16 (p : list Z) (off : nat) : Z :=
  Z.lor (Z.shiftl (nth off p 0) 8) (nth (off + 1) p 0).

Definition get_unaligned_be24 (p : list Z) (off : nat) : Z :=
  Z.lor (Z.lor (Z.shiftl (nth off p 0) 16) (Z.shiftl (nth (off + 1) p 0) 8))
        (nth (off + 2) p 0).

Definition get_unaligned_be32 (p : list Z) (off : nat) : Z :=
  Z.lor (Z.lor (Z.lor (Z.shiftl (nth off p 0) 24)
                      (Z.shiftl (nth (off + 1) p 0) 16))
               (Z.shiftl (nth (off + 2) p 0) 8))
        (nth (off + 3) p 0).

(** [buff[i] = v] on a buffer held as a list; a store past the end of the
    buffer is undefined in C and leaves the list unchanged here. *)
Fixpoint store (i : nat) (v : Z) (buff : list Z) : list Z :=
  match buff, i with
  | [], _ => []
  | _ :: t, O => v :: t
  | h :: t, S j => h :: store j v t
  end.

(** [bs] stored at [buff[off]], [buff[off + 1]], ... in this order. *)
Fixpoint store_bytes (off : nat) (bs : list Z) (buff : list Z) : list Z :=
  match bs with
  | [] => buff
  | b :: bs' => store_bytes (S off) bs' (store off b buff)
  end.

(** [memcmp(a, b, n) != 0] *)
Fixpoint memcmp_ne (a b : list Z) (n : nat) : bool :=
  match n with
  | O => false
  | S k => negb (nth 0 a 0 =? nth 0 b 0) || memcmp_ne (tl a) (tl b) k
  end.

(** ** Timing constants (lines 30-35) *)

Definition FW_ALIVE_TIMEOUT_US : Z := 1000000.
Definition MAILBOX_RETRY_US : Z := 1000.
Definition MAILBOX_TIMEOUT_US : Z := 5000000.
Definition LINK_TRAINING_RETRY_MS : Z := 20.
Definition LINK_TRAINING_TIMEOUT_MS : Z := 500.

(** ** Constants of the headers

    [drm/bridge/cdns-mhdp-common.h], [drm/drm_dp_helper.h] and the errno
    headers are not part of the verified sources; their constants are
    parameters, as is the tick rate [HZ] of the kernel configuration.  The
    only facts used about them are that the mailbox read-data register is
    distinct from the two flag registers and that the errno values and [HZ]
    are positive. *)

Class Header : Type := {
  EINVAL : Z;
  ETIMEDOUT : Z;
  MAILBOX_FULL_ADDR : Z;
  MAILBOX_EMPTY_ADDR : Z;
  MAILBOX0_WR_DATA : Z;
  MAILBOX0_RD_DATA : Z;
  MB_MODULE_ID_DP_TX : Z;
  MB_MODULE_ID_GENERAL : Z;
  GENERAL_MAIN_CONTROL : Z;
  GENERAL_READ_REGISTER : Z;
  GENERAL_WRITE_REGISTER : Z;
  DPTX_GET_EDID : Z;
  DPTX_READ_DPCD : Z;
  DPTX_TRAINING_CONTROL : Z;
  DPTX_READ_EVENT : Z;
  DPTX_READ_LINK_STAT : Z;
  DPTX_ADJUST_LT : Z;
  FW_STANDBY : Z;
  FW_ACTIVE : Z;
  LINK_TRAINING_RUN : Z;
  EQ_PHASE_FINISHED : Z;
  DP_LANE0_1_STATUS : Z;
  TU_SIZE : Z;
  YCBCR_4_2_2 : Z;
  BND_HSYNC2VSYNC : Z;
  VIF_BYPASS_INTERLACE : Z;
  HSYNC2VSYNC_POL_CTRL : Z;
  HZ : Z;
  drm_dp_bw_code_to_link_rate : Z -> Z;
  EINVAL_pos : 0 < EINVAL;
  ETIMEDOUT_pos : 0 < ETIMEDOUT;
  HZ_pos : 0 < HZ;
  rd_data_not_empty_flag : u32 MAILBOX0_RD_DATA <> u32 MAILBOX_EMPTY_ADDR;
  rd_data_not_full_flag : u32 MAILBOX0_RD_DATA <> u32 MAILBOX_FULL_ADDR
}.

(** ** The platform: MMIO and sleeping

    [readl]/[writel] act on absolute addresses.  [sleep us] lets the
    hardware run for a sleep of at least [us] microseconds and reports by how
    much the sleep overshot, in microseconds and in jiffies (negative
    answers count as no overshoot).  Bus accesses take no time of their own:
    the time they take on real hardware counts as overshoot of a sleep. *)

Class Platform : Type := {
  hw : Type;
  readl : Z -> hw -> Z * hw;
  writel : Z -> Z -> hw -> hw;
  sleep : Z -> hw -> (Z * Z) * hw
}.

Inductive bus_type_t : Type :=
| BUS_TYPE_NORMAL_APB
| BUS_TYPE_NORMAL_SAPB
| BUS_TYPE_LOW4K_APB
| BUS_TYPE_LOW4K_SAPB.

(** A logical bus access: [cdns_mhdp_bus_read(mhdp, offset)] returning [val],
    or [cdns_mhdp_bus_write(val, mhdp, offset)]. *)
Inductive bus_event : Type :=
| BusRead (offset val : Z)
| BusWrite (val offset : Z).

Section Mhdp.

Context {H : Header} {P : Platform}.

(** ** Device handle

    The fields of [struct cdns_mhdp_device] the modelled functions use,
    the platform state, the two clocks ([ktime_get()] in microseconds and
    [jiffies]) and the trace of logical bus accesses. *)

Record cdns_mhdp_device : Type := {
  bus_type : bus_type_t;
  regs_base : Z;
  regs_sec : Z;
  link_rate : Z;
  link_num_lanes : Z;
  io : hw;
  ktime : Z;
  jiffies : Z;
  trace : list bus_event
}.

Definition set_io (h : hw) (d : cdns_mhdp_device) : cdns_mhdp_device :=
  {| bus_type := bus_type d; regs_base := regs_base d; regs_sec := regs_sec d;
     link_rate := link_rate d; link_num_lanes := link_num_lanes d;
     io := h; ktime := ktime d; jiffies := jiffies d; trace := trace d |}.

Definition log (e : bus_event) (d : cdns_mhdp_device) : cdns_mhdp_device :=
  {| bus_type := bus_type d; regs_base := regs_base d; regs_sec := regs_sec d;
     link_rate := link_rate d; link_num_lanes := link_num_lanes d;
     io := io d; ktime := ktime d; jiffies := jiffies d;
     trace := trace d ++ [e] |}.

Definition set_link (rate lanes : Z) (d : cdns_mhdp_device) : cdns_mhdp_device :=
  {| bus_type := bus_type d; regs_base := regs_base d; regs_sec := regs_sec d;
     link_rate := rate; link_num_lanes := lanes;
     io := io d; ktime := ktime d; jiffies := jiffies d; trace := trace d |}.

Definition elapse (us j : Z) (h : hw) (d : cdns_mhdp_device) : cdns_mhdp_device :=
  {| bus_type := bus_type d; regs_base := regs_base d; regs_sec := regs_sec d;
     link_rate := link_rate d; link_num_lanes := link_num_lanes d;
     io := h; ktime := ktime d + us; jiffies := jiffies d + j;
     trace := trace d |}.

(** ** State monad over the device handle *)

Definition M (A : Type) : Type := cdns_mhdp_device -> A * cdns_mhdp_device.

Definition ret {A : Type} (a : A) : M A := fun d => (a, d).

Definition bind {A B : Type} (c : M A) (k : A -> M B) : M B :=
  fun d => let (a, d1) := c d in k a d1.

Notation "x <- c ;; k" := (bind c (fun x => k))
  (at level 61, c at next level, right associativity).
Notation "' pat <- c ;; k" := (bind c (fun x => match x with pat => k end))
  (at level 61, pat pattern, c at next level, right associativity).
Notation "c ;; k" := (bind c (fun _ => k))
  (at level 61, right associativity).

(** ** Sleeping

    [msecs_to_jiffies] rounds up; [usleep_range] and [msleep] sleep at
    least the time asked for. *)

Definition msecs_to_jiffies (m : Z) : Z := (m * HZ + 999) / 1000.

Definition sleep_for (us j : Z) : M unit := fun d =>
  let '((over_us, over_j), h) := sleep us (io d) in
  (tt, elapse (us + Z.max 0 over_us) (j + Z.max 0 over_j) h d).

Definition usleep_range (min max : Z) : M unit := sleep_for min 0.

Definition msleep (msecs : Z) : M unit :=
  sleep_for (msecs * 1000) (msecs_to_jiffies msecs).

(** ** Bus accessor (lines 74-118) *)

Definition mmio_readl (addr : Z) : M Z := fun d =>
  let (v, h) := readl addr (io d) in (u32 v, set_io h d).

Definition mmio_writel (val addr : Z) : M unit := fun d =>
  (tt, set_io (writel (u32 val) addr (io d)) d).

Definition cdns_mhdp_bus_read (offset : Z) : M Z := fun d =>
  let offset := u32 offset in
  let (val, d1) :=
    match bus_type d with
    | BUS_TYPE_LOW4K_SAPB =>
        (mmio_writel (Z.shiftr offset 12) (regs_sec d + 0xc) ;;
         mmio_readl (Z.land offset 0xfff + regs_base d)) d
    | BUS_TYPE_LOW4K_APB =>
        (mmio_writel (Z.shiftr offset 12) (regs_sec d + 8) ;;
         mmio_readl (Z.land offset 0xfff + regs_base d)) d
    | BUS_TYPE_NORMAL_SAPB => mmio_readl (regs_sec d + offset) d
    | BUS_TYPE_NORMAL_APB => mmio_readl (regs_base d + offset) d
    end in
  (val, log (BusRead offset val) d1).

Definition cdns_mhdp_bus_write (val offset : Z) : M unit := fun d =>
  let offset := u32 offset in
  let val := u32 val in
  let (_, d1) :=
    match bus_type d with
    | BUS_TYPE_LOW4K_SAPB =>
        (mmio_writel (Z.shiftr offset 12) (regs_sec d + 0xc) ;;
         mmio_writel val (Z.land offset 0xfff + regs_base d)) d
    | BUS_TYPE_LOW4K_APB =>
        (mmio_writel (Z.shiftr offset 12) (regs_sec d + 8) ;;
         mmio_writel val (Z.land offset 0xfff + regs_base d)) d
    | BUS_TYPE_NORMAL_SAPB => mmio_writel val (regs_sec d + offset) d
    | BUS_TYPE_NORMAL_APB => mmio_writel val (regs_base d + offset) d
    end in
  (tt, log (BusWrite val offset) d1).

(** ** [mhdp_readx_poll_timeout] (lines 37-56)

    [cond] is the loop condition on the value read.  Each turn that neither
    meets the condition nor finds the deadline passed sleeps at least
    [(sleep_us >> 2) + 1] microseconds, so [poll_turns] turns are enough for
    the deadline to pass (lemma [poll_loop_fuel]); the [O] branch is never
    taken with that many. *)

Fixpoint poll_loop (fuel : nat) (offset : Z) (cond : Z -> bool)
         (sleep_us timeout_us deadline : Z) : M Z :=
  val <- cdns_mhdp_bus_read offset ;;
  if cond val then ret val
  else fun d =>
    if negb (timeout_us =? 0) && (ktime d >? deadline)
    then cdns_mhdp_bus_read offset d
    else match fuel with
         | O => (val, d)
         | S fuel' =>
             ((if sleep_us =? 0 then ret tt
               else usleep_range (Z.shiftr sleep_us 2 + 1) sleep_us) ;;
              poll_loop fuel' offset cond sleep_us timeout_us deadline) d
         end.

Definition poll_turns (sleep_us timeout_us : Z) : nat :=
  Z.to_nat (timeout_us / (Z.shiftr sleep_us 2 + 1) + 1).

(** Returns the macro's value ([0] or [-ETIMEDOUT]) and the last [val]. *)
Definition mhdp_readx_poll_timeout (offset : Z) (cond : Z -> bool)
           (sleep_us timeout_us : Z) : M (Z * Z) := fun d =>
  let deadline := ktime d + timeout_us in
  let (val, d1) :=
    poll_loop (poll_turns sleep_us timeout_us) offset cond
              sleep_us timeout_us deadline d in
  ((if cond val then 0 else - ETIMEDOUT, val), d1).

(** ** Mailbox byte primitives (lines 182-209) *)

Definition cdns_mhdp_mailbox_read : M Z :=
  '(ret_, _) <- mhdp_readx_poll_timeout MAILBOX_EMPTY_ADDR
                  (fun val => s32 val =? 0)
                  MAILBOX_RETRY_US MAILBOX_TIMEOUT_US ;;
  if ret_ <? 0 then ret ret_
  else
    v <- cdns_mhdp_bus_read MAILBOX0_RD_DATA ;;
    ret (Z.land v 0xff).

Definition cdp_dp_mailbox_write (val : Z) : M Z :=
  '(ret_, _) <- mhdp_readx_poll_timeout MAILBOX_FULL_ADDR
                  (fun full => s32 full =? 0)
                  MAILBOX_RETRY_US MAILBOX_TIMEOUT_US ;;
  if ret_ <? 0 then ret ret_
  else
    cdns_mhdp_bus_write (u8 val) MAILBOX0_WR_DATA ;;
    ret 0.

(** ** Mailbox transport (lines 211-289) *)

(** The loop of [cdns_mhdp_mailbox_read_receive], also the header loop of
    [cdns_mhdp_mailbox_validate_receive]: [n] turns are left, [i] is the
    index. *)
Fixpoint read_loop (n i : nat) (buff : list Z) : M (Z * list Z) :=
  match n with
  | O => ret (0, buff)
  | S n' =>
      ret_ <- cdns_mhdp_mailbox_read ;;
      if ret_ <? 0 then ret (ret_, buff)
      else read_loop n' (S i) (store i (u8 ret_) buff)
  end.

(** The draining loop of lines 236-238. *)
Fixpoint drain_loop (n : nat) : M unit :=
  match n with
  | O => ret tt
  | S n' =>
      ret_ <- cdns_mhdp_mailbox_read ;;
      if ret_ <? 0 then ret tt else drain_loop n'
  end.

Definition cdns_mhdp_mailbox_validate_receive
           (module_id opcode req_size : Z) : M Z :=
  let module_id := u8 module_id in
  let opcode := u8 opcode in
  let req_size := u16 req_size in
  '(ret_, header) <- read_loop 4 0 [0; 0; 0; 0] ;;
  if ret_ <? 0 then ret ret_
  else
    let mbox_size := get_unaligned_be16 header 2 in
    if negb (opcode =? nth 0 header 0) || negb (module_id =? nth 1 header 0)
       || negb (req_size =? mbox_size)
    then drain_loop (Z.to_nat mbox_size) ;; ret (- EINVAL)
    else ret 0.

(** Returns the status and the buffer as the call leaves it. *)
Definition cdns_mhdp_mailbox_read_receive (buff : list Z) (buff_size : Z)
  : M (Z * list Z) :=
  read_loop (Z.to_nat (u16 buff_size)) 0 buff.

(** The two loops of [cdns_mhdp_mailbox_send]. *)
Fixpoint write_loop (n i : nat) (buf : list Z) : M Z :=
  match n with
  | O => ret 0
  | S n' =>
      ret_ <- cdp_dp_mailbox_write (nth i buf 0) ;;
      if negb (ret_ =? 0) then ret ret_
      else write_loop n' (S i) buf
  end.

Definition cdns_mhdp_mailbox_send (module_id opcode size : Z)
           (message : list Z) : M Z :=
  let module_id := u8 module_id in
  let opcode := u8 opcode in
  let size := u16 size in
  let header := [opcode; module_id] ++ put_unaligned_be16 size in
  ret_ <- write_loop 4 0 header ;;
  if negb (ret_ =? 0) then ret ret_
  else write_loop (Z.to_nat size) 0 message.

(** ** Register access (lines 291-346); [DRM_DEV_ERROR] only logs. *)

Definition cdns_mhdp_reg_read (addr : Z) : M Z :=
  let addr := u32 addr in
  if addr =? 0 then ret (- EINVAL)
  else
    let msg := put_unaligned_be32 addr in
    ret_ <- cdns_mhdp_mailbox_send MB_MODULE_ID_GENERAL
              GENERAL_READ_REGISTER 4 msg ;;
    if negb (ret_ =? 0) then ret ret_
    else
      ret_ <- cdns_mhdp_mailbox_validate_receive MB_MODULE_ID_GENERAL
                GENERAL_READ_REGISTER 8 ;;
      if negb (ret_ =? 0) then ret ret_
      else
        '(ret_, resp) <- cdns_mhdp_mailbox_read_receive
                           [0; 0; 0; 0; 0; 0; 0; 0] 8 ;;
        if negb (ret_ =? 0) then ret ret_
        else if memcmp_ne msg resp 4 then ret (- EINVAL)
        else ret (s32 (get_unaligned_be32 resp 4)).

Definition cdns_mhdp_reg_write (addr val : Z) : M Z :=
  let msg := put_unaligned_be32 addr ++ put_unaligned_be32 val in
  cdns_mhdp_mailbox_send MB_MODULE_ID_GENERAL GENERAL_WRITE_REGISTER 8 msg.

(** ** Firmware activation (lines 470-503) *)

Definition cdns_mhdp_set_firmware_active (enable : bool) : M Z :=
  let msg := [u8 GENERAL_MAIN_CONTROL; u8 MB_MODULE_ID_GENERAL; 0; 1;
              u8 (if enable then FW_ACTIVE else FW_STANDBY)] in
  ret_ <- write_loop 5 0 msg ;;
  if negb (ret_ =? 0) then ret ret_
  else
    '(ret_, _) <- read_loop 5 0 msg ;;
    if ret_ <? 0 then ret ret_
    else ret 0.

(** ** EDID block fetch (lines 588-629)

    [n] turns of the [for] loop are left; [ret_] carries the C variable
    [ret] from one turn to the next ([continue]) and out of the loop. *)

Fixpoint edid_loop (n : nat) (block length : Z) (ret_ : Z)
         (reg edid : list Z) : M (Z * list Z) :=
  match n with
  | O => ret (ret_, edid)
  | S n' =>
      let msg := [u8 (block / 2); u8 (block mod 2)] in
      ret_ <- cdns_mhdp_mailbox_send MB_MODULE_ID_DP_TX DPTX_GET_EDID 2 msg ;;
      if negb (ret_ =? 0) then edid_loop n' block length ret_ reg edid
      else
        ret_ <- cdns_mhdp_mailbox_validate_receive MB_MODULE_ID_DP_TX
                  DPTX_GET_EDID (u64 (2 + length)) ;;
        if negb (ret_ =? 0) then edid_loop n' block length ret_ reg edid
        else
          '(ret_, reg) <- cdns_mhdp_mailbox_read_receive reg 2 ;;
          if negb (ret_ =? 0) then edid_loop n' block length ret_ reg edid
          else
            '(ret_, edid) <- cdns_mhdp_mailbox_read_receive edid length ;;
            if negb (ret_ =? 0) then edid_loop n' block length ret_ reg edid
            else if (nth 0 reg 0 =? length) && (nth 1 reg 0 =? block / 2)
                 then ret (ret_, edid)
                 else edid_loop n' block length ret_ reg edid
  end.

(** [ret] and [reg] are uninitialised on entry and written before they are
    read, the loop making four turns; they start as zeros here. *)
Definition cdns_mhdp_get_edid_block (edid : list Z) (block length : Z)
  : M (Z * list Z) :=
  edid_loop 4 (u32 block) (u64 length) 0 [0; 0] edid.

(** ** Link training (lines 631-728) *)

(** What one turn of the polling loop of [cdns_mhdp_training_start] met: a
    failing mailbox call, or an event response whose second byte is given.
    The list of rounds is a ghost result; the C function returns the status
    alone. *)
Inductive poll_round : Type :=
| RoundFailed (ret_ : Z)
| RoundEvent (event1 : Z).

(** A round that delivered an event without the equalization-finished
    flag. *)
Definition round_quiet (r : poll_round) : bool :=
  match r with
  | RoundEvent event1 => Z.land event1 EQ_PHASE_FINISHED =? 0
  | RoundFailed _ => false
  end.

Definition log_round (r : poll_round) (c : M (Z * list poll_round))
  : M (Z * list poll_round) :=
  '(ret_, rounds) <- c ;; ret (ret_, r :: rounds).

(** The [while (time_before(jiffies, timeout))] loop.  Every turn sleeps at
    least one jiffy, so [msecs_to_jiffies 500] turns are enough (lemma
    [training_poll_fuel]); the [O] branch is never taken with that many. *)
Fixpoint training_poll (fuel : nat) (timeout : Z) (event : list Z)
  : M (Z * list poll_round) := fun d =>
  if jiffies d <? timeout then
    match fuel with
    | O => ((- ETIMEDOUT, []), d)
    | S fuel' =>
        (msleep LINK_TRAINING_RETRY_MS ;;
         ret_ <- cdns_mhdp_mailbox_send MB_MODULE_ID_DP_TX DPTX_READ_EVENT 0 [] ;;
         if negb (ret_ =? 0) then ret (ret_, [RoundFailed ret_])
         else
           ret_ <- cdns_mhdp_mailbox_validate_receive MB_MODULE_ID_DP_TX
                     DPTX_READ_EVENT 2 ;;
           if negb (ret_ =? 0) then ret (ret_, [RoundFailed ret_])
           else
             '(ret_, event) <- cdns_mhdp_mailbox_read_receive event 2 ;;
             if negb (ret_ =? 0) then ret (ret_, [RoundFailed ret_])
             else if negb (Z.land (nth 1 event 0) EQ_PHASE_FINISHED =? 0)
                  then ret (0, [RoundEvent (nth 1 event 0)])
                  else log_round (RoundEvent (nth 1 event 0))
                         (training_poll fuel' timeout event)) d
    end
  else ((- ETIMEDOUT, []), d).

(** Status and rounds; [None] for the rounds when the start command itself
    could not be sent. *)
Definition training_start_rounds : M (Z * option (list poll_round)) :=
  let msg := [u8 LINK_TRAINING_RUN] in
  ret_ <- cdns_mhdp_mailbox_send MB_MODULE_ID_DP_TX DPTX_TRAINING_CONTROL 1 msg ;;
  if negb (ret_ =? 0) then ret (ret_, None)
  else fun d =>
    let timeout := jiffies d + msecs_to_jiffies LINK_TRAINING_TIMEOUT_MS in
    let '((ret_, rounds), d1) :=
      training_poll (Z.to_nat (msecs_to_jiffies LINK_TRAINING_TIMEOUT_MS))
                    timeout [0; 0] d in
    ((ret_, Some rounds), d1).

Definition cdns_mhdp_training_start : M Z :=
  '(ret_, _) <- training_start_rounds ;; ret ret_.

Definition cdns_mhdp_get_training_status : M Z :=
  ret_ <- cdns_mhdp_mailbox_send MB_MODULE_ID_DP_TX DPTX_READ_LINK_STAT 0 [] ;;
  if negb (ret_ =? 0) then ret ret_
  else
    ret_ <- cdns_mhdp_mailbox_validate_receive MB_MODULE_ID_DP_TX
              DPTX_READ_LINK_STAT 10 ;;
    if negb (ret_ =? 0) then ret ret_
    else
      '(ret_, status) <- cdns_mhdp_mailbox_read_receive
                           [0; 0; 0; 0; 0; 0; 0; 0; 0; 0] 10 ;;
      if negb (ret_ =? 0) then ret ret_
      else fun d =>
        (ret_, set_link (u32 (drm_dp_bw_code_to_link_rate (nth 0 status 0)))
                        (nth 1 status 0) d).

Definition cdns_mhdp_train_link : M Z :=
  ret_ <- cdns_mhdp_training_start ;;
  if negb (ret_ =? 0) then ret ret_
  else cdns_mhdp_get_training_status.

(** ** Link-training adjustment (lines 949-998)

    [payload0] is what the uninitialised array [payload] holds on entry; the
    result carries the caller's [dpcd] buffer as the call leaves it. *)

(** Lines 965-967: the request built in [payload]. *)
Definition adjust_lt_payload (payload0 : list Z) (nlanes udelay : Z)
           (lanes_data : list Z) : list Z :=
  store_bytes 3 (firstn (Z.to_nat nlanes) lanes_data)
    (store_bytes 1 (put_unaligned_be16 udelay) (store 0 nlanes payload0)).

Definition cdns_mhdp_adjust_lt (payload0 : list Z) (nlanes udelay : Z)
           (lanes_data dpcd : list Z) : M (Z * list Z) :=
  let nlanes := u8 nlanes in
  let nregs := 6 in
  if negb (nlanes =? 4) && negb (nlanes =? 2) && negb (nlanes =? 1)
  then ret (- EINVAL, dpcd)
  else
    let payload := adjust_lt_payload payload0 nlanes udelay lanes_data in
    ret_ <- cdns_mhdp_mailbox_send MB_MODULE_ID_DP_TX DPTX_ADJUST_LT 7 payload ;;
    if negb (ret_ =? 0) then ret (ret_, dpcd)
    else
      ret_ <- cdns_mhdp_mailbox_validate_receive MB_MODULE_ID_DP_TX
                DPTX_READ_DPCD (5 + nregs) ;;
      if negb (ret_ =? 0) then ret (ret_, dpcd)
      else
        '(ret_, hdr) <- cdns_mhdp_mailbox_read_receive [0; 0; 0; 0; 0] 5 ;;
        if negb (ret_ =? 0) then ret (ret_, dpcd)
        else
          let addr := u32 (get_unaligned_be24 hdr 2) in
          if negb (addr =? u32 DP_LANE0_1_STATUS) then ret (ret_, dpcd)
          else cdns_mhdp_mailbox_read_receive dpcd nregs.

(** ** Transfer-unit search of [cdns_mhdp_config_video] (lines 793-836) *)

(** How the [do ... while] loop of lines 822-836 ends: with a solution, with
    the error of line 828, or in the division of line 825 by zero, which C
    leaves undefined. *)
Inductive tu_outcome : Type :=
| TuFound (tu_size_reg symbol rem : Z)
| TuError (ret_ : Z)
| TuDivideByZero.

(** [clock] is [mode->clock] (an [int]), [num_lanes] the [unsigned int]
    field [dp.link.num_lanes], [bit_per_pix], [link_rate] and [tu_size_reg]
    the locals.  [None] only when the turns run out, which
    [tu_search_total] excludes. *)
Fixpoint tu_loop (fuel : nat) (clock bit_per_pix num_lanes link_rate : Z)
         (tu_size_reg : Z) : option tu_outcome :=
  match fuel with
  | O => None
  | S fuel' =>
      let tu_size_reg := u8 (tu_size_reg + 2) in
      let symbol := u64 (u64 (tu_size_reg * u64 clock) * bit_per_pix) in
      let base := u32 (u32 (num_lanes * link_rate) * 8) in
      if base =? 0 then Some TuDivideByZero
      else
        let symbol := symbol / base in
        let rem := u32 (symbol mod 1000) in
        let symbol := symbol / 1000 in
        if tu_size_reg >? 64 then Some (TuError (- EINVAL))
        else if (symbol <=? 1) || (u64 (tu_size_reg - symbol) <? 4)
                || (rem >? 850) || (rem <? 100)
             then tu_loop fuel' clock bit_per_pix num_lanes link_rate tu_size_reg
             else Some (TuFound tu_size_reg symbol rem)
  end.

Definition tu_search (clock bit_per_pix num_lanes link_rate : Z)
  : option tu_outcome :=
  tu_loop 130 clock (u8 bit_per_pix) (u32 num_lanes) (u32 link_rate)
          (u8 TU_SIZE).

(** The constraints on a transfer-unit size over unbounded integers:
    [valid_symbol_milli] is the valid-symbol value in thousandths,
    [tu_fits] asks for an integer part above 1, a margin of at least 4 and a
    remainder from 100 to 850, [tu_candidate] lists the sizes examined:
    [TU_SIZE + 2], [TU_SIZE + 4], ... up to 64. *)
Definition valid_symbol_milli (clock bit_per_pix num_lanes link_rate tu : Z) : Z :=
  tu * clock * bit_per_pix / (num_lanes * link_rate * 8).

Definition tu_fits (clock bit_per_pix num_lanes link_rate tu : Z) : Prop :=
  let vs := valid_symbol_milli clock bit_per_pix num_lanes link_rate tu in
  1 < vs / 1000 /\ 4 <= tu - vs / 1000 /\ 100 <= vs mod 1000 <= 850.

Definition tu_candidate (tu : Z) : Prop :=
  exists k, 1 <= k /\ tu = TU_SIZE + 2 * k /\ tu <= 64.

(** Lines 793-836: [color_fmt], [color_depth] come from [mhdp->video_info],
    [clock] from [mhdp->mode].  The result is the outcome of the search, or
    the error of a register write that failed before it. *)
Definition cdns_mhdp_config_video_tu (color_fmt color_depth clock : Z)
  : M (option tu_outcome) :=
  let bit_per_pix :=
    u8 (if color_fmt =? YCBCR_4_2_2 then color_depth * 2 else color_depth * 3) in
  fun d =>
  let link_rate := u32 (link_rate d) / 1000 in
  (ret_ <- cdns_mhdp_reg_write BND_HSYNC2VSYNC VIF_BYPASS_INTERLACE ;;
   if negb (ret_ =? 0) then ret (Some (TuError ret_))
   else
     ret_ <- cdns_mhdp_reg_write HSYNC2VSYNC_POL_CTRL 0 ;;
     if negb (ret_ =? 0) then ret (Some (TuError ret_))
     else fun d2 =>
       (tu_search clock bit_per_pix (link_num_lanes d2) link_rate, d2)) d.

(** ** What a trace says about the mailbox *)

(** Bytes taken from the read-data register, oldest first. *)
Fixpoint rd_bytes (t : list bus_event) : list Z :=
  match t with
  | [] => []
  | BusRead offset val :: t' =>
      if offset =? u32 MAILBOX0_RD_DATA then Z.land val 0xff :: rd_bytes t'
      else rd_bytes t'
  | BusWrite _ _ :: t' => rd_bytes t'
  end.

(** Bytes put into the write-data register, oldest first. *)
Fixpoint wr_bytes (t : list bus_event) : list Z :=
  match t with
  | [] => []
  | BusWrite val offset :: t' =>
      if offset =? u32 MAILBOX0_WR_DATA then val :: wr_bytes t'
      else wr_bytes t'
  | BusRead _ _ :: t' => wr_bytes t'
  end.

Definition mbox_rd (d : cdns_mhdp_device) : list Z := rd_bytes (trace d).
Definition mbox_wr (d : cdns_mhdp_device) : list Z := wr_bytes (trace d).

(** A trace made of polls of the full flag and of byte writes, every write
    next after a poll that found the flag clear. *)
Inductive gated_writes : list bus_event -> Prop :=
| gated_nil : gated_writes []
| gated_poll : forall full t,
    gated_writes t ->
    gated_writes (BusRead (u32 MAILBOX_FULL_ADDR) full :: t)
| gated_write : forall b t,
    gated_writes t ->
    gated_writes (BusRead (u32 MAILBOX_FULL_ADDR) 0
                  :: BusWrite b (u32 MAILBOX0_WR_DATA) :: t).


(** The trace ends with a poll of [flag] that found it still set: the mark a
    timed-out [mhdp_readx_poll_timeout] leaves. *)
Definition ends_flag_set (flag : Z) (t : list bus_event) : Prop :=
  exists t' val, t = t' ++ [BusRead (u32 flag) val] /\ val <> 0.

(** The bytes [buf[i]], ..., [buf[i + n - 1]] as [write_loop] hands them to
    the mailbox. *)
Definition sent_window (i n : nat) (buf : list Z) : list Z :=
  map (fun j => u8 (nth j buf 0)) (seq i n).

(** The two requests [cdns_mhdp_training_start] sends, as mailbox frames. *)
Definition training_request : list Z :=
  [u8 DPTX_TRAINING_CONTROL; u8 MB_MODULE_ID_DP_TX; 0; 1; u8 LINK_TRAINING_RUN].

Definition event_request : list Z :=
  [u8 DPTX_READ_EVENT; u8 MB_MODULE_ID_DP_TX; 0; 0].

(** The part of the handle no modelled mailbox call changes. *)
Definition same_config (d d' : cdns_mhdp_device) : Prop :=
  bus_type d' = bus_type d /\ regs_base d' = regs_base d /\
  regs_sec d' = regs_sec d /\ link_rate d' = link_rate d /\
  link_num_lanes d' = link_num_lanes d.

(** [d'] is reached from [d] by bus accesses [evs] and sleeps. *)
Definition run (d d' : cdns_mhdp_device) (evs : list bus_event) : Prop :=
  same_config d d' /\ ktime d <= ktime d' /\ jiffies d <= jiffies d' /\
  trace d' = trace d ++ evs.

(** The mailbox side of [run]: bytes read and bytes written. *)
Definition exchange (d d' : cdns_mhdp_device) (rd wr : list Z) : Prop :=
  exists evs, run d d' evs /\ rd_bytes evs = rd /\ wr_bytes evs = wr.

End Mhdp.

(** * Layerscape Gen4 PCIe: config reads (pcie-layerscape-gen4.c) *)

Definition REV_1_0 : Z := 0x10.
Definition PCIE_LUT_OFF : Z := 0x80000.
Definition PCIE_LUT_GCR : Z := 0x28.
Definition PCIE_LUT_GCR_RRE : Z := 0.

(** [iowrite32], [pci_generic_config_read] and the register offset
    [PCI_VENDOR_ID] belong to the rest of the kernel.  The generic read
    yields its status and the value stored through [val]. *)
Class PciPlatform : Type := {
  pci_hw : Type;
  iowrite32 : Z -> Z -> pci_hw -> pci_hw;
  pci_generic_config_read : Z -> Z -> Z -> Z -> pci_hw -> (Z * Z) * pci_hw;
  PCI_VENDOR_ID : Z
}.

Inductive pcie_event : Type :=
| LutWrite (off val : Z)
| ConfigRead (bus devfn where_ size : Z).

Section LsPcieG4.

Context {PP : PciPlatform}.

Record ls_pcie_g4 : Type := {
  csr_axi_slave_base : Z;
  rev : Z;
  pci_io : pci_hw;
  pci_trace : list pcie_event
}.

Definition ls_pcie_g4_lut_writel (off val : Z) (pcie : ls_pcie_g4) : ls_pcie_g4 :=
  {| csr_axi_slave_base := csr_axi_slave_base pcie;
     rev := rev pcie;
     pci_io := iowrite32 (u32 val)
                 (csr_axi_slave_base pcie + PCIE_LUT_OFF + u32 off) (pci_io pcie);
     pci_trace := pci_trace pcie ++ [LutWrite (u32 off) (u32 val)] |}.

Definition generic_config_read (bus devfn where_ size : Z) (pcie : ls_pcie_g4)
  : (Z * Z) * ls_pcie_g4 :=
  let (r, h) := pci_generic_config_read bus devfn where_ size (pci_io pcie) in
  (r, {| csr_axi_slave_base := csr_axi_slave_base pcie;
         rev := rev pcie;
         pci_io := h;
         pci_trace := pci_trace pcie ++ [ConfigRead bus devfn where_ size] |}).

(** Lines 238-256; the result is the returned status with [*val]. *)
Definition ls_pcie_g4_read_other_conf (bus devfn where_ size : Z)
           (pcie : ls_pcie_g4) : (Z * Z) * ls_pcie_g4 :=
  let pcie1 :=
    if (rev pcie =? REV_1_0) && (where_ =? PCI_VENDOR_ID)
    then ls_pcie_g4_lut_writel PCIE_LUT_GCR (Z.shiftl 0 PCIE_LUT_GCR_RRE) pcie
    else pcie in
  let (r, pcie2) := generic_config_read bus devfn where_ size pcie1 in
  let pcie3 :=
    if (rev pcie2 =? REV_1_0) && (where_ =? PCI_VENDOR_ID)
    then ls_pcie_g4_lut_writel PCIE_LUT_GCR (Z.shiftl 1 PCIE_LUT_GCR_RRE) pcie2
    else pcie2 in
  (r, pcie3).

(** Values written to the LUT register at [off], oldest first. *)
Fixpoint lut_writes (off : Z) (t : list pcie_event) : list Z :=
  match t with
  | [] => []
  | LutWrite o v :: t' => if o =? off then v :: lut_writes off t' else lut_writes off t'
  | ConfigRead _ _ _ _ :: t' => lut_writes off t'
  end.

End LsPcieG4.

(** * A scripted firmware

    A platform for running the model on concrete exchanges: the bytes the
    firmware will answer with are queued in [rx], the write FIFO takes
    [tx_room] more bytes and then stays full, and every sleep overshoots by
    [over_us] microseconds and [over_j] jiffies.  The mailbox registers sit
    at the offsets of [sample_header], reached through the plain APB window
    at base address 0. *)

Record fifo : Type := {
  rx : list Z;
  tx_room : nat;
  tx : list Z;
  over_us : Z;
  over_j : Z
}.

Definition fifo_readl (addr : Z) (f : fifo) : Z * fifo :=
  if addr =? 0x0c then ((match rx f with [] => 1 | _ => 0 end), f)
  else if addr =? 0x14 then
    (hd 0 (rx f),
     {| rx := tl (rx f); tx_room := tx_room f; tx := tx f;
        over_us := over_us f; over_j := over_j f |})
  else if addr =? 0x08 then ((match tx_room f with O => 1 | S _ => 0 end), f)
  else (0, f).

Definition fifo_writel (val addr : Z) (f : fifo) : fifo :=
  if addr =? 0x10 then
    match tx_room f with
    | O => f
    | S room => {| rx := rx f; tx_room := room; tx := tx f ++ [val];
                   over_us := over_us f; over_j := over_j f |}
    end
  else f.

Definition fifo_sleep (us : Z) (f : fifo) : (Z * Z) * fifo :=
  ((over_us f, over_j f), f).

Definition fifo_platform : Platform :=
  {| hw := fifo; readl := fifo_readl; writel := fifo_writel; sleep := fifo_sleep |}.

(** Sample values for the constants of the missing headers. *)
Definition sample_header : Header :=
  {| EINVAL := 22;
     ETIMEDOUT := 110;
     MAILBOX_FULL_ADDR := 0x08;
     MAILBOX_EMPTY_ADDR := 0x0c;
     MAILBOX0_WR_DATA := 0x10;
     MAILBOX0_RD_DATA := 0x14;
     MB_MODULE_ID_DP_TX := 0x01;
     MB_MODULE_ID_GENERAL := 0x0a;
     GENERAL_MAIN_CONTROL := 0x01;
     GENERAL_READ_REGISTER := 0x07;
     GENERAL_WRITE_REGISTER := 0x05;
     DPTX_GET_EDID := 0x02;
     DPTX_READ_DPCD := 0x03;
     DPTX_TRAINING_CONTROL := 0x09;
     DPTX_READ_EVENT := 0x0a;
     DPTX_READ_LINK_STAT := 0x0b;
     DPTX_ADJUST_LT := 0x12;
     FW_STANDBY := 0;
     FW_ACTIVE := 1;
     LINK_TRAINING_RUN := 1;
     EQ_PHASE_FINISHED := 8;
     DP_LANE0_1_STATUS := 0x202;
     TU_SIZE := 30;
     YCBCR_4_2_2 := 2;
     BND_HSYNC2VSYNC := 0x0b00;
     VIF_BYPASS_INTERLACE := 0x2000;
     HSYNC2VSYNC_POL_CTRL := 0x0b10;
     HZ := 250;
     drm_dp_bw_code_to_link_rate := fun bw => bw * 27000;
     EINVAL_pos := eq_refl;
     ETIMEDOUT_pos := eq_refl;
     HZ_pos := eq_refl;
     rd_data_not_empty_flag := proj1 (Z.eqb_neq (u32 0x14) (u32 0x0c)) eq_refl;
     rd_data_not_full_flag := proj1 (Z.eqb_neq (u32 0x14) (u32 0x08)) eq_refl |}.

(** The handle at the start of a run. *)
Definition fresh (f : fifo) : @cdns_mhdp_device fifo_platform :=
  @Build_cdns_mhdp_device fifo_platform
    BUS_TYPE_NORMAL_APB 0 0 0 0 f 0 0 [].

(** A firmware that has queued [answers], takes every byte written and lets
    sleeps overshoot by six seconds, so that a poll of a flag that stays set
    ends after two turns. *)
Definition answering (answers : list Z) : fifo :=
  {| rx := answers; tx_room := 4096; tx := []; over_us := 6000000; over_j := 0 |}.


(** Answers of the firmware in the mailbox frame format, with the module
    ids and opcodes of [sample_header]. *)
Definition reply (opcode module_id : Z) (payload : list Z) : list Z :=
  [opcode; module_id] ++ put_unaligned_be16 (Z.of_nat (length payload))
  ++ payload.

Definition reg_read_reply (addr val : Z) : list Z :=
  reply 0x07 0x0a (put_unaligned_be32 addr ++ put_unaligned_be32 val).

Definition event_reply (event1 : Z) : list Z :=
  reply 0x0a 0x01 [0; event1].

Definition edid_reply (len segment : Z) (data : list Z) : list Z :=
  reply 0x02 0x01 ([len; segment] ++ data).

Definition dpcd_reply (addr : Z) (data : list Z) : list Z :=
  reply 0x03 0x01
    (put_unaligned_be16 (Z.of_nat (length data)) ++ put_unaligned_be24 addr
     ++ data).

(** A root port that keeps the [iowrite32] accesses, newest first, and whose
    generic config read answers with a fixed vendor ID. *)
Definition table_pci : PciPlatform :=
  {| pci_hw := list (Z * Z);
     iowrite32 := fun val addr h => (addr, val) :: h;
     pci_generic_config_read := fun bus devfn where_ size h =>
       ((0, if where_ =? 0 then 0x1957 else 0xffff), h);
     PCI_VENDOR_ID := 0 |}.

(** * Further commands of cdns-mhdp-common.c

    The DPCD, hot-plug, field-write, PHY, firmware-load and keep-alive
    functions, over the same handle, monad and transport as above.  Their
    opcodes and register offsets again come from
    [drm/bridge/cdns-mhdp-common.h] and are parameters. *)

Class CommandHeader : Type := {
  DPTX_WRITE_DPCD : Z;
  DPTX_ENABLE_EVENT : Z;
  DPTX_WRITE_FIELD : Z;
  DPTX_SET_VIDEO : Z;
  DPTX_HPD_STATE : Z;
  GENERAL_GET_HPD_STATE : Z;
  MHDP_EVENT_ENABLE_HPD : Z;
  MHDP_EVENT_ENABLE_TRAINING : Z;
  ADDR_PHY_AFE : Z;
  ADDR_IMEM : Z;
  ADDR_DMEM : Z;
  APB_CTRL : Z;
  APB_IRAM_PATH : Z;
  APB_DRAM_PATH : Z;
  APB_XT_RESET : Z;
  KEEP_ALIVE : Z;
  VER_L : Z;
  VER_H : Z;
  VER_LIB_L_ADDR : Z;
  VER_LIB_H_ADDR : Z
}.

Section MhdpCommands.

Context {H : Header} {C : CommandHeader} {P : Platform}.

Local Notation "x <- c ;; k" := (bind c (fun x => k))
  (at level 61, c at next level, right associativity).
Local Notation "' pat <- c ;; k" := (bind c (fun x => match x with pat => k end))
  (at level 61, pat pattern, c at next level, right associativity).
Local Notation "c ;; k" := (bind c (fun _ => k))
  (at level 61, right associativity).

(** ** Field write (lines 348-361) *)

Definition cdns_mhdp_reg_write_bit (addr start_bit bits_no val : Z) : M Z :=
  let field := put_unaligned_be16 addr ++ [u8 start_bit; u8 bits_no]
               ++ put_unaligned_be32 val in
  cdns_mhdp_mailbox_send MB_MODULE_ID_DP_TX DPTX_WRITE_FIELD 8 field.

(** ** DPCD access (lines 363-425)

    [reg] is uninitialised on entry and starts as zeros here; the result of
    [cdns_mhdp_dpcd_read] carries the caller's [data] buffer as the call
    leaves it. *)

Definition cdns_mhdp_dpcd_read (addr : Z) (data : list Z) (len : Z)
  : M (Z * list Z) :=
  let len := u16 len in
  let msg := put_unaligned_be16 len ++ put_unaligned_be24 addr in
  ret_ <- cdns_mhdp_mailbox_send MB_MODULE_ID_DP_TX DPTX_READ_DPCD 5 msg ;;
  if negb (ret_ =? 0) then ret (ret_, data)
  else
    ret_ <- cdns_mhdp_mailbox_validate_receive MB_MODULE_ID_DP_TX
              DPTX_READ_DPCD (5 + len) ;;
    if negb (ret_ =? 0) then ret (ret_, data)
    else
      '(ret_, reg) <- cdns_mhdp_mailbox_read_receive [0; 0; 0; 0; 0] 5 ;;
      if negb (ret_ =? 0) then ret (ret_, data)
      else cdns_mhdp_mailbox_read_receive data len.

Definition cdns_mhdp_dpcd_write (addr value : Z) : M Z :=
  let addr := u32 addr in
  let msg := put_unaligned_be16 1 ++ put_unaligned_be24 addr ++ [u8 value] in
  ret_ <- cdns_mhdp_mailbox_send MB_MODULE_ID_DP_TX DPTX_WRITE_DPCD 6 msg ;;
  if negb (ret_ =? 0) then ret ret_
  else
    ret_ <- cdns_mhdp_mailbox_validate_receive MB_MODULE_ID_DP_TX
              DPTX_WRITE_DPCD 5 ;;
    if negb (ret_ =? 0) then ret ret_
    else
      '(ret_, reg) <- cdns_mhdp_mailbox_read_receive [0; 0; 0; 0; 0] 5 ;;
      if negb (ret_ =? 0) then ret ret_
      else if negb (addr =? u32 (get_unaligned_be24 reg 2)) then ret (- EINVAL)
           else ret ret_.

(** ** Firmware load (lines 427-468)

    The two loops count [i], an [int], in bytes and take the words of the
    image one after another; for a size of at most [2^31 - 4], where [i]
    stays in range, they make [(size + 3) / 4] turns.  The result carries
    what the call leaves in [mhdp->fw_version], [None] when it does not
    write the field. *)

Fixpoint load_loop (n : nat) (base i : Z) (mem : list Z) : M unit :=
  match n with
  | O => ret tt
  | S n' =>
      cdns_mhdp_bus_write (hd 0 mem) (base + i) ;;
      load_loop n' base (i + 4) (tl mem)
  end.

Definition load_turns (size : Z) : nat := Z.to_nat ((u32 size + 3) / 4).

Definition cdns_mhdp_load_firmware (i_mem : list Z) (i_size : Z)
           (d_mem : list Z) (d_size : Z) : M (Z * option Z) :=
  cdns_mhdp_bus_write (Z.lor (Z.lor APB_IRAM_PATH APB_DRAM_PATH) APB_XT_RESET)
                      APB_CTRL ;;
  load_loop (load_turns i_size) ADDR_IMEM 0 i_mem ;;
  load_loop (load_turns d_size) ADDR_DMEM 0 d_mem ;;
  cdns_mhdp_bus_write 0 APB_CTRL ;;
  '(ret_, _) <- mhdp_readx_poll_timeout KEEP_ALIVE
                  (fun reg => negb (reg =? 0))
                  2000 FW_ALIVE_TIMEOUT_US ;;
  if ret_ <? 0 then ret (- EINVAL, None)
  else
    reg <- cdns_mhdp_bus_read VER_L ;;
    let fw_version := Z.land reg 0xff in
    reg <- cdns_mhdp_bus_read VER_H ;;
    let fw_version := Z.lor fw_version (Z.shiftl (Z.land reg 0xff) 8) in
    reg <- cdns_mhdp_bus_read VER_LIB_L_ADDR ;;
    let fw_version := Z.lor fw_version (Z.shiftl (Z.land reg 0xff) 16) in
    reg <- cdns_mhdp_bus_read VER_LIB_H_ADDR ;;
    let fw_version := Z.lor fw_version (Z.shiftl (Z.land reg 0xff) 24) in
    ret (0, Some fw_version).

(** ** Event configuration and hot-plug state (lines 536-586, 1012-1037) *)

Definition cdns_mhdp_event_config : M Z :=
  let msg := [u8 (Z.lor MHDP_EVENT_ENABLE_HPD MHDP_EVENT_ENABLE_TRAINING);
              0; 0; 0; 0] in
  cdns_mhdp_mailbox_send MB_MODULE_ID_DP_TX DPTX_ENABLE_EVENT 5 msg.

Definition cdns_mhdp_get_hpd_status : M Z :=
  ret_ <- cdns_mhdp_mailbox_send MB_MODULE_ID_DP_TX DPTX_HPD_STATE 0 [] ;;
  if negb (ret_ =? 0) then ret ret_
  else
    ret_ <- cdns_mhdp_mailbox_validate_receive MB_MODULE_ID_DP_TX
              DPTX_HPD_STATE 1 ;;
    if negb (ret_ =? 0) then ret ret_
    else
      '(ret_, status) <- cdns_mhdp_mailbox_read_receive [0] 1 ;;
      if negb (ret_ =? 0) then ret ret_
      else ret (nth 0 status 0).

Definition cdns_mhdp_read_hpd : M Z :=
  ret_ <- cdns_mhdp_mailbox_send MB_MODULE_ID_GENERAL GENERAL_GET_HPD_STATE
            0 [] ;;
  if negb (ret_ =? 0) then ret ret_
  else
    ret_ <- cdns_mhdp_mailbox_validate_receive MB_MODULE_ID_GENERAL
              GENERAL_GET_HPD_STATE 1 ;;
    if negb (ret_ =? 0) then ret ret_
    else
      '(ret_, status) <- cdns_mhdp_mailbox_read_receive [0] 1 ;;
      if negb (ret_ =? 0) then ret ret_
      else ret (nth 0 status 0).

(** ** Video on/off (lines 730-744); [active] is an [int]. *)

Definition cdns_mhdp_set_video_status (active : Z) : M Z :=
  let msg := [if active =? 0 then 0 else 1] in
  cdns_mhdp_mailbox_send MB_MODULE_ID_DP_TX DPTX_SET_VIDEO 1 msg.

(** ** PHY register write (lines 1000-1004) *)

Definition cdns_phy_reg_write (addr val : Z) : M Z :=
  cdns_mhdp_reg_write (u32 (ADDR_PHY_AFE + u32 (Z.shiftl (u32 addr) 2))) val.

(** ** Keep-alive check (lines 1039-1056)

    [udelay] busy-waits; like a sleep it lets the hardware run for the time
    asked.  [retries_left] counts down from 50. *)

Definition udelay (usecs : Z) : M unit := sleep_for usecs 0.

Fixpoint check_alive_loop (retries_left : nat) (alive : Z) : M bool :=
  match retries_left with
  | O => ret false
  | S n =>
      udelay 2 ;;
      newalive <- cdns_mhdp_bus_read KEEP_ALIVE ;;
      if alive =? newalive then check_alive_loop n alive
      else ret true
  end.

Definition cdns_mhdp_check_alive : M bool :=
  alive <- cdns_mhdp_bus_read KEEP_ALIVE ;;
  check_alive_loop 50 alive.

(** The bus writes that load [n] words of [mem] at [base], [base + 4], ... *)
Fixpoint image_writes (n : nat) (base : Z) (mem : list Z) : list bus_event :=
  match n with
  | O => []
  | S n' => BusWrite (u32 (hd 0 mem)) (u32 base)
            :: image_writes n' (base + 4) (tl mem)
  end.

(** The mailbox frame of a command. *)
Definition mbox_frame (opcode module_id : Z) (payload : list Z) : list Z :=
  [u8 opcode; u8 module_id; Z.of_nat (length payload) / 256;
   Z.of_nat (length payload) mod 256] ++ map u8 payload.

(** What a command that only sends leaves behind: nothing read; the whole
    frame [fr] written and 0 returned, or a proper prefix of it written and
    [-ETIMEDOUT] returned after more than a mailbox timeout. *)
Definition sends_only (c : M Z) (fr : list Z) (d : cdns_mhdp_device) : Prop :=
  let (r, d') := c d in
  mbox_rd d' = mbox_rd d /\
  ((r = 0 /\ mbox_wr d' = mbox_wr d ++ fr) \/
   (r = - ETIMEDOUT /\
    (exists k, (k < length fr)%nat /\ mbox_wr d' = mbox_wr d ++ firstn k fr) /\
    ktime d + MAILBOX_TIMEOUT_US < ktime d')).

End MhdpCommands.

(** Sample values for the constants of [CommandHeader]. *)
Definition sample_commands : CommandHeader :=
  {| DPTX_WRITE_DPCD := 0x04;
     DPTX_ENABLE_EVENT := 0x05;
     DPTX_WRITE_FIELD := 0x08;
     DPTX_SET_VIDEO := 0x0c;
     DPTX_HPD_STATE := 0x11;
     GENERAL_GET_HPD_STATE := 0x11;
     MHDP_EVENT_ENABLE_HPD := 1;
     MHDP_EVENT_ENABLE_TRAINING := 2;
     ADDR_PHY_AFE := 0x80000;
     ADDR_IMEM := 0x10000;
     ADDR_DMEM := 0x20000;
     APB_CTRL := 0x00;
     APB_IRAM_PATH := 4;
     APB_DRAM_PATH := 2;
     APB_XT_RESET := 1;
     KEEP_ALIVE := 0x18;
     VER_L := 0x1c;
     VER_H := 0x20;
     VER_LIB_L_ADDR := 0x24;
     VER_LIB_H_ADDR := 0x28 |}.

(** A device whose firmware is up: the keep-alive counter reads 5 and does
    not move, the four version registers read [0x134], [0x02], [0x56] and
    [0x78]; writes are kept newest first and sleeps end on time.  The
    registers sit at the offsets of [sample_commands]. *)
Definition version_platform : Platform :=
  {| hw := list (Z * Z);
     readl := fun addr h =>
       (if addr =? 0x18 then 5
        else if addr =? 0x1c then 0x134
        else if addr =? 0x20 then 0x02
        else if addr =? 0x24 then 0x56
        else if addr =? 0x28 then 0x78
        else 0, h);
     writel := fun val addr h => (addr, val) :: h;
     sleep := fun us h => ((0, 0), h) |}.

Definition fresh_version : @cdns_mhdp_device version_platform :=
  @Build_cdns_mhdp_device version_platform
    BUS_TYPE_NORMAL_APB 0 0 0 0 [] 0 0 [].

(** * Video configuration of cdns-mhdp-common.c (lines 746-947)

    [struct video_info] and the pixel-format constants come from
    [drm/bridge/cdns-mhdp-common.h], [struct drm_display_mode] from
    [drm/drm_modes.h]; only the fields read here are kept.  The timing
    fields, [clock] and [color_depth] are C [int]s, [color_fmt] an enum, the
    polarities [bool]s.  Arithmetic on [int] is carried out on [Z] and
    wrapped where the result is stored in the [u32] variable [val]. *)

Class VideoHeader : Type := {
  PXL_RGB : Z;
  Y_ONLY : Z;
  YCBCR_4_4_4 : Z;
  YCBCR_4_2_0 : Z;
  BT_601 : Z;
  TU_CNT_RST_EN : Z;
  BCS_6 : Z;
  BCS_8 : Z;
  BCS_10 : Z;
  BCS_12 : Z;
  BCS_16 : Z;
  DP_FRAMER_SP_HSP : Z;
  DP_FRAMER_SP_VSP : Z;
  DP_FRAMER_TU : Z;
  DP_VC_TABLE : Z -> Z;
  DP_FRAMER_PXL_REPR : Z;
  DP_FRAMER_SP : Z;
  DP_FRONT_BACK_PORCH : Z;
  DP_BYTE_COUNT : Z;
  MSA_HORIZONTAL_0 : Z;
  MSA_HORIZONTAL_1 : Z;
  MSA_VERTICAL_0 : Z;
  MSA_VERTICAL_1 : Z;
  MSA_MISC : Z;
  STREAM_CONFIG : Z;
  DP_HORIZONTAL : Z;
  DP_VERTICAL_0 : Z;
  DP_VERTICAL_1 : Z;
  DP_VB_ID : Z
}.

Record video_info : Type := {
  h_sync_polarity : bool;
  v_sync_polarity : bool;
  color_depth : Z;
  color_fmt : Z
}.

Record drm_display_mode : Type := {
  clock : Z;
  hdisplay : Z;
  hsync_start : Z;
  hsync_end : Z;
  htotal : Z;
  vdisplay : Z;
  vsync_start : Z;
  vsync_end : Z;
  vtotal : Z
}.

Section MhdpVideo.

Context {H : Header} {C : CommandHeader} {V : VideoHeader} {P : Platform}.

Local Notation "x <- c ;; k" := (bind c (fun x => k))
  (at level 61, c at next level, right associativity).
Local Notation "c ;; k" := (bind c (fun _ => k))
  (at level 61, right associativity).

(** A [bool] used as an [int]. *)
Definition b2z (b : bool) : Z := if b then 1 else 0.

(** Lines 746-791.  The case labels of a C [switch] are pairwise distinct,
    so the order of the tests does not matter; a value without a case
    leaves the zero the array was initialised with.  [mode] is not used. *)
Definition cdns_mhdp_get_msa_misc (video : video_info) : Z :=
  let val0 :=
    if (color_fmt video =? PXL_RGB) || (color_fmt video =? Y_ONLY) then 0
    else if color_fmt video =? YCBCR_4_4_4 then u8 (6 + BT_601 * 8)
    else if color_fmt video =? YCBCR_4_2_2 then u8 (5 + BT_601 * 8)
    else if color_fmt video =? YCBCR_4_2_0 then 5
    else 0 in
  let val1 :=
    if color_depth video =? 6 then 0
    else if color_depth video =? 8 then 1
    else if color_depth video =? 10 then 2
    else if color_depth video =? 12 then 3
    else if color_depth video =? 16 then 4
    else 0 in
  let msa_misc :=
    u32 (2 * val0 + 32 * val1
         + (if color_fmt video =? Y_ONLY then Z.shiftl 1 14 else 0)) in
  s32 msa_misc.

(** [ret = c; if (ret) goto err_config_video;] followed by [k]. *)
Definition checked (c : M Z) (k : M (option Z)) : M (option Z) :=
  ret_ <- c ;;
  if negb (ret_ =? 0) then ret (Some ret_) else k.

(** Lines 838-945, entered with the solution of the transfer-unit search.
    [None] stands for a division by zero in line 846 or 847, which C
    leaves undefined.  The status of the write to [DP_VC_TABLE(15)] is
    overwritten in line 870 without having been tested; a [color_depth]
    without a case in lines 851-867 leaves in [val] what line 848 put
    there. *)
Definition config_video_regs (video : video_info) (mode : drm_display_mode)
           (bit_per_pix link_rate tu_size_reg symbol : Z) : M (option Z) :=
  let val := u32 (symbol + Z.shiftl tu_size_reg 8) in
  let val := Z.lor val (u32 TU_CNT_RST_EN) in
  checked (cdns_mhdp_reg_write DP_FRAMER_TU val) (fun d =>
  let lanes_rate := u32 (u32 (link_num_lanes d) * link_rate) in
  if (lanes_rate =? 0) || (bit_per_pix =? 0) then (None, d)
  else
    let val :=
      u32 (u64 (u64 (clock mode) * u64 (symbol + 1)) / 1000 + link_rate) in
    let val := val / lanes_rate in
    let val := u32 (u64 (8 * u64 (symbol + 1)) / bit_per_pix - val) in
    let val := u32 (val + 2) in
    (cdns_mhdp_reg_write (DP_VC_TABLE 15) val ;;
     let val :=
       if color_depth video =? 6 then u32 BCS_6
       else if color_depth video =? 8 then u32 BCS_8
       else if color_depth video =? 10 then u32 BCS_10
       else if color_depth video =? 12 then u32 BCS_12
       else if color_depth video =? 16 then u32 BCS_16
       else val in
     let val := u32 (val + Z.shiftl (color_fmt video) 8) in
     checked (cdns_mhdp_reg_write DP_FRAMER_PXL_REPR val) (
     let val := u32 (if h_sync_polarity video then DP_FRAMER_SP_HSP else 0) in
     let val :=
       Z.lor val (u32 (if v_sync_polarity video then DP_FRAMER_SP_VSP else 0)) in
     checked (cdns_mhdp_reg_write DP_FRAMER_SP val) (
     let val := u32 (Z.shiftl (hsync_start mode - hdisplay mode) 16) in
     let val := Z.lor val (u32 (htotal mode - hsync_end mode)) in
     checked (cdns_mhdp_reg_write DP_FRONT_BACK_PORCH val) (
     let val := u32 (Z.quot (s32 (hdisplay mode * bit_per_pix)) 8) in
     checked (cdns_mhdp_reg_write DP_BYTE_COUNT val) (
     let val :=
       u32 (Z.lor (htotal mode)
                  (Z.shiftl (htotal mode - hsync_start mode) 16)) in
     checked (cdns_mhdp_reg_write MSA_HORIZONTAL_0 val) (
     let val := u32 (hsync_end mode - hsync_start mode) in
     let val :=
       Z.lor val (u32 (Z.lor (Z.shiftl (hdisplay mode) 16)
                             (Z.shiftl (b2z (h_sync_polarity video)) 15))) in
     checked (cdns_mhdp_reg_write MSA_HORIZONTAL_1 val) (
     let val := u32 (vtotal mode) in
     let val :=
       Z.lor val (u32 (Z.shiftl (vtotal mode - vsync_start mode) 16)) in
     checked (cdns_mhdp_reg_write MSA_VERTICAL_0 val) (
     let val := u32 (vsync_end mode - vsync_start mode) in
     let val :=
       Z.lor val (u32 (Z.lor (Z.shiftl (vdisplay mode) 16)
                             (Z.shiftl (b2z (v_sync_polarity video)) 15))) in
     checked (cdns_mhdp_reg_write MSA_VERTICAL_1 val) (
     let val := u32 (cdns_mhdp_get_msa_misc video) in
     checked (cdns_mhdp_reg_write MSA_MISC val) (
     checked (cdns_mhdp_reg_write STREAM_CONFIG 1) (
     let val := u32 (hsync_end mode - hsync_start mode) in
     let val := Z.lor val (u32 (Z.shiftl (hdisplay mode) 16)) in
     checked (cdns_mhdp_reg_write DP_HORIZONTAL val) (
     let val := u32 (vdisplay mode) in
     let val :=
       Z.lor val (u32 (Z.shiftl (vtotal mode - vsync_start mode) 16)) in
     checked (cdns_mhdp_reg_write DP_VERTICAL_0 val) (
     let val := u32 (vtotal mode) in
     checked (cdns_mhdp_reg_write DP_VERTICAL_1 val) (
     ret_ <- cdns_mhdp_reg_write_bit DP_VB_ID 2 1 0 ;;
     ret (Some ret_))))))))))))))) d).

(** Lines 793-947: the two writes and the search of
    [cdns_mhdp_config_video_tu], then the registers. *)
Definition cdns_mhdp_config_video (video : video_info)
           (mode : drm_display_mode) : M (option Z) := fun d =>
  let bit_per_pix :=
    u8 (if color_fmt video =? YCBCR_4_2_2 then color_depth video * 2
        else color_depth video * 3) in
  let link_rate := u32 (link_rate d) / 1000 in
  (outcome <- cdns_mhdp_config_video_tu (color_fmt video) (color_depth video)
                (clock mode) ;;
   match outcome with
   | Some (TuFound tu_size_reg symbol _) =>
       config_video_regs video mode bit_per_pix link_rate tu_size_reg symbol
   | Some (TuError ret_) => ret (Some ret_)
   | Some TuDivideByZero => ret None
   | None => ret None
   end) d.

(** The statuses [cdns_mhdp_config_video] can pass on. *)
Definition status_known (x : option Z) : Prop :=
  match x with
  | Some r => r = 0 \/ r = - ETIMEDOUT \/ r = - EINVAL
  | None => False
  end.

(** The mailbox frame of a register write. *)
Definition reg_frame (addr val : Z) : list Z :=
  mbox_frame GENERAL_WRITE_REGISTER MB_MODULE_ID_GENERAL
    (put_unaligned_be32 addr ++ put_unaligned_be32 val).

(** The registers lines 870-936 program after the FIFO size, in order. *)
Definition timing_registers : list Z :=
  [DP_FRAMER_PXL_REPR; DP_FRAMER_SP; DP_FRONT_BACK_PORCH; DP_BYTE_COUNT;
   MSA_HORIZONTAL_0; MSA_HORIZONTAL_1; MSA_VERTICAL_0; MSA_VERTICAL_1;
   MSA_MISC; STREAM_CONFIG; DP_HORIZONTAL; DP_VERTICAL_0; DP_VERTICAL_1].

End MhdpVideo.

(** Sample values for the constants of [VideoHeader]. *)
Definition sample_video : VideoHeader :=
  {| PXL_RGB := 1;
     Y_ONLY := 16;
     YCBCR_4_4_4 := 4;
     YCBCR_4_2_0 := 8;
     BT_601 := 0;
     TU_CNT_RST_EN := 0x8000;
     BCS_6 := 0;
     BCS_8 := 1;
     BCS_10 := 2;
     BCS_12 := 3;
     BCS_16 := 4;
     DP_FRAMER_SP_HSP := 2;
     DP_FRAMER_SP_VSP := 1;
     DP_FRAMER_TU := 0x2208;
     DP_VC_TABLE := fun x => 0x2218 + 4 * x;
     DP_FRAMER_PXL_REPR := 0x220c;
     DP_FRAMER_SP := 0x2210;
     DP_FRONT_BACK_PORCH := 0x2278;
     DP_BYTE_COUNT := 0x227c;
     MSA_HORIZONTAL_0 := 0x2280;
     MSA_HORIZONTAL_1 := 0x2284;
     MSA_VERTICAL_0 := 0x2288;
     MSA_VERTICAL_1 := 0x228c;
     MSA_MISC := 0x2290;
     STREAM_CONFIG := 0x2294;
     DP_HORIZONTAL := 0x2214;
     DP_VERTICAL_0 := 0x2218;
     DP_VERTICAL_1 := 0x221c;
     DP_VB_ID := 0x2258 |}.

(** * Layerscape Gen4 PCIe: host init, link state and hot reset
      (pcie-layerscape-gen4.c, lines 25-236)

    The CSR accessors [csr_readl], [csr_readw], [csr_readb], [csr_writel],
    [csr_writew] and [mobiveil_host_init] belong to [pcie-mobiveil.h] and
    the Mobiveil core driver, [ioread32] and [usleep_range] to the kernel;
    they and the register names of the missing headers are parameters.
    The accesses a function makes are recorded in order. *)

Definition PCIE_PF_OFF : Z := 0xc0000.
Definition PCIE_PF_INT_STAT : Z := 0x18.
Definition PF_INT_STAT_PABRST : Z := Z.shiftl 1 31.
Definition PCIE_PF_DBG : Z := 0x7fc.
Definition PF_DBG_LTSSM_MASK : Z := 0x3f.
Definition PF_DBG_LTSSM_L0 : Z := 0x2d.
Definition PF_DBG_WE : Z := Z.shiftl 1 31.
Definition PF_DBG_PABR : Z := Z.shiftl 1 27.

Class MobiveilPlatform {PP : PciPlatform} : Type := {
  ioread32 : Z -> pci_hw -> Z * pci_hw;
  csr_readl : Z -> pci_hw -> Z * pci_hw;
  csr_readw : Z -> pci_hw -> Z * pci_hw;
  csr_readb : Z -> pci_hw -> Z * pci_hw;
  csr_writel : Z -> Z -> pci_hw -> pci_hw;
  csr_writew : Z -> Z -> pci_hw -> pci_hw;
  mobiveil_host_init : bool -> pci_hw -> pci_hw;
  pci_usleep_range : Z -> Z -> pci_hw -> pci_hw;
  PCI_REVISION_ID : Z;
  PCI_BRIDGE_CONTROL : Z;
  PCI_BRIDGE_CTL_BUS_RESET : Z;
  GPEX_ACK_REPLAY_TO : Z;
  ACK_LAT_TO_VAL_MASK : Z;
  ACK_LAT_TO_VAL_SHIFT : Z;
  PAB_ACTIVITY_STAT : Z;
  PAB_INTP_AMBA_MISC_ENB : Z;
  PAB_INTP_AMBA_MISC_STAT : Z;
  PAB_INTP_INTX_MASK : Z;
  PAB_INTP_MSI : Z;
  PAB_INTP_RESET : Z;
  PAB_INTP_PCIE_UE : Z;
  PAB_INTP_IE_PMREDI : Z;
  PAB_INTP_IE_EC : Z
}.

(** The two [dev_err] messages of [ls_pcie_g4_reinit_hw]. *)
Inductive g4_message : Type :=
| PollTimeout
| LinkTrainingTimeout.

Inductive g4_event : Type :=
| PfRead (off val : Z)
| PfWrite (off val : Z)
| CsrRead (size off val : Z)
| CsrWrite (size val off : Z)
| UsleepRange (min max : Z)
| HostInit (reinit : bool)
| DevErr (msg : g4_message).

Section LsPcieG4Reset.

Context {PP : PciPlatform} {MP : MobiveilPlatform}.

(** The port of the config-read model with the accesses made so far. *)
Record g4_state : Type := {
  port : ls_pcie_g4;
  accesses : list g4_event
}.

Definition G (A : Type) : Type := g4_state -> A * g4_state.

Definition gret {A : Type} (a : A) : G A := fun s => (a, s).

Definition gbind {A B : Type} (c : G A) (k : A -> G B) : G B :=
  fun s => let (a, s1) := c s in k a s1.

Local Notation "x <- c ;; k" := (gbind c (fun x => k))
  (at level 61, c at next level, right associativity).
Local Notation "c ;; k" := (gbind c (fun _ => k))
  (at level 61, right associativity).

(** The hardware moved to [h], the access [e] recorded. *)
Definition g4_step (h : pci_hw) (e : g4_event) (s : g4_state) : g4_state :=
  {| port := {| csr_axi_slave_base := csr_axi_slave_base (port s);
                rev := rev (port s);
                pci_io := h;
                pci_trace := pci_trace (port s) |};
     accesses := accesses s ++ [e] |}.

Definition g4_set_rev (r : Z) (s : g4_state) : g4_state :=
  {| port := {| csr_axi_slave_base := csr_axi_slave_base (port s);
                rev := r;
                pci_io := pci_io (port s);
                pci_trace := pci_trace (port s) |};
     accesses := accesses s |}.

(** ** Register accessors (lines 61-70 and [pcie-mobiveil.h]) *)

Definition ls_pcie_g4_pf_readl (off : Z) : G Z := fun s =>
  let off := u32 off in
  let (v, h) := ioread32 (csr_axi_slave_base (port s) + PCIE_PF_OFF + off)
                         (pci_io (port s)) in
  (u32 v, g4_step h (PfRead off (u32 v)) s).

Definition ls_pcie_g4_pf_writel (off val : Z) : G unit := fun s =>
  let off := u32 off in
  let val := u32 val in
  (tt, g4_step (iowrite32 val (csr_axi_slave_base (port s) + PCIE_PF_OFF + off)
                          (pci_io (port s)))
               (PfWrite off val) s).

Definition g4_csr_readl (off : Z) : G Z := fun s =>
  let (v, h) := csr_readl (u32 off) (pci_io (port s)) in
  (u32 v, g4_step h (CsrRead 4 (u32 off) (u32 v)) s).

Definition g4_csr_readw (off : Z) : G Z := fun s =>
  let (v, h) := csr_readw (u32 off) (pci_io (port s)) in
  (u16 v, g4_step h (CsrRead 2 (u32 off) (u16 v)) s).

Definition g4_csr_readb (off : Z) : G Z := fun s =>
  let (v, h) := csr_readb (u32 off) (pci_io (port s)) in
  (u8 v, g4_step h (CsrRead 1 (u32 off) (u8 v)) s).

Definition g4_csr_writel (val off : Z) : G unit := fun s =>
  (tt, g4_step (csr_writel (u32 val) (u32 off) (pci_io (port s)))
               (CsrWrite 4 (u32 val) (u32 off)) s).

Definition g4_csr_writew (val off : Z) : G unit := fun s =>
  (tt, g4_step (csr_writew (u16 val) (u32 off) (pci_io (port s)))
               (CsrWrite 2 (u16 val) (u32 off)) s).

Definition g4_usleep_range (min max : Z) : G unit := fun s =>
  (tt, g4_step (pci_usleep_range min max (pci_io (port s)))
               (UsleepRange min max) s).

Definition g4_host_init (reinit : bool) : G unit := fun s =>
  (tt, g4_step (mobiveil_host_init reinit (pci_io (port s)))
               (HostInit reinit) s).

Definition g4_dev_err (msg : g4_message) : G unit := fun s =>
  (tt, g4_step (pci_io (port s)) (DevErr msg) s).

(** ** Erratum A-011451 and host init (lines 83-105) *)

Definition workaround_A011451 : G unit :=
  val <- g4_csr_readl GPEX_ACK_REPLAY_TO ;;
  let val :=
    Z.land val (u32 (Z.lnot (Z.shiftl ACK_LAT_TO_VAL_MASK
                                      ACK_LAT_TO_VAL_SHIFT))) in
  let val := Z.lor val (u32 (Z.shiftl 4 ACK_LAT_TO_VAL_SHIFT)) in
  g4_csr_writel val GPEX_ACK_REPLAY_TO.

Definition ls_pcie_g4_host_init : G Z :=
  r <- g4_csr_readb PCI_REVISION_ID ;;
  (fun s => (tt, g4_set_rev r s)) ;;
  (fun s =>
     (if rev (port s) =? REV_1_0 then workaround_A011451 else gret tt) s) ;;
  gret 0.

(** ** Link state (lines 107-119) *)

Definition ls_pcie_g4_link_up : G Z :=
  state <- ls_pcie_g4_pf_readl PCIE_PF_DBG ;;
  let state := Z.land state PF_DBG_LTSSM_MASK in
  if state =? PF_DBG_LTSSM_L0 then gret 1 else gret 0.

(** ** Interrupt enable (lines 128-139) *)

Definition ls_pcie_g4_enable_interrupt : G unit :=
  g4_csr_writel 0xffffffff PAB_INTP_AMBA_MISC_STAT ;;
  let val :=
    Z.lor (Z.lor (Z.lor (Z.lor (Z.lor PAB_INTP_INTX_MASK PAB_INTP_MSI)
                               PAB_INTP_RESET)
                        PAB_INTP_PCIE_UE)
                 PAB_INTP_IE_PMREDI)
          PAB_INTP_IE_EC in
  g4_csr_writel val PAB_INTP_AMBA_MISC_ENB.

(** ** Re-initialisation after a hot reset (lines 141-179)

    [to] counts down from 100; [to--] as a condition is false when [to] is
    0 and leaves it at -1.  The result of the first loop is the value of
    [to] after it. *)

Fixpoint reinit_poll (to : nat) : G Z :=
  g4_usleep_range 10 15 ;;
  val <- ls_pcie_g4_pf_readl PCIE_PF_INT_STAT ;;
  act_stat <- g4_csr_readl PAB_ACTIVITY_STAT ;;
  if (Z.land val PF_INT_STAT_PABRST =? 0) || negb (act_stat =? 0)
  then match to with
       | O => gret (-1)
       | S to' => reinit_poll to'
       end
  else gret (Z.of_nat to).

Fixpoint link_poll (to : nat) : G Z :=
  up <- ls_pcie_g4_link_up ;;
  if up =? 0
  then match to with
       | O => gret (-1)
       | S to' => g4_usleep_range 200 250 ;; link_poll to'
       end
  else gret (Z.of_nat to).

Definition ls_pcie_g4_reinit_hw : G unit :=
  to <- reinit_poll 100 ;;
  if to <? 0 then g4_dev_err PollTimeout
  else
    val <- ls_pcie_g4_pf_readl PCIE_PF_DBG ;;
    ls_pcie_g4_pf_writel PCIE_PF_DBG (Z.lor val PF_DBG_WE) ;;
    val <- ls_pcie_g4_pf_readl PCIE_PF_DBG ;;
    ls_pcie_g4_pf_writel PCIE_PF_DBG (Z.lor val PF_DBG_PABR) ;;
    val <- ls_pcie_g4_pf_readl PCIE_PF_DBG ;;
    ls_pcie_g4_pf_writel PCIE_PF_DBG (Z.land val (u32 (Z.lnot PF_DBG_WE))) ;;
    g4_host_init true ;;
    to <- link_poll 100 ;;
    if to <? 0 then g4_dev_err LinkTrainingTimeout else gret tt.

(** ** Reset work (lines 223-236) *)

Definition ls_pcie_g4_reset : G unit :=
  ctrl <- g4_csr_readw PCI_BRIDGE_CONTROL ;;
  let ctrl := Z.land ctrl (u16 (Z.lnot PCI_BRIDGE_CTL_BUS_RESET)) in
  g4_csr_writew ctrl PCI_BRIDGE_CONTROL ;;
  ls_pcie_g4_reinit_hw ;;
  ls_pcie_g4_enable_interrupt.

(** The events of one turn of the first loop of [ls_pcie_g4_reinit_hw]
    that read [val] and [act_stat], and whether the turn asks for another:
    reset not yet flagged, or activity still pending. *)
Definition reinit_turn (va : Z * Z) : list g4_event :=
  [UsleepRange 10 15; PfRead PCIE_PF_INT_STAT (fst va);
   CsrRead 4 (u32 PAB_ACTIVITY_STAT) (snd va)].

Definition reinit_pending (va : Z * Z) : bool :=
  (Z.land (fst va) PF_INT_STAT_PABRST =? 0) || negb (snd va =? 0).

(** The events of the link polls that read [states]: a sleep after each
    but the last. *)
Fixpoint link_turns (states : list Z) : list g4_event :=
  match states with
  | [] => []
  | [v] => [PfRead PCIE_PF_DBG v]
  | v :: rest => PfRead PCIE_PF_DBG v :: UsleepRange 200 250 :: link_turns rest
  end.

(** The LTSSM field of a [PCIE_PF_DBG] value says L0. *)
Definition ltssm_l0 (v : Z) : bool := v mod 64 =? 45.

End LsPcieG4Reset.

(** A root port for running the reset model: the interrupt status shows
    the reset flag with no activity pending, the link is in L0, the
    revision is 1.0, the CSR and PF writes are kept newest first, and the
    register names have the values of [pcie-mobiveil.h] known to us. *)
Definition sample_mobiveil : @MobiveilPlatform table_pci :=
  {| ioread32 := fun addr (h : @pci_hw table_pci) =>
       (if addr =? 0xc07fc then 0x2d
        else if addr =? 0xc0018 then 0x80000000 else 0, h);
     csr_readl := fun off (h : @pci_hw table_pci) =>
       (if off =? 0x438 then 0x1bcd else 0, h);
     csr_readw := fun off (h : @pci_hw table_pci) => (0x43, h);
     csr_readb := fun off (h : @pci_hw table_pci) => (0x10, h);
     csr_writel := fun val off (h : @pci_hw table_pci) => (off, val) :: h;
     csr_writew := fun val off (h : @pci_hw table_pci) => (off, val) :: h;
     mobiveil_host_init := fun _ (h : @pci_hw table_pci) => h;
     pci_usleep_range := fun _ _ (h : @pci_hw table_pci) => h;
     PCI_REVISION_ID := 0x08;
     PCI_BRIDGE_CONTROL := 0x3e;
     PCI_BRIDGE_CTL_BUS_RESET := 0x40;
     GPEX_ACK_REPLAY_TO := 0x438;
     ACK_LAT_TO_VAL_MASK := 0x1fff;
     ACK_LAT_TO_VAL_SHIFT := 0;
     PAB_ACTIVITY_STAT := 0x81c;
     PAB_INTP_AMBA_MISC_ENB := 0x0b0c;
     PAB_INTP_AMBA_MISC_STAT := 0x0b1c;
     PAB_INTP_INTX_MASK := 0x01e0;
     PAB_INTP_MSI := 0x8;
     PAB_INTP_RESET := 0x2;
     PAB_INTP_PCIE_UE := 0x200;
     PAB_INTP_IE_PMREDI := 0x400;
     PAB_INTP_IE_EC := 0x800 |}.

(** The port at the start of a run. *)
Definition fresh_port : @g4_state table_pci :=
  @Build_g4_state table_pci (@Build_ls_pcie_g4 table_pci 0 0 [] []) [].

(** The 1080p60 mode and an 8-bit RGB stream. *)
Definition mode_1080p : drm_display_mode :=
  {| clock := 148500; hdisplay := 1920; hsync_start := 2008;
     hsync_end := 2052; htotal := 2200; vdisplay := 1080;
     vsync_start := 1084; vsync_end := 1089; vtotal := 1125 |}.

Definition video_rgb8 : video_info :=
  {| h_sync_polarity := true; v_sync_polarity := true;
     color_depth := 8; color_fmt := 1 |}.
(** * Facts about the integer conversions and buffers *)

Lemma u8_range (x : Z) : 0 <= u8 x < 256.
Proof. unfold u8. apply Z.mod_pos_bound. lia. Qed.

Lemma u32_range (x : Z) : 0 <= u32 x < 2 ^ 32.
Proof. unfold u32. apply Z.mod_pos_bound. lia. Qed.

Lemma u8_small (x : Z) : 0 <= x < 256 -> u8 x = x.
Proof. intros. unfold u8. apply Z.mod_small. lia. Qed.

Lemma u16_small (x : Z) : 0 <= x < 2 ^ 16 -> u16 x = x.
Proof. intros. unfold u16. apply Z.mod_small. lia. Qed.

Lemma u32_small (x : Z) : 0 <= x < 2 ^ 32 -> u32 x = x.
Proof. intros. unfold u32. apply Z.mod_small. lia. Qed.

Lemma u64_small (x : Z) : 0 <= x < 2 ^ 64 -> u64 x = x.
Proof. intros. unfold u64. apply Z.mod_small. lia. Qed.

Lemma u8_idem (x : Z) : u8 (u8 x) = u8 x.
Proof. apply u8_small, u8_range. Qed.

Lemma s32_zero (x : Z) : 0 <= x < 2 ^ 32 -> (s32 x =? 0) = (x =? 0).
Proof.
  intros Hx. unfold s32.
  destruct (Z.eqb_spec x 0) as [->|Hne]; [reflexivity|].
  apply Z.eqb_neq. intro Hs.
  destruct (Z_lt_ge_dec x (2 ^ 31)) as [Hlt|Hge].
  - rewrite Z.mod_small in Hs by lia. lia.
  - replace (x + 2 ^ 31) with ((x - 2 ^ 31) + 1 * 2 ^ 32) in Hs by lia.
    rewrite Z.mod_add, Z.mod_small in Hs by lia. lia.
Qed.

Lemma s32_high (x : Z) : 2 ^ 31 <= x < 2 ^ 32 -> s32 x = x - 2 ^ 32.
Proof.
  intros Hx. unfold s32.
  replace (x + 2 ^ 31) with ((x - 2 ^ 31) + 1 * 2 ^ 32) by lia.
  rewrite Z.mod_add, Z.mod_small by lia. lia.
Qed.

Lemma s32_low (x : Z) : 0 <= x < 2 ^ 31 -> s32 x = x.
Proof. intros Hx. unfold s32. rewrite Z.mod_small by lia. lia. Qed.

Lemma store_length (i : nat) (v : Z) (buff : list Z) :
  length (store i v buff) = length buff.
Proof.
  revert i. induction buff as [|h t IH]; intros [|j]; simpl; auto.
Qed.

Lemma store_bytes_length (bs : list Z) : forall off buff,
  length (store_bytes off bs buff) = length buff.
Proof.
  induction bs as [|b bs IH]; intros off buff; simpl; [reflexivity|].
  rewrite IH. apply store_length.
Qed.

Lemma store_bytes_app (a b : list Z) : forall off buff,
  store_bytes off (a ++ b) buff =
  store_bytes (off + length a) b (store_bytes off a buff).
Proof.
  induction a as [|x a IH]; intros off buff; simpl.
  - now rewrite Nat.add_0_r.
  - rewrite IH. f_equal. lia.
Qed.

Lemma memcmp_ne_false (n : nat) : forall a b : list Z,
  (n <= length a)%nat -> (n <= length b)%nat ->
  memcmp_ne a b n = false <-> firstn n a = firstn n b.
Proof.
  induction n as [|n IH]; intros a b Ha Hb; simpl.
  - tauto.
  - destruct a as [|x a]; [simpl in Ha; lia|].
    destruct b as [|y b]; [simpl in Hb; lia|].
    simpl in *. rewrite orb_false_iff, negb_false_iff, Z.eqb_eq.
    rewrite IH by lia. split.
    + intros [-> ->]. reflexivity.
    + intros E. inversion E. auto.
Qed.

(** * Proof steps shared by the command functions

    [ret_zero] takes the branch after a call that returned 0,
    [ret_timeout] and [ret_negative] the branch after one that returned
    [-ETIMEDOUT], tested as [if (ret)] and as [if (ret < 0)]. *)

Ltac ret_zero := change (negb (0 =? 0)) with false; cbv beta iota.

Ltac ret_zero_in E :=
  change (negb (0 =? 0)) with false in E; cbv beta iota in E.

Ltac ret_timeout :=
  replace (negb (- ETIMEDOUT =? 0)) with true
    by (symmetry; apply negb_true_iff, Z.eqb_neq; lia).

Ltac ret_timeout_in E :=
  replace (negb (- ETIMEDOUT =? 0)) with true in E
    by (symmetry; apply negb_true_iff, Z.eqb_neq; lia).

Ltac ret_negative :=
  replace (- ETIMEDOUT <? 0) with true by (symmetry; apply Z.ltb_lt; lia).

(** * The bus accessor and the mailbox byte primitives *)

Section MailboxFacts.

Context {H : Header} {P : Platform}.

Lemma same_config_refl (d : cdns_mhdp_device) : same_config d d.
Proof. unfold same_config. auto. Qed.

Lemma same_config_trans (d1 d2 d3 : cdns_mhdp_device) :
  same_config d1 d2 -> same_config d2 d3 -> same_config d1 d3.
Proof. unfold same_config. intuition congruence. Qed.

Lemma run_refl (d : cdns_mhdp_device) : run d d [].
Proof.
  unfold run. rewrite app_nil_r.
  split; [apply same_config_refl|]. split; [lia|]. split; [lia|reflexivity].
Qed.

Lemma run_trans (d1 d2 d3 : cdns_mhdp_device) (e1 e2 : list bus_event) :
  run d1 d2 e1 -> run d2 d3 e2 -> run d1 d3 (e1 ++ e2).
Proof.
  intros (C1 & K1 & J1 & T1) (C2 & K2 & J2 & T2).
  split; [eapply same_config_trans; eauto|].
  split; [lia|]. split; [lia|].
  rewrite T2, T1. now rewrite app_assoc.
Qed.

Lemma rd_bytes_app (a b : list bus_event) :
  rd_bytes (a ++ b) = rd_bytes a ++ rd_bytes b.
Proof.
  induction a as [|[off v|v off] a IH]; simpl; auto.
  destruct (off =? u32 MAILBOX0_RD_DATA); simpl; now rewrite IH.
Qed.

Lemma wr_bytes_app (a b : list bus_event) :
  wr_bytes (a ++ b) = wr_bytes a ++ wr_bytes b.
Proof.
  induction a as [|[off v|v off] a IH]; simpl; auto.
  destruct (off =? u32 MAILBOX0_WR_DATA); simpl; now rewrite IH.
Qed.

Lemma rd_bytes_polls (offset : Z) (vals : list Z) :
  offset <> u32 MAILBOX0_RD_DATA ->
  rd_bytes (map (BusRead offset) vals) = [].
Proof.
  intros Hne. induction vals as [|v vals IH]; simpl; auto.
  destruct (Z.eqb_spec offset (u32 MAILBOX0_RD_DATA)); [contradiction|auto].
Qed.

Lemma wr_bytes_polls (offset : Z) (vals : list Z) :
  wr_bytes (map (BusRead offset) vals) = [].
Proof. induction vals; simpl; auto. Qed.

Lemma exchange_refl (d : cdns_mhdp_device) : exchange d d [] [].
Proof. exists []. split; [apply run_refl|auto]. Qed.

Lemma exchange_trans (d1 d2 d3 : cdns_mhdp_device) (r1 r2 w1 w2 : list Z) :
  exchange d1 d2 r1 w1 -> exchange d2 d3 r2 w2 ->
  exchange d1 d3 (r1 ++ r2) (w1 ++ w2).
Proof.
  intros (e1 & R1 & <- & <-) (e2 & R2 & <- & <-).
  exists (e1 ++ e2). split; [eapply run_trans; eauto|].
  now rewrite rd_bytes_app, wr_bytes_app.
Qed.

Lemma exchange_mbox (d d' : cdns_mhdp_device) (rd wr : list Z) :
  exchange d d' rd wr ->
  mbox_rd d' = mbox_rd d ++ rd /\ mbox_wr d' = mbox_wr d ++ wr.
Proof.
  intros (evs & (_ & _ & _ & T) & <- & <-). unfold mbox_rd, mbox_wr.
  now rewrite T, rd_bytes_app, wr_bytes_app.
Qed.

Lemma exchange_link (d d' : cdns_mhdp_device) (rd wr : list Z) :
  exchange d d' rd wr ->
  link_rate d' = link_rate d /\ link_num_lanes d' = link_num_lanes d /\
  jiffies d <= jiffies d'.
Proof.
  intros (evs & ((_ & _ & _ & L1 & L2) & _ & J & _) & _). auto.
Qed.

Lemma gated_writes_app (a b : list bus_event) :
  gated_writes a -> gated_writes b -> gated_writes (a ++ b).
Proof.
  intros Ha Hb. induction Ha; simpl; auto using gated_poll, gated_write.
Qed.

Lemma gated_polls (vals : list Z) :
  gated_writes (map (BusRead (u32 MAILBOX_FULL_ADDR)) vals).
Proof. induction vals; simpl; auto using gated_nil, gated_poll. Qed.

Lemma gated_polls_write (vals : list Z) (b : Z) :
  gated_writes (map (BusRead (u32 MAILBOX_FULL_ADDR)) (vals ++ [0])
                ++ [BusWrite b (u32 MAILBOX0_WR_DATA)]).
Proof.
  induction vals as [|v vals IH]; simpl.
  - apply gated_write, gated_nil.
  - apply gated_poll, IH.
Qed.


Lemma bus_read_run (offset : Z) (d : cdns_mhdp_device) :
  let (val, d') := cdns_mhdp_bus_read offset d in
  run d d' [BusRead (u32 offset) val] /\ 0 <= val < 2 ^ 32.
Proof.
  unfold cdns_mhdp_bus_read, run, same_config.
  destruct (bus_type d) eqn:E; unfold bind, mmio_writel, mmio_readl; simpl;
  match goal with |- context [readl ?a ?h] => destruct (readl a h) as [v h'] end;
  simpl; rewrite ?E; repeat split; try lia; try apply u32_range.
Qed.

Lemma bus_write_run (val offset : Z) (d : cdns_mhdp_device) :
  let (_, d') := cdns_mhdp_bus_write val offset d in
  run d d' [BusWrite (u32 val) (u32 offset)].
Proof.
  unfold cdns_mhdp_bus_write, run, same_config.
  destruct (bus_type d) eqn:E; unfold bind, mmio_writel; simpl;
  rewrite ?E; repeat split; try lia.
Qed.

Lemma sleep_for_run (us j : Z) (d : cdns_mhdp_device) :
  0 <= us -> 0 <= j ->
  let (_, d') := sleep_for us j d in
  run d d' [] /\ ktime d + us <= ktime d' /\ jiffies d + j <= jiffies d'.
Proof.
  intros Hus Hj. unfold sleep_for.
  destruct (sleep us (io d)) as [[ou oj] h]. simpl.
  unfold run, same_config. simpl. rewrite app_nil_r.
  repeat split; lia.
Qed.

Lemma poll_loop_run (offset : Z) (cond : Z -> bool)
      (sleep_us timeout_us deadline : Z) :
  0 <= sleep_us ->
  forall (fuel : nat) (d : cdns_mhdp_device),
    let (val, d') :=
      poll_loop fuel offset cond sleep_us timeout_us deadline d in
    exists vals,
      run d d' (map (BusRead (u32 offset)) (vals ++ [val])) /\
      0 <= val < 2 ^ 32.
Proof.
  intros Hs. induction fuel as [|fuel IH]; intros d; simpl; unfold bind;
    pose proof (bus_read_run offset d) as R;
    destruct (cdns_mhdp_bus_read offset d) as [v d1]; destruct R as [R Hv];
    (destruct (cond v); [exists []; simpl; unfold ret; auto|]);
    (destruct (negb (timeout_us =? 0) && (ktime d1 >? deadline));
     [ pose proof (bus_read_run offset d1) as R2;
       destruct (cdns_mhdp_bus_read offset d1) as [v2 d2];
       destruct R2 as [R2 Hv2]; exists [v]; split; [|assumption];
       apply (run_trans _ _ _ _ _ R R2) |]).
  - exists []. auto.
  - assert (Hd2 : exists d2, run d1 d2 [] /\
              (if sleep_us =? 0 then ret tt
               else usleep_range (Z.shiftr sleep_us 2 + 1) sleep_us) d1 = (tt, d2)).
    { destruct (sleep_us =? 0).
      - exists d1. split; [apply run_refl|reflexivity].
      - unfold usleep_range.
        assert (Hlo : 0 <= Z.shiftr sleep_us 2 + 1).
        { pose proof (proj2 (Z.shiftr_nonneg sleep_us 2) Hs). lia. }
        pose proof (sleep_for_run (Z.shiftr sleep_us 2 + 1) 0 d1 Hlo (Z.le_refl 0)) as S.
        destruct (sleep_for (Z.shiftr sleep_us 2 + 1) 0 d1) as [[] d2].
        exists d2. split; [apply S|reflexivity]. }
    destruct Hd2 as (d2 & R2 & ->).
    specialize (IH d2).
    destruct (poll_loop fuel offset cond sleep_us timeout_us deadline d2)
      as [v3 d3].
    destruct IH as (vals & R3 & Hv3).
    exists (v :: vals). split; [|assumption].
    exact (run_trans _ _ _ _ _ R (run_trans _ _ _ _ _ R2 R3)).
Qed.

Lemma poll_timeout_run (offset : Z) (cond : Z -> bool)
      (sleep_us timeout_us : Z) (d : cdns_mhdp_device) :
  0 <= sleep_us ->
  let '((r, val), d') :=
    mhdp_readx_poll_timeout offset cond sleep_us timeout_us d in
  exists vals,
    run d d' (map (BusRead (u32 offset)) (vals ++ [val])) /\
    0 <= val < 2 ^ 32 /\
    r = (if cond val then 0 else - ETIMEDOUT).
Proof.
  intros Hs. unfold mhdp_readx_poll_timeout.
  pose proof (poll_loop_run offset cond sleep_us timeout_us
                (ktime d + timeout_us) Hs
                (poll_turns sleep_us timeout_us) d) as L.
  destruct (poll_loop _ _ _ _ _ _ d) as [v d1].
  destruct L as (vals & R & Hv). exists vals. auto.
Qed.

Lemma land_ff_range (x : Z) : 0 <= Z.land x 0xff < 256.
Proof.
  change 0xff with (Z.ones 8). rewrite Z.land_ones by lia.
  apply Z.mod_pos_bound. lia.
Qed.

(** A mailbox read either delivers one byte or times out, leaving the
    empty-flag poll as the last bus access. *)
Lemma mailbox_read_cases (d : cdns_mhdp_device) :
  let (r, d') := cdns_mhdp_mailbox_read d in
  (0 <= r < 256 /\ exchange d d' [r] []) \/
  (r = - ETIMEDOUT /\ exchange d d' [] [] /\
   ends_flag_set MAILBOX_EMPTY_ADDR (trace d')).
Proof.
  unfold cdns_mhdp_mailbox_read, bind.
  pose proof (poll_timeout_run MAILBOX_EMPTY_ADDR (fun val => s32 val =? 0)
                MAILBOX_RETRY_US MAILBOX_TIMEOUT_US d) as L.
  destruct (mhdp_readx_poll_timeout _ _ _ _ d) as [[r v] d1].
  destruct L as (vals & R & Hv & Hr); [unfold MAILBOX_RETRY_US; lia|].
  rewrite (s32_zero _ Hv) in Hr.
  pose proof ETIMEDOUT_pos as Hpos.
  pose proof rd_data_not_empty_flag as Hne.
  destruct (Z.eqb_spec v 0) as [->|Hv0]; subst r.
  - simpl.
    pose proof (bus_read_run MAILBOX0_RD_DATA d1) as R2.
    destruct (cdns_mhdp_bus_read MAILBOX0_RD_DATA d1) as [x d2].
    destruct R2 as [R2 Hx]. unfold ret. left.
    split; [apply land_ff_range|].
    eexists. split; [apply (run_trans _ _ _ _ _ R R2)|].
    rewrite rd_bytes_app, wr_bytes_app, rd_bytes_polls, wr_bytes_polls by auto.
    simpl. rewrite Z.eqb_refl. auto.
  - ret_negative.
    unfold ret. right. split; [reflexivity|]. split.
    + eexists. split; [exact R|].
      rewrite rd_bytes_polls, wr_bytes_polls by auto. auto.
    + destruct R as (_ & _ & _ & T). rewrite T, map_app. simpl.
      rewrite app_assoc. eexists _, v. split; [reflexivity|assumption].
Qed.

(** A mailbox write either puts its byte after a poll that found the full
    flag clear, or times out with the full-flag poll as the last access. *)
Lemma mailbox_write_cases (val : Z) (d : cdns_mhdp_device) :
  let (r, d') := cdp_dp_mailbox_write val d in
  exists evs,
    run d d' evs /\ gated_writes evs /\ rd_bytes evs = [] /\
    ((r = 0 /\ wr_bytes evs = [u8 val]) \/
     (r = - ETIMEDOUT /\ wr_bytes evs = [] /\
      ends_flag_set MAILBOX_FULL_ADDR (trace d'))).
Proof.
  unfold cdp_dp_mailbox_write, bind.
  pose proof (poll_timeout_run MAILBOX_FULL_ADDR (fun full => s32 full =? 0)
                MAILBOX_RETRY_US MAILBOX_TIMEOUT_US d) as L.
  destruct (mhdp_readx_poll_timeout _ _ _ _ d) as [[r v] d1].
  destruct L as (vals & R & Hv & Hr); [unfold MAILBOX_RETRY_US; lia|].
  rewrite (s32_zero _ Hv) in Hr.
  pose proof ETIMEDOUT_pos as Hpos.
  pose proof rd_data_not_full_flag as Hne.
  destruct (Z.eqb_spec v 0) as [->|Hv0]; subst r.
  - simpl.
    pose proof (bus_write_run (u8 val) MAILBOX0_WR_DATA d1) as R2.
    destruct (cdns_mhdp_bus_write (u8 val) MAILBOX0_WR_DATA d1) as [[] d2].
    unfold ret. rewrite (u32_small (u8 val)) in R2
      by (pose proof (u8_range val); lia).
    eexists. split; [apply (run_trans _ _ _ _ _ R R2)|].
    split; [apply gated_polls_write|].
    rewrite rd_bytes_app, wr_bytes_app, rd_bytes_polls, wr_bytes_polls by auto.
    simpl. rewrite Z.eqb_refl. auto.
  - ret_negative.
    unfold ret. eexists. split; [exact R|].
    split; [apply gated_polls|].
    rewrite rd_bytes_polls, wr_bytes_polls by auto.
    split; [reflexivity|]. right. split; [reflexivity|]. split; [reflexivity|].
    destruct R as (_ & _ & _ & T). rewrite T, map_app. simpl.
    rewrite app_assoc. eexists _, v. split; [reflexivity|assumption].
Qed.

End MailboxFacts.

(** * The transport loops *)

Section TransportFacts.

Context {H : Header} {P : Platform}.

Lemma lor_shiftl_byte (a b : Z) :
  0 <= a -> 0 <= b < 256 -> Z.lor (Z.shiftl a 8) b = a * 256 + b.
Proof.
  intros Ha Hb.
  assert (L : Z.land (Z.shiftl a 8) b = 0).
  { apply Z.bits_inj'. intros n Hn.
    rewrite Z.land_spec, Z.bits_0.
    destruct (Z_lt_ge_dec n 8) as [Hlt|Hge].
    - now rewrite Z.shiftl_spec_low by lia.
    - destruct (Z.eq_dec b 0) as [->|Hb0].
      + now rewrite Z.bits_0, andb_false_r.
      + rewrite (Z.bits_above_log2 b n), andb_false_r; [reflexivity|lia|].
        apply Z.lt_le_trans with 8; [|lia].
        apply Z.log2_lt_pow2; lia. }
  rewrite <- (Z.lxor_lor _ _ L), <- (Z.add_nocarry_lxor _ _ L).
  rewrite Z.shiftl_mul_pow2 by lia. lia.
Qed.

Lemma read_loop_spec (n : nat) :
  forall (i : nat) (buff : list Z) (d : cdns_mhdp_device),
    let '((r, buff'), d') := read_loop n i buff d in
    exists bs,
      exchange d d' bs [] /\
      Forall (fun b => 0 <= b < 256) bs /\
      buff' = store_bytes i bs buff /\
      ((r = 0 /\ length bs = n) \/
       (r = - ETIMEDOUT /\ (length bs < n)%nat /\
        ends_flag_set MAILBOX_EMPTY_ADDR (trace d'))).
Proof.
  induction n as [|n IH]; intros i buff d; simpl.
  - exists []. unfold ret. repeat split; auto using exchange_refl.
  - unfold bind. pose proof (mailbox_read_cases d) as C.
    destruct (cdns_mhdp_mailbox_read d) as [r d1].
    pose proof ETIMEDOUT_pos as Hpos.
    destruct C as [[Hr X]|(-> & X & E)].
    + replace (r <? 0) with false by (symmetry; apply Z.ltb_ge; lia).
      rewrite (u8_small r Hr).
      specialize (IH (S i) (store i r buff) d1).
      destruct (read_loop n (S i) (store i r buff) d1) as [[r' buff'] d'].
      destruct IH as (bs & X' & B & -> & Hcase).
      exists (r :: bs). split; [apply (exchange_trans _ _ _ _ _ _ _ X X')|].
      split; [constructor; assumption|]. split; [reflexivity|].
      simpl. destruct Hcase as [[-> <-]|(-> & L & E)]; [left|right]; auto.
      repeat split; auto. lia.
    + ret_negative.
      exists []. unfold ret. repeat split; auto. right. repeat split; auto.
      simpl. lia.
Qed.

Lemma drain_loop_spec (n : nat) :
  forall d : cdns_mhdp_device,
    let (_, d') := drain_loop n d in
    exists bs,
      exchange d d' bs [] /\
      (length bs = n \/
       ((length bs < n)%nat /\ ends_flag_set MAILBOX_EMPTY_ADDR (trace d'))).
Proof.
  induction n as [|n IH]; intros d; simpl.
  - exists []. split; [apply exchange_refl|auto].
  - unfold bind. pose proof (mailbox_read_cases d) as C.
    destruct (cdns_mhdp_mailbox_read d) as [r d1].
    pose proof ETIMEDOUT_pos as Hpos.
    destruct C as [[Hr X]|(-> & X & E)].
    + replace (r <? 0) with false by (symmetry; apply Z.ltb_ge; lia).
      specialize (IH d1). destruct (drain_loop n d1) as [[] d'].
      destruct IH as (bs & X' & Hcase).
      exists (r :: bs). split; [apply (exchange_trans _ _ _ _ _ _ _ X X')|].
      simpl. destruct Hcase as [<-|[L E]]; [left|right]; auto.
      split; [lia|assumption].
    + ret_negative.
      exists []. unfold ret. split; [assumption|]. right. simpl.
      split; [lia|assumption].
Qed.

Lemma write_loop_spec (n : nat) :
  forall (i : nat) (buf : list Z) (d : cdns_mhdp_device),
    let (r, d') := write_loop n i buf d in
    exists evs k,
      run d d' evs /\ gated_writes evs /\ rd_bytes evs = [] /\
      wr_bytes evs = firstn k (sent_window i n buf) /\
      ((r = 0 /\ k = n) \/
       (r = - ETIMEDOUT /\ (k < n)%nat /\
        ends_flag_set MAILBOX_FULL_ADDR (trace d'))).
Proof.
  induction n as [|n IH]; intros i buf d; simpl.
  - exists [], O. unfold ret.
    split; [apply run_refl|]. split; [apply gated_nil|]. auto.
  - unfold bind. pose proof (mailbox_write_cases (nth i buf 0) d) as C.
    destruct (cdp_dp_mailbox_write (nth i buf 0) d) as [r d1].
    pose proof ETIMEDOUT_pos as Hpos.
    destruct C as (e1 & R1 & G1 & Rd1 & [[-> W1]|(-> & W1 & E)]).
    + simpl. specialize (IH (S i) buf d1).
      destruct (write_loop n (S i) buf d1) as [r' d'].
      destruct IH as (e2 & k & R2 & G2 & Rd2 & W2 & Hcase).
      exists (e1 ++ e2), (S k).
      split; [apply (run_trans _ _ _ _ _ R1 R2)|].
      split; [apply gated_writes_app; assumption|].
      rewrite rd_bytes_app, wr_bytes_app, Rd1, Rd2, W1, W2.
      split; [reflexivity|]. split; [reflexivity|].
      destruct Hcase as [[-> ->]|(-> & L & E)]; [left|right]; auto.
      split; [reflexivity|]. split; [lia|assumption].
    + ret_timeout.
      exists e1, O. unfold ret. rewrite W1, Rd1.
      split; [assumption|]. split; [assumption|].
      split; [reflexivity|]. split; [reflexivity|].
      right. split; [reflexivity|]. split; [lia|assumption].
Qed.

Lemma sent_window_all (l : list Z) :
  sent_window 0 (length l) l = map u8 l.
Proof.
  unfold sent_window.
  assert (G : forall pre : list Z,
             map (fun j => u8 (nth j (pre ++ l) 0))
                 (seq (length pre) (length l)) = map u8 l).
  { induction l as [|x l IH]; intros pre; simpl; [reflexivity|].
    rewrite app_nth2, Nat.sub_diag by lia. simpl. f_equal.
    specialize (IH (pre ++ [x])).
    rewrite <- app_assoc, length_app, Nat.add_1_r in IH. exact IH. }
  exact (G []).
Qed.

Lemma store_bytes_full (bs : list Z) : forall buff : list Z,
  length bs = length buff -> store_bytes 0 bs buff = bs.
Proof.
  assert (G : forall (pre bs buff : list Z),
             length bs = length buff ->
             store_bytes (length pre) bs (pre ++ buff) = pre ++ bs).
  { intros pre bs0. revert pre.
    induction bs0 as [|b bs0 IH]; intros pre [|x buff] L; try discriminate L.
    - reflexivity.
    - simpl. injection L as L.
      assert (S0 : store (length pre) b (pre ++ x :: buff) = (pre ++ [b]) ++ buff).
      { clear. induction pre as [|p pre IHp]; simpl; [reflexivity|].
        now rewrite IHp. }
      rewrite S0. specialize (IH (pre ++ [b]) buff L).
      rewrite length_app, Nat.add_1_r in IH. rewrite IH.
      now rewrite <- app_assoc. }
  intros buff L. exact (G [] bs buff L).
Qed.

Lemma send_header_window (module_id opcode size : Z) :
  0 <= size < 2 ^ 16 ->
  sent_window 0 4 ([u8 opcode; u8 module_id] ++ put_unaligned_be16 size) =
  [u8 opcode; u8 module_id; size / 256; size mod 256].
Proof.
  intros Hsize. unfold sent_window, put_unaligned_be16. simpl.
  rewrite (u16_small size Hsize), !u8_idem. f_equal. f_equal.
  rewrite Z.shiftr_div_pow2 by lia. change (2 ^ 8) with 256.
  f_equal. apply u8_small. split; [apply Z.div_pos; lia|].
  apply Z.div_lt_upper_bound; lia.
Qed.

(** A send that returns 0 has written the whole frame. *)
Lemma send_ok_frame (module_id opcode : Z) (message : list Z)
      (d d' : cdns_mhdp_device) :
  let size := Z.of_nat (length message) in
  size < 2 ^ 16 ->
  cdns_mhdp_mailbox_send module_id opcode size message d = (0, d') ->
  exchange d d' []
    ([u8 opcode; u8 module_id; size / 256; size mod 256] ++ map u8 message).
Proof.
  intros size Hsize E. unfold cdns_mhdp_mailbox_send, bind in E.
  cbv zeta in E.
  assert (Hr : 0 <= size < 2 ^ 16) by (unfold size; lia).
  rewrite (u16_small size Hr) in E.
  pose proof (write_loop_spec 4 0
                ([u8 opcode; u8 module_id] ++ put_unaligned_be16 size) d) as W1.
  destruct (write_loop 4 0 _ d) as [r1 d1].
  destruct W1 as (e1 & k1 & R1 & _ & Rd1 & Wr1 & Hcase1).
  rewrite send_header_window in Wr1 by assumption.
  pose proof ETIMEDOUT_pos as Hpos.
  destruct Hcase1 as [[-> ->]|(-> & _)].
  - ret_zero_in E.
    replace (Z.to_nat size) with (length message) in E
      by (unfold size; now rewrite Nat2Z.id).
    pose proof (write_loop_spec (length message) 0 message d1) as W2.
    rewrite E in W2.
    destruct W2 as (e2 & k2 & R2 & _ & Rd2 & Wr2 & Hcase2).
    rewrite sent_window_all in Wr2.
    destruct Hcase2 as [[_ ->]|(Hr2 & _)]; [|lia].
    exists (e1 ++ e2). split; [apply (run_trans _ _ _ _ _ R1 R2)|].
    rewrite rd_bytes_app, wr_bytes_app, Rd1, Rd2, Wr1, Wr2.
    split; [reflexivity|].
    rewrite <- (length_map u8 message), firstn_all. reflexivity.
  - ret_timeout_in E.
    unfold ret in E. injection E as E1 E2. lia.
Qed.

(** What any call of the three transport functions does to the mailbox. *)
Lemma send_exchange (module_id opcode size : Z) (message : list Z)
      (d : cdns_mhdp_device) :
  let (r, d') := cdns_mhdp_mailbox_send module_id opcode size message d in
  exists wr, exchange d d' [] wr.
Proof.
  unfold cdns_mhdp_mailbox_send, bind. cbv zeta.
  match goal with |- context [write_loop 4 0 ?h d] =>
    pose proof (write_loop_spec 4 0 h d) as W1;
    destruct (write_loop 4 0 h d) as [r1 d1] end.
  destruct W1 as (e1 & k1 & R1 & _ & Rd1 & _ & _).
  destruct (negb (r1 =? 0)).
  - unfold ret. exists (wr_bytes e1), e1. auto.
  - match goal with |- context [write_loop ?n 0 message d1] =>
      pose proof (write_loop_spec n 0 message d1) as W2;
      destruct (write_loop n 0 message d1) as [r2 d2] end.
    destruct W2 as (e2 & k2 & R2 & _ & Rd2 & _ & _).
    exists (wr_bytes (e1 ++ e2)), (e1 ++ e2).
    split; [apply (run_trans _ _ _ _ _ R1 R2)|].
    rewrite rd_bytes_app, Rd1, Rd2. auto.
Qed.

Lemma validate_exchange (module_id opcode req_size : Z)
      (d : cdns_mhdp_device) :
  let (r, d') :=
    cdns_mhdp_mailbox_validate_receive module_id opcode req_size d in
  exists rd, exchange d d' rd [].
Proof.
  unfold cdns_mhdp_mailbox_validate_receive, bind. cbv zeta.
  pose proof (read_loop_spec 4 0 [0; 0; 0; 0] d) as Rl.
  destruct (read_loop 4 0 [0; 0; 0; 0] d) as [[r1 header] d1].
  destruct Rl as (bs & X & _).
  destruct (r1 <? 0); [unfold ret; eauto|].
  match goal with |- context [if ?c then _ else _] => destruct c end.
  - match goal with |- context [drain_loop ?n d1] =>
      pose proof (drain_loop_spec n d1) as Dl;
      destruct (drain_loop n d1) as [[] d2] end.
    destruct Dl as (drained & X2 & _). unfold ret.
    exists (bs ++ drained). apply (exchange_trans _ _ _ _ _ _ _ X X2).
  - unfold ret. eauto.
Qed.

Lemma read_receive_exchange (buff : list Z) (buff_size : Z)
      (d : cdns_mhdp_device) :
  let '((r, buff'), d') := cdns_mhdp_mailbox_read_receive buff buff_size d in
  exists rd, exchange d d' rd [].
Proof.
  unfold cdns_mhdp_mailbox_read_receive.
  pose proof (read_loop_spec (Z.to_nat (u16 buff_size)) 0 buff d) as Rl.
  destruct (read_loop _ 0 buff d) as [[r buff'] d'].
  destruct Rl as (bs & X & _). eauto.
Qed.

(** A completed [cdns_mhdp_mailbox_read_receive] hands back the bytes read,
    when the buffer has room for exactly that many. *)
Lemma read_receive_ok (buff : list Z) (n : nat) (d d' : cdns_mhdp_device)
      (buff' : list Z) :
  length buff = n -> Z.of_nat n < 2 ^ 16 ->
  cdns_mhdp_mailbox_read_receive buff (Z.of_nat n) d = ((0, buff'), d') ->
  exchange d d' buff' [] /\ length buff' = n /\
  Forall (fun b => 0 <= b < 256) buff'.
Proof.
  intros L Hn E. unfold cdns_mhdp_mailbox_read_receive in E.
  rewrite u16_small, Nat2Z.id in E by lia.
  pose proof (read_loop_spec n 0 buff d) as Rl. rewrite E in Rl.
  destruct Rl as (bs & X & B & -> & Hcase).
  pose proof ETIMEDOUT_pos.
  destruct Hcase as [[_ Lb]|(Hr & _)]; [|lia].
  rewrite store_bytes_full by congruence. auto.
Qed.

End TransportFacts.

(** * The byte primitives, access by access *)

Section ByteAccesses.

Context {H : Header} {P : Platform}.









End ByteAccesses.

(** * The mailbox transport: send, validate, firmware activation *)

Section TransportProperties.

Context {H : Header} {P : Platform}.

(** C6.  [cdns_mhdp_mailbox_send] writes a prefix of the frame
    [opcode, module_id, length high byte, length low byte, payload...], in
    this order and nothing else; every byte written comes next after a poll
    that found the full flag clear.  It returns 0 exactly when the whole
    frame was written; otherwise the first write that timed out ended the
    call at once with [-ETIMEDOUT], the bytes before it staying written and
    the failed full-flag poll being the last bus access. *)
Theorem mailbox_send_frame (module_id opcode : Z) (message : list Z)
        (d : cdns_mhdp_device) :
  let size := Z.of_nat (length message) in
  let frame := [u8 opcode; u8 module_id; size / 256; size mod 256]
               ++ map u8 message in
  size < 2 ^ 16 ->
  let (r, d') := cdns_mhdp_mailbox_send module_id opcode size message d in
  exists evs k,
    run d d' evs /\ gated_writes evs /\
    wr_bytes evs = firstn k frame /\ rd_bytes evs = [] /\
    ((r = 0 /\ k = length frame) \/
     (r = - ETIMEDOUT /\ (k < length frame)%nat /\
      ends_flag_set MAILBOX_FULL_ADDR (trace d'))).
Proof.
  intros size frame Hsize. unfold cdns_mhdp_mailbox_send, bind.
  assert (Hu : u16 size = size) by (apply u16_small; unfold size; lia).
  rewrite Hu.
  set (header := [u8 opcode; u8 module_id] ++ put_unaligned_be16 size).
  assert (Hh : sent_window 0 4 header
               = [u8 opcode; u8 module_id; size / 256; size mod 256])
    by (apply send_header_window; unfold size; lia).
  pose proof (write_loop_spec 4 0 header d) as W1.
  destruct (write_loop 4 0 header d) as [r1 d1].
  destruct W1 as (e1 & k1 & R1 & G1 & Rd1 & Wr1 & Hcase1).
  rewrite Hh in Wr1.
  pose proof ETIMEDOUT_pos as Hpos.
  destruct Hcase1 as [[-> ->]|(-> & L1 & E1)].
  - ret_zero.
    replace (Z.to_nat size) with (length message)
      by (unfold size; now rewrite Nat2Z.id).
    pose proof (write_loop_spec (length message) 0 message d1) as W2.
    destruct (write_loop (length message) 0 message d1) as [r2 d2].
    destruct W2 as (e2 & k2 & R2 & G2 & Rd2 & Wr2 & Hcase2).
    rewrite sent_window_all in Wr2.
    exists (e1 ++ e2), (4 + k2)%nat.
    split; [apply (run_trans _ _ _ _ _ R1 R2)|].
    split; [apply gated_writes_app; assumption|].
    rewrite rd_bytes_app, wr_bytes_app, Rd1, Rd2, Wr1, Wr2.
    split; [reflexivity|]. split; [reflexivity|].
    unfold frame. rewrite length_app, length_map. simpl length.
    destruct Hcase2 as [[-> ->]|(-> & L2 & E2)]; [left|right]; auto.
    split; [reflexivity|]. split; [lia|assumption].
  - ret_timeout.
    unfold ret. exists e1, k1.
    split; [assumption|]. split; [assumption|].
    split.
    { rewrite Wr1. unfold frame.
      rewrite firstn_app.
      match goal with
      | |- context [firstn ?n (map u8 message)] =>
          replace n with O by (simpl; lia)
      end.
      now rewrite firstn_O, app_nil_r. }
    split; [assumption|].
    right. split; [reflexivity|]. split; [|assumption].
    unfold frame. rewrite length_app. simpl. lia.
Qed.


(** C1, as amended.  [cdns_mhdp_mailbox_validate_receive] writes nothing and
    reads the four header bytes; when one of these reads times out it
    returns [-ETIMEDOUT].  With the header read, it returns 0 and reads
    nothing more when opcode, module id and big-endian length all match;
    otherwise it returns [-EINVAL] after draining the length the header
    declares, or fewer bytes when a drain read timed out, the failed
    empty-flag poll then being the last bus access. *)
Theorem validate_receive_cases (module_id opcode req_size : Z)
        (d : cdns_mhdp_device) :
  let (r, d') := cdns_mhdp_mailbox_validate_receive module_id opcode req_size d in
  exists rd,
    exchange d d' rd [] /\
    ((r = - ETIMEDOUT /\ (length rd < 4)%nat /\
      ends_flag_set MAILBOX_EMPTY_ADDR (trace d')) \/
     (exists h0 h1 h2 h3 drained,
        rd = [h0; h1; h2; h3] ++ drained /\
        let declared := h2 * 256 + h3 in
        if (h0 =? u8 opcode) && (h1 =? u8 module_id)
           && (declared =? u16 req_size)
        then r = 0 /\ drained = []
        else r = - EINVAL /\
             (length drained = Z.to_nat declared \/
              ((length drained < Z.to_nat declared)%nat /\
               ends_flag_set MAILBOX_EMPTY_ADDR (trace d'))))).
Proof.
  unfold cdns_mhdp_mailbox_validate_receive, bind.
  pose proof (read_loop_spec 4 0 [0; 0; 0; 0] d) as Rl.
  destruct (read_loop 4 0 [0; 0; 0; 0] d) as [[r1 header] d1].
  destruct Rl as (bs & X & B & Hh & Hcase).
  pose proof ETIMEDOUT_pos as Hpos.
  destruct Hcase as [[-> L]|(-> & L & E)].
  - change (0 <? 0) with false. cbv beta iota.
    destruct bs as [|h0 [|h1 [|h2 [|h3 [|]]]]]; try discriminate L.
    simpl in Hh. subst header. unfold get_unaligned_be16. cbn [nth Nat.add].
    inversion B as [|? ? B0 B']; subst.
    inversion B' as [|? ? B1 B'']; subst.
    inversion B'' as [|? ? B2 B''']; subst.
    inversion B''' as [|? ? B3 _]; subst.
    rewrite (lor_shiftl_byte h2 h3) by lia.
    rewrite (Z.eqb_sym (u8 opcode)), (Z.eqb_sym (u8 module_id)),
      (Z.eqb_sym (u16 req_size)).
    rewrite <- !negb_andb.
    destruct ((h0 =? u8 opcode) && (h1 =? u8 module_id)
              && (h2 * 256 + h3 =? u16 req_size)) eqn:Hm; cbn [negb]; cbv beta iota.
    + unfold ret. exists [h0; h1; h2; h3]. split; [assumption|].
      right. exists h0, h1, h2, h3, []. split; [reflexivity|].
      cbv zeta. rewrite Hm. auto.
    + pose proof (drain_loop_spec (Z.to_nat (h2 * 256 + h3)) d1) as Dl.
      destruct (drain_loop (Z.to_nat (h2 * 256 + h3)) d1) as [[] d2].
      destruct Dl as (drained & X2 & Hd).
      unfold ret. exists ([h0; h1; h2; h3] ++ drained).
      split; [apply (exchange_trans _ _ _ _ _ _ _ X X2)|].
      right. exists h0, h1, h2, h3, drained. split; [reflexivity|].
      cbv zeta. rewrite Hm. auto.
  - ret_negative.
    unfold ret. exists bs. split; [assumption|]. left. auto.
Qed.

End TransportProperties.

(** * Register read and link-training adjustment *)

Section CommandProperties.

Context {H : Header} {P : Platform}.

Lemma lor_below (n a b : Z) :
  0 < n -> 0 <= a < 2 ^ n -> 0 <= b < 2 ^ n -> 0 <= Z.lor a b < 2 ^ n.
Proof.
  intros Hn Ha Hb. split; [apply Z.lor_nonneg; lia|].
  destruct (Z.eq_dec (Z.lor a b) 0) as [->|Hne]; [lia|].
  apply Z.log2_lt_pow2; [pose proof (proj2 (Z.lor_nonneg a b)); lia|].
  rewrite Z.log2_lor by lia.
  apply Z.max_lub_lt.
  - destruct (Z.eq_dec a 0) as [->|]; [simpl; lia|apply Z.log2_lt_pow2; lia].
  - destruct (Z.eq_dec b 0) as [->|]; [simpl; lia|apply Z.log2_lt_pow2; lia].
Qed.

Lemma shiftl_byte_below (b k : Z) :
  0 <= k <= 24 -> 0 <= b < 256 -> 0 <= Z.shiftl b k < 2 ^ 32.
Proof.
  intros Hk Hb. rewrite Z.shiftl_mul_pow2 by lia.
  assert (0 < 2 ^ k) by (apply Z.pow_pos_nonneg; lia).
  assert (2 ^ k <= 2 ^ 24) by (apply Z.pow_le_mono_r; lia).
  split; [nia|]. change (2 ^ 32) with (256 * 2 ^ 24). nia.
Qed.

Lemma get_unaligned_be32_range (p : list Z) (off : nat) :
  Forall (fun b => 0 <= b < 256) p ->
  0 <= get_unaligned_be32 p off < 2 ^ 32.
Proof.
  intros B. unfold get_unaligned_be32.
  assert (N : forall i, 0 <= nth i p 0 < 256).
  { intros i. destruct (Nat.lt_ge_cases i (length p)) as [Hi|Hi].
    - rewrite Forall_forall in B. apply B, nth_In, Hi.
    - rewrite nth_overflow by assumption. lia. }
  repeat apply lor_below; try lia; try (apply shiftl_byte_below; [lia|apply N]).
  pose proof (N (off + 3)%nat). lia.
Qed.

Lemma u32_idem (x : Z) : u32 (u32 x) = u32 x.
Proof. apply u32_small, u32_range. Qed.

Lemma put_unaligned_be32_u32 (x : Z) :
  put_unaligned_be32 (u32 x) = put_unaligned_be32 x.
Proof. unfold put_unaligned_be32. now rewrite u32_idem. Qed.

(** Where [cdns_mhdp_reg_read] stands once its three transport steps have
    succeeded: only the comparison of the echoed address is left. *)
Lemma reg_read_after_transport (addr : Z) (d d1 d2 d3 : cdns_mhdp_device)
      (resp : list Z) :
  u32 addr <> 0 ->
  cdns_mhdp_mailbox_send MB_MODULE_ID_GENERAL GENERAL_READ_REGISTER 4
    (put_unaligned_be32 addr) d = (0, d1) ->
  cdns_mhdp_mailbox_validate_receive MB_MODULE_ID_GENERAL
    GENERAL_READ_REGISTER 8 d1 = (0, d2) ->
  cdns_mhdp_mailbox_read_receive [0; 0; 0; 0; 0; 0; 0; 0] 8 d2
    = ((0, resp), d3) ->
  cdns_mhdp_reg_read addr d =
    (if memcmp_ne (put_unaligned_be32 addr) resp 4 then - EINVAL
     else s32 (get_unaligned_be32 resp 4), d3) /\
  length resp = 8%nat /\ Forall (fun b => 0 <= b < 256) resp.
Proof.
  intros Ha Hsend Hval Hread.
  unfold cdns_mhdp_reg_read, bind. cbv zeta.
  rewrite put_unaligned_be32_u32.
  destruct (Z.eqb_spec (u32 addr) 0) as [|_]; [contradiction|].
  rewrite Hsend. ret_zero.
  rewrite Hval. ret_zero.
  rewrite Hread. ret_zero.
  destruct (read_receive_ok [0; 0; 0; 0; 0; 0; 0; 0] 8 d2 d3 resp)
    as (_ & L & B); [reflexivity|simpl; lia|exact Hread|].
  split; [|auto].
  destruct (memcmp_ne (put_unaligned_be32 addr) resp 4); reflexivity.
Qed.

(** C5.  [cdns_mhdp_reg_read] of address 0 returns [-EINVAL] and leaves the
    handle, hence the mailbox, untouched.  For a non-zero address, once the
    request is sent, the response header validated and the eight response
    bytes read, the result is decided by the echoed address alone: the
    register value (as [int]) when the first four response bytes are the
    big-endian request address, [-EINVAL] when they are not. *)
Theorem reg_read_checks_echo (addr : Z) (d : cdns_mhdp_device) :
  (u32 addr = 0 -> cdns_mhdp_reg_read addr d = (- EINVAL, d)) /\
  (u32 addr <> 0 ->
   forall (d1 d2 d3 : cdns_mhdp_device) (resp : list Z),
     cdns_mhdp_mailbox_send MB_MODULE_ID_GENERAL GENERAL_READ_REGISTER 4
       (put_unaligned_be32 addr) d = (0, d1) ->
     cdns_mhdp_mailbox_validate_receive MB_MODULE_ID_GENERAL
       GENERAL_READ_REGISTER 8 d1 = (0, d2) ->
     cdns_mhdp_mailbox_read_receive [0; 0; 0; 0; 0; 0; 0; 0] 8 d2
       = ((0, resp), d3) ->
     (firstn 4 resp = put_unaligned_be32 addr ->
      cdns_mhdp_reg_read addr d = (s32 (get_unaligned_be32 resp 4), d3)) /\
     (firstn 4 resp <> put_unaligned_be32 addr ->
      cdns_mhdp_reg_read addr d = (- EINVAL, d3))).
Proof.
  split.
  - intros Ha. unfold cdns_mhdp_reg_read. cbv zeta. rewrite Ha. reflexivity.
  - intros Ha d1 d2 d3 resp Hsend Hval Hread.
    destruct (reg_read_after_transport addr d d1 d2 d3 resp Ha Hsend Hval Hread)
      as (E & L & _).
    rewrite E.
    pose proof (memcmp_ne_false 4 (put_unaligned_be32 addr) resp) as M.
    rewrite L in M. specialize (M (Nat.le_refl 4) ltac:(lia)).
    change (firstn 4 (put_unaligned_be32 addr)) with (put_unaligned_be32 addr) in M.
    destruct (memcmp_ne (put_unaligned_be32 addr) resp 4).
    + split; [|reflexivity]. intros Heq.
      symmetry in Heq. apply M in Heq. discriminate.
    + split; [reflexivity|]. intros Hne. exfalso. apply Hne.
      symmetry. now apply M.
Qed.

(** C9.  A register read whose exchange succeeds (request sent, response
    header validated, response read, echoed address equal to the request)
    returns the register value through [int]: when the value has bit 31 set
    the result is the value minus 2^32, a negative number. *)
Theorem reg_read_high_value_negative (addr : Z) (d d1 d2 d3 : cdns_mhdp_device)
        (resp : list Z) :
  u32 addr <> 0 ->
  cdns_mhdp_mailbox_send MB_MODULE_ID_GENERAL GENERAL_READ_REGISTER 4
    (put_unaligned_be32 addr) d = (0, d1) ->
  cdns_mhdp_mailbox_validate_receive MB_MODULE_ID_GENERAL
    GENERAL_READ_REGISTER 8 d1 = (0, d2) ->
  cdns_mhdp_mailbox_read_receive [0; 0; 0; 0; 0; 0; 0; 0] 8 d2
    = ((0, resp), d3) ->
  firstn 4 resp = put_unaligned_be32 addr ->
  2 ^ 31 <= get_unaligned_be32 resp 4 ->
  cdns_mhdp_reg_read addr d = (get_unaligned_be32 resp 4 - 2 ^ 32, d3) /\
  fst (cdns_mhdp_reg_read addr d) < 0.
Proof.
  intros Ha Hsend Hval Hread Hecho Hhigh.
  destruct (reg_read_after_transport addr d d1 d2 d3 resp Ha Hsend Hval Hread)
    as (E & L & B).
  pose proof (get_unaligned_be32_range resp 4 B) as R.
  pose proof (memcmp_ne_false 4 (put_unaligned_be32 addr) resp) as M.
  rewrite L in M. specialize (M (Nat.le_refl 4) ltac:(lia)).
  change (firstn 4 (put_unaligned_be32 addr)) with (put_unaligned_be32 addr) in M.
  symmetry in Hecho. apply M in Hecho. rewrite Hecho in E.
  rewrite s32_high in E by lia. rewrite E. simpl. split; [reflexivity|lia].
Qed.

(** C10.  In [cdns_mhdp_adjust_lt], when the request is sent, the response
    header validated and the five-byte DPCD header read, but the address in
    that header is not [DP_LANE0_1_STATUS], the call returns 0 in the state
    the header read left: the six status bytes are not read and the caller's
    [dpcd] buffer is as it was. *)
Theorem adjust_lt_wrong_address_returns_0
        (payload0 : list Z) (nlanes udelay : Z) (lanes_data dpcd : list Z)
        (d d1 d2 d3 : cdns_mhdp_device) (hdr : list Z) :
  u8 nlanes = 4 \/ u8 nlanes = 2 \/ u8 nlanes = 1 ->
  cdns_mhdp_mailbox_send MB_MODULE_ID_DP_TX DPTX_ADJUST_LT 7
    (adjust_lt_payload payload0 (u8 nlanes) udelay lanes_data) d = (0, d1) ->
  cdns_mhdp_mailbox_validate_receive MB_MODULE_ID_DP_TX DPTX_READ_DPCD 11 d1
    = (0, d2) ->
  cdns_mhdp_mailbox_read_receive [0; 0; 0; 0; 0] 5 d2 = ((0, hdr), d3) ->
  u32 (get_unaligned_be24 hdr 2) <> u32 DP_LANE0_1_STATUS ->
  cdns_mhdp_adjust_lt payload0 nlanes udelay lanes_data dpcd d
    = ((0, dpcd), d3).
Proof.
  intros Hl Hsend Hval Hread Haddr.
  unfold cdns_mhdp_adjust_lt, bind. cbv zeta.
  replace (negb (u8 nlanes =? 4) && negb (u8 nlanes =? 2)
           && negb (u8 nlanes =? 1)) with false.
  2: { destruct Hl as [->|[->| ->]]; reflexivity. }
  rewrite Hsend. ret_zero.
  change (5 + 6) with 11. rewrite Hval.
  ret_zero.
  rewrite Hread. ret_zero.
  destruct (Z.eqb_spec (u32 (get_unaligned_be24 hdr 2)) (u32 DP_LANE0_1_STATUS));
    [contradiction|reflexivity].
Qed.

(** One turn of the EDID loop whose four transport steps succeed: a
    matching echo ends the call with 0; a mismatching echo goes on to the
    next turn with [ret = 0], which is what the call returns when no turn
    is left. *)
Lemma edid_turn_after_transport (n : nat) (block length ret0 : Z)
      (reg edid reg' edid' : list Z) (d d1 d2 d3 d4 : cdns_mhdp_device) :
  cdns_mhdp_mailbox_send MB_MODULE_ID_DP_TX DPTX_GET_EDID 2
    [u8 (block / 2); u8 (block mod 2)] d = (0, d1) ->
  cdns_mhdp_mailbox_validate_receive MB_MODULE_ID_DP_TX DPTX_GET_EDID
    (u64 (2 + length)) d1 = (0, d2) ->
  cdns_mhdp_mailbox_read_receive reg 2 d2 = ((0, reg'), d3) ->
  cdns_mhdp_mailbox_read_receive edid length d3 = ((0, edid'), d4) ->
  edid_loop (S n) block length ret0 reg edid d =
    if (nth 0 reg' 0 =? length) && (nth 1 reg' 0 =? block / 2)
    then ((0, edid'), d4)
    else edid_loop n block length 0 reg' edid' d4.
Proof.
  intros Hsend Hval Hreg Hedid. cbn [edid_loop]. unfold bind. cbv zeta.
  rewrite Hsend. ret_zero.
  rewrite Hval. ret_zero.
  rewrite Hreg. ret_zero.
  rewrite Hedid. ret_zero.
  destruct ((nth 0 reg' 0 =? length) && (nth 1 reg' 0 =? block / 2));
    reflexivity.
Qed.

Lemma edid_last_turn_mismatch (block length ret0 : Z)
      (reg edid reg' edid' : list Z) (d d1 d2 d3 d4 : cdns_mhdp_device) :
  cdns_mhdp_mailbox_send MB_MODULE_ID_DP_TX DPTX_GET_EDID 2
    [u8 (block / 2); u8 (block mod 2)] d = (0, d1) ->
  cdns_mhdp_mailbox_validate_receive MB_MODULE_ID_DP_TX DPTX_GET_EDID
    (u64 (2 + length)) d1 = (0, d2) ->
  cdns_mhdp_mailbox_read_receive reg 2 d2 = ((0, reg'), d3) ->
  cdns_mhdp_mailbox_read_receive edid length d3 = ((0, edid'), d4) ->
  (nth 0 reg' 0 =? length) && (nth 1 reg' 0 =? block / 2) = false ->
  edid_loop 1 block length ret0 reg edid d = ((0, edid'), d4).
Proof.
  intros Hsend Hval Hreg Hedid Hm.
  rewrite (edid_turn_after_transport 0 block length ret0 reg edid reg' edid'
             d d1 d2 d3 d4 Hsend Hval Hreg Hedid).
  rewrite Hm. reflexivity.
Qed.

(** A turn whose send fails goes on to the next turn carrying the error. *)
Lemma edid_turn_send_fails (n : nat) (block length ret0 r : Z)
      (reg edid : list Z) (d d1 : cdns_mhdp_device) :
  cdns_mhdp_mailbox_send MB_MODULE_ID_DP_TX DPTX_GET_EDID 2
    [u8 (block / 2); u8 (block mod 2)] d = (r, d1) ->
  r <> 0 ->
  edid_loop (S n) block length ret0 reg edid d =
  edid_loop n block length r reg edid d1.
Proof.
  intros Hsend Hr. cbn [edid_loop]. unfold bind. cbv zeta.
  rewrite Hsend. destruct (Z.eqb_spec r 0); [contradiction|reflexivity].
Qed.

End CommandProperties.

(** * Link training *)

Section TrainingProperties.

Context {H : Header} {P : Platform}.

Lemma msecs_to_jiffies_pos (m : Z) : 1 <= m -> 1 <= msecs_to_jiffies m.
Proof.
  intros Hm. unfold msecs_to_jiffies. pose proof HZ_pos.
  apply Z.div_le_lower_bound; nia.
Qed.

Lemma msleep_run (msecs : Z) (d : cdns_mhdp_device) :
  1 <= msecs ->
  let (_, d') := msleep msecs d in
  exchange d d' [] [] /\ jiffies d + 1 <= jiffies d'.
Proof.
  intros Hm. unfold msleep.
  pose proof (msecs_to_jiffies_pos msecs Hm) as Hj.
  assert (Hus : 0 <= msecs * 1000) by lia.
  assert (Hj0 : 0 <= msecs_to_jiffies msecs) by lia.
  pose proof (sleep_for_run (msecs * 1000) (msecs_to_jiffies msecs) d
                Hus Hj0) as S.
  destruct (sleep_for (msecs * 1000) (msecs_to_jiffies msecs) d) as [[] d'].
  destruct S as (R & _ & J). split; [exists []; auto|lia].
Qed.

(** How the polling loop ends, given turns for every jiffy left: with the
    flag seen in the last round, with a mailbox call failing in the last
    round, or with the deadline passed after quiet rounds only. *)
Lemma training_poll_spec (timeout : Z) :
  forall (fuel : nat) (event : list Z) (d : cdns_mhdp_device),
    timeout - jiffies d <= Z.of_nat fuel ->
    let '((r, rounds), d') := training_poll fuel timeout event d in
    (exists rd wr,
        exchange d d' rd wr /\
        (forallb round_quiet rounds = true ->
         wr = concat (map (fun _ => event_request) rounds))) /\
    ((r = 0 /\ exists quiet event1,
        rounds = quiet ++ [RoundEvent event1] /\
        forallb round_quiet quiet = true /\
        Z.land event1 EQ_PHASE_FINISHED <> 0) \/
     (r <> 0 /\ exists quiet,
        rounds = quiet ++ [RoundFailed r] /\
        forallb round_quiet quiet = true) \/
     (r = - ETIMEDOUT /\ forallb round_quiet rounds = true /\
      timeout <= jiffies d')).
Proof.
  induction fuel as [|fuel IH]; intros event d Hfuel; simpl.
  - destruct (Z.ltb_spec (jiffies d) timeout) as [Hlt|Hge]; [lia|].
    split; [exists [], []; split; [apply exchange_refl|reflexivity]|].
    right. right. auto.
  - destruct (Z.ltb_spec (jiffies d) timeout) as [Hlt|Hge].
    2: { split; [exists [], []; split; [apply exchange_refl|reflexivity]|].
         right. right. auto. }
    unfold bind.
    pose proof (msleep_run LINK_TRAINING_RETRY_MS d ltac:(unfold LINK_TRAINING_RETRY_MS; lia)) as S.
    destruct (msleep LINK_TRAINING_RETRY_MS d) as [[] d0].
    destruct S as [X0 J0].
    pose proof (send_exchange MB_MODULE_ID_DP_TX DPTX_READ_EVENT 0 [] d0) as S1.
    destruct (cdns_mhdp_mailbox_send MB_MODULE_ID_DP_TX DPTX_READ_EVENT 0 [] d0)
      as [r1 d1] eqn:E1.
    destruct S1 as (w1 & X1).
    pose proof (exchange_trans _ _ _ _ _ _ _ X0 X1) as X01.
    destruct (Z.eqb_spec r1 0) as [->|Hr1]; cbn [negb]; cbv beta iota.
    2: { unfold ret. split; [eexists _, _; split; [exact X01|discriminate]|].
         right. left. split; [assumption|]. exists []. auto. }
    pose proof (send_ok_frame MB_MODULE_ID_DP_TX DPTX_READ_EVENT [] d0 d1
                  ltac:(simpl; lia) E1) as X1'.
    change ([u8 DPTX_READ_EVENT; u8 MB_MODULE_ID_DP_TX;
             Z.of_nat (length (@nil Z)) / 256;
             Z.of_nat (length (@nil Z)) mod 256] ++ map u8 [])
      with event_request in X1'.
    clear X1 X01 w1.
    pose proof (exchange_trans _ _ _ _ _ _ _ X0 X1') as X01. simpl in X01.
    pose proof (validate_exchange MB_MODULE_ID_DP_TX DPTX_READ_EVENT 2 d1) as S2.
    destruct (cdns_mhdp_mailbox_validate_receive MB_MODULE_ID_DP_TX
                DPTX_READ_EVENT 2 d1) as [r2 d2].
    destruct S2 as (rd2 & X2).
    pose proof (exchange_trans _ _ _ _ _ _ _ X01 X2) as X02.
    rewrite app_nil_r in X02. simpl in X02.
    destruct (Z.eqb_spec r2 0) as [->|Hr2]; cbn [negb]; cbv beta iota.
    2: { unfold ret. split; [eexists _, _; split; [exact X02|discriminate]|].
         right. left. split; [assumption|]. exists []. auto. }
    pose proof (read_receive_exchange event 2 d2) as S3.
    destruct (cdns_mhdp_mailbox_read_receive event 2 d2) as [[r3 event'] d3].
    destruct S3 as (rd3 & X3).
    pose proof (exchange_trans _ _ _ _ _ _ _ X02 X3) as X03.
    rewrite app_nil_r in X03.
    destruct (Z.eqb_spec r3 0) as [->|Hr3]; cbn [negb]; cbv beta iota.
    2: { unfold ret. split; [eexists _, _; split; [exact X03|discriminate]|].
         right. left. split; [assumption|]. exists []. auto. }
    destruct (Z.eqb_spec (Z.land (nth 1 event' 0) EQ_PHASE_FINISHED) 0)
      as [Hq|Hseen]; cbn [negb]; cbv beta iota.
    2: { unfold ret. split.
         - eexists _, _. split; [exact X03|]. simpl.
           destruct (Z.eqb_spec (Z.land (nth 1 event' 0) EQ_PHASE_FINISHED) 0);
             [contradiction|discriminate].
         - left. split; [reflexivity|]. exists [], (nth 1 event' 0). auto. }
    unfold log_round, bind.
    assert (J3 : jiffies d + 1 <= jiffies d3).
    { destruct (exchange_link _ _ _ _ X1') as (_ & _ & ?).
      destruct (exchange_link _ _ _ _ X2) as (_ & _ & ?).
      destruct (exchange_link _ _ _ _ X3) as (_ & _ & ?). lia. }
    specialize (IH event' d3 ltac:(lia)).
    destruct (training_poll fuel timeout event' d3) as [[r rounds] d'].
    destruct IH as ((rd & wr & X4 & Hwr) & Hcase).
    unfold ret.
    assert (Hq' : (Z.land (nth 1 event' 0) EQ_PHASE_FINISHED =? 0) = true)
      by now apply Z.eqb_eq.
    split.
    { eexists _, _. split; [exact (exchange_trans _ _ _ _ _ _ _ X03 X4)|].
      simpl. rewrite Hq'. simpl. intros Q. now rewrite (Hwr Q). }
    destruct Hcase as [(-> & quiet & e & -> & Q & Hs)
                      |[(Hr & quiet & -> & Q)|(-> & Q & Hd)]].
    + left. split; [reflexivity|].
      exists (RoundEvent (nth 1 event' 0) :: quiet), e.
      simpl. rewrite Q, Hq'. auto.
    + right. left. split; [assumption|].
      exists (RoundEvent (nth 1 event' 0) :: quiet).
      simpl. rewrite Q, Hq'. auto.
    + right. right. split; [reflexivity|]. simpl. rewrite Q, Hq'. auto.
Qed.

Lemma forallb_quiet_no_failure (quiet : list poll_round) (r : Z) :
  forallb round_quiet (quiet ++ [RoundFailed r]) = false.
Proof.
  rewrite forallb_app. simpl. apply andb_false_r.
Qed.

Lemma forallb_quiet_no_flag (quiet : list poll_round) (event1 : Z) :
  Z.land event1 EQ_PHASE_FINISHED <> 0 ->
  forallb round_quiet (quiet ++ [RoundEvent event1]) = false.
Proof.
  intros Hs. rewrite forallb_app. simpl.
  destruct (Z.eqb_spec (Z.land event1 EQ_PHASE_FINISHED) 0);
    [contradiction|apply andb_false_r].
Qed.

(** C4.  [cdns_mhdp_train_link] against the rounds of the polling loop of
    [cdns_mhdp_training_start], whose state on return is [d1].
    - Every round delivered an event without the equalization-finished flag:
      the deadline has passed, the call returns [-ETIMEDOUT] in state [d1],
      the link rate and lane count are those on entry, and all that was
      written to the mailbox is the training request and one event request
      per round: no link-status request.
    - The call goes on to [cdns_mhdp_get_training_status] only when
      [cdns_mhdp_training_start] returned 0, which it does only with the
      flag seen in its last round; a status response read in full then
      sets rate and lane count from its first two bytes.
    - In every other case it returns the error of
      [cdns_mhdp_training_start] in state [d1], the link state unchanged. *)
Theorem train_link_outcomes (d : cdns_mhdp_device) :
  let '((r, rounds), d1) := training_start_rounds d in
  (forall rs, rounds = Some rs -> forallb round_quiet rs = true ->
     cdns_mhdp_train_link d = (- ETIMEDOUT, d1) /\
     link_rate d1 = link_rate d /\ link_num_lanes d1 = link_num_lanes d /\
     mbox_wr d1 = mbox_wr d ++ training_request
                  ++ concat (map (fun _ => event_request) rs) /\
     jiffies d + msecs_to_jiffies LINK_TRAINING_TIMEOUT_MS <= jiffies d1) /\
  (r = 0 ->
     (exists quiet event1,
        rounds = Some (quiet ++ [RoundEvent event1]) /\
        Z.land event1 EQ_PHASE_FINISHED <> 0) /\
     cdns_mhdp_train_link d = cdns_mhdp_get_training_status d1 /\
     forall (d2 d3 d4 : cdns_mhdp_device) (status : list Z),
       cdns_mhdp_mailbox_send MB_MODULE_ID_DP_TX DPTX_READ_LINK_STAT 0 [] d1
         = (0, d2) ->
       cdns_mhdp_mailbox_validate_receive MB_MODULE_ID_DP_TX
         DPTX_READ_LINK_STAT 10 d2 = (0, d3) ->
       cdns_mhdp_mailbox_read_receive [0; 0; 0; 0; 0; 0; 0; 0; 0; 0] 10 d3
         = ((0, status), d4) ->
       cdns_mhdp_train_link d =
         (0, set_link (u32 (drm_dp_bw_code_to_link_rate (nth 0 status 0)))
                      (nth 1 status 0) d4)) /\
  (r <> 0 ->
     cdns_mhdp_train_link d = (r, d1) /\
     link_rate d1 = link_rate d /\ link_num_lanes d1 = link_num_lanes d).
Proof.
  unfold cdns_mhdp_train_link, cdns_mhdp_training_start, bind.
  destruct (training_start_rounds d) as [[r rounds] d1] eqn:E.
  unfold ret.
  assert (S : (exists rd wr,
                  exchange d d1 rd wr /\
                  (forall rs, rounds = Some rs ->
                     forallb round_quiet rs = true ->
                     wr = training_request
                          ++ concat (map (fun _ => event_request) rs))) /\
              ((rounds = None /\ r <> 0) \/
               exists rs d0,
                 rounds = Some rs /\ jiffies d <= jiffies d0 /\
                 ((r = 0 /\ exists quiet event1,
                     rs = quiet ++ [RoundEvent event1] /\
                     forallb round_quiet quiet = true /\
                     Z.land event1 EQ_PHASE_FINISHED <> 0) \/
                  (r <> 0 /\ exists quiet,
                     rs = quiet ++ [RoundFailed r] /\
                     forallb round_quiet quiet = true) \/
                  (r = - ETIMEDOUT /\ forallb round_quiet rs = true /\
                   jiffies d0 + msecs_to_jiffies LINK_TRAINING_TIMEOUT_MS
                   <= jiffies d1)))).
  { unfold training_start_rounds, bind in E. cbv zeta in E.
    pose proof (send_exchange MB_MODULE_ID_DP_TX DPTX_TRAINING_CONTROL 1
                  [u8 LINK_TRAINING_RUN] d) as S0.
    destruct (cdns_mhdp_mailbox_send MB_MODULE_ID_DP_TX DPTX_TRAINING_CONTROL 1
                [u8 LINK_TRAINING_RUN] d) as [r0 d0] eqn:E0.
    destruct S0 as (w0 & X0).
    destruct (Z.eqb_spec r0 0) as [->|Hr0]; cbn [negb] in E; cbv beta iota in E.
    - pose proof (send_ok_frame MB_MODULE_ID_DP_TX DPTX_TRAINING_CONTROL
                    [u8 LINK_TRAINING_RUN] d d0 ltac:(simpl; lia) E0) as X0'.
      simpl in X0'. rewrite u8_idem in X0'.
      change (1 / 256) with 0 in X0'. change (1 mod 256) with 1 in X0'.
      fold training_request in X0'.
      pose proof (training_poll_spec
                    (jiffies d0 + msecs_to_jiffies LINK_TRAINING_TIMEOUT_MS)
                    (Z.to_nat (msecs_to_jiffies LINK_TRAINING_TIMEOUT_MS))
                    [0; 0] d0) as T.
      destruct (training_poll _ _ [0; 0] d0) as [[r' rs] d'].
      injection E as E1 E2 E3. subst r rounds d1.
      pose proof (msecs_to_jiffies_pos LINK_TRAINING_TIMEOUT_MS
                    ltac:(unfold LINK_TRAINING_TIMEOUT_MS; lia)).
      destruct T as ((rd & wr & X1 & Hwr) & Hcase); [lia|].
      split.
      { eexists _, _. split; [exact (exchange_trans _ _ _ _ _ _ _ X0' X1)|].
        intros rs' Hrs Q. injection Hrs as <-. now rewrite (Hwr Q). }
      right. exists rs, d0. split; [reflexivity|].
      destruct (exchange_link _ _ _ _ X0) as (_ & _ & ?). auto.
    - unfold ret in E. injection E as E1 E2 E3. subst r rounds d1.
      split; [eexists _, _; split; [exact X0|discriminate]|]. left. auto. }
  destruct S as ((rd & wr & X & Hwr) & Hcase).
  destruct (exchange_mbox _ _ _ _ X) as (_ & Mw).
  destruct (exchange_link _ _ _ _ X) as (L1 & L2 & _).
  pose proof ETIMEDOUT_pos as Hpos.
  split; [|split].
  - intros rs -> Q.
    destruct Hcase as [[Hn _]|(rs' & d0 & Hrs & J0 & Hcase)]; [discriminate|].
    injection Hrs as <-.
    destruct Hcase as [(_ & quiet & e & -> & _ & Hs)
                      |[(_ & quiet & -> & _)|(-> & _ & Hd)]].
    + rewrite forallb_quiet_no_flag in Q by assumption. discriminate.
    + rewrite forallb_quiet_no_failure in Q. discriminate.
    + ret_timeout.
      split; [reflexivity|]. split; [assumption|]. split; [assumption|].
      split; [|lia]. rewrite Mw. f_equal. now apply Hwr.
  - intros ->. ret_zero.
    split; [|split; [reflexivity|]].
    + destruct Hcase as [[_ Hr]|(rs & d0 & -> & _ & Hcase)]; [lia|].
      destruct Hcase as [(_ & quiet & e & -> & _ & Hs)
                        |[(Hr & _)|(Hr & _)]]; [eauto|lia|lia].
    + intros d2 d3 d4 status Hsend Hval Hread.
      unfold cdns_mhdp_get_training_status, bind.
      rewrite Hsend. ret_zero.
      rewrite Hval. ret_zero.
      rewrite Hread. reflexivity.
  - intros Hr.
    destruct (Z.eqb_spec r 0) as [|_]; [contradiction|]. auto.
Qed.

(** The turns given to the polling loop are never used up: more turns
    change nothing. *)
Lemma training_poll_fuel (timeout : Z) :
  forall (fuel k : nat) (event : list Z) (d : cdns_mhdp_device),
    timeout - jiffies d <= Z.of_nat fuel ->
    training_poll (fuel + k) timeout event d = training_poll fuel timeout event d.
Proof.
  induction fuel as [|fuel IH]; intros k event d Hfuel.
  - destruct k as [|k]; [reflexivity|]. simpl.
    destruct (Z.ltb_spec (jiffies d) timeout); [lia|reflexivity].
  - simpl.
    destruct (Z.ltb_spec (jiffies d) timeout) as [Hlt|Hge]; [|reflexivity].
    unfold bind.
    pose proof (msleep_run LINK_TRAINING_RETRY_MS d ltac:(unfold LINK_TRAINING_RETRY_MS; lia)) as S.
    destruct (msleep LINK_TRAINING_RETRY_MS d) as [[] d0].
    destruct S as [X0 J0].
    pose proof (send_exchange MB_MODULE_ID_DP_TX DPTX_READ_EVENT 0 [] d0) as S1.
    destruct (cdns_mhdp_mailbox_send MB_MODULE_ID_DP_TX DPTX_READ_EVENT 0 [] d0)
      as [r1 d1].
    destruct S1 as (w1 & X1).
    destruct (negb (r1 =? 0)); [reflexivity|].
    pose proof (validate_exchange MB_MODULE_ID_DP_TX DPTX_READ_EVENT 2 d1) as S2.
    destruct (cdns_mhdp_mailbox_validate_receive MB_MODULE_ID_DP_TX
                DPTX_READ_EVENT 2 d1) as [r2 d2].
    destruct S2 as (rd2 & X2).
    destruct (negb (r2 =? 0)); [reflexivity|].
    pose proof (read_receive_exchange event 2 d2) as S3.
    destruct (cdns_mhdp_mailbox_read_receive event 2 d2) as [[r3 event'] d3].
    destruct S3 as (rd3 & X3).
    destruct (negb (r3 =? 0)); [reflexivity|].
    destruct (negb (Z.land (nth 1 event' 0) EQ_PHASE_FINISHED =? 0));
      [reflexivity|].
    unfold log_round, bind.
    rewrite IH; [reflexivity|].
    destruct (exchange_link _ _ _ _ X1) as (_ & _ & ?).
    destruct (exchange_link _ _ _ _ X2) as (_ & _ & ?).
    destruct (exchange_link _ _ _ _ X3) as (_ & _ & ?). lia.
Qed.

End TrainingProperties.

(** * The polling macro never runs out of turns *)

Section PollFuel.

Context {H : Header} {P : Platform}.

Lemma poll_loop_fuel (offset : Z) (cond : Z -> bool)
      (sleep_us timeout_us deadline : Z) :
  0 < sleep_us -> timeout_us <> 0 ->
  forall (fuel k : nat) (d : cdns_mhdp_device),
    deadline - ktime d < Z.of_nat fuel * (Z.shiftr sleep_us 2 + 1) ->
    poll_loop (fuel + k) offset cond sleep_us timeout_us deadline d =
    poll_loop fuel offset cond sleep_us timeout_us deadline d.
Proof.
  intros Hs Ht.
  assert (Hlo : 1 <= Z.shiftr sleep_us 2 + 1).
  { pose proof (proj2 (Z.shiftr_nonneg sleep_us 2)). lia. }
  assert (Hnz : (timeout_us =? 0) = false) by now apply Z.eqb_neq.
  assert (Hsz : (sleep_us =? 0) = false) by (apply Z.eqb_neq; lia).
  induction fuel as [|fuel IH]; intros k d Hfuel.
  - destruct k as [|k]; [reflexivity|]. simpl. unfold bind.
    pose proof (bus_read_run offset d) as R.
    destruct (cdns_mhdp_bus_read offset d) as [v d1].
    destruct R as [(_ & K & _) _].
    destruct (cond v); [reflexivity|].
    rewrite Hnz. simpl negb.
    destruct (Z.gtb_spec (ktime d1) deadline); [reflexivity|lia].
  - simpl. unfold bind.
    pose proof (bus_read_run offset d) as R.
    destruct (cdns_mhdp_bus_read offset d) as [v d1].
    destruct R as [(_ & K & _) _].
    destruct (cond v); [reflexivity|].
    destruct (negb (timeout_us =? 0) && (ktime d1 >? deadline)); [reflexivity|].
    rewrite Hsz. unfold usleep_range.
    pose proof (sleep_for_run (Z.shiftr sleep_us 2 + 1) 0 d1
                  ltac:(lia) (Z.le_refl 0)) as S.
    destruct (sleep_for (Z.shiftr sleep_us 2 + 1) 0 d1) as [[] d2].
    destruct S as (_ & K2 & _).
    apply IH. rewrite Nat2Z.inj_succ, Z.mul_succ_l in Hfuel. lia.
Qed.

(** [poll_turns] turns are enough: with more, the macro computes the same. *)
Lemma poll_turns_enough (offset : Z) (cond : Z -> bool)
      (sleep_us timeout_us : Z) (k : nat) (d : cdns_mhdp_device) :
  0 < sleep_us -> 0 < timeout_us ->
  poll_loop (poll_turns sleep_us timeout_us + k) offset cond
            sleep_us timeout_us (ktime d + timeout_us) d =
  poll_loop (poll_turns sleep_us timeout_us) offset cond
            sleep_us timeout_us (ktime d + timeout_us) d.
Proof.
  intros Hs Ht. apply poll_loop_fuel; [assumption|lia|].
  assert (Hlo : 1 <= Z.shiftr sleep_us 2 + 1).
  { pose proof (proj2 (Z.shiftr_nonneg sleep_us 2)). lia. }
  unfold poll_turns.
  set (lo := Z.shiftr sleep_us 2 + 1) in *.
  assert (0 <= timeout_us / lo) by (apply Z.div_pos; lia).
  rewrite Z2Nat.id by lia.
  pose proof (Z.div_mod timeout_us lo ltac:(lia)).
  pose proof (Z.mod_pos_bound timeout_us lo ltac:(lia)).
  nia.
Qed.

End PollFuel.

(** * The transfer-unit search *)

Section TuSearch.

Context {H : Header}.

(** The search always ends, whatever its inputs. *)
Lemma tu_loop_total (clock bit_per_pix num_lanes link_rate : Z) :
  forall (fuel : nat) (tu : Z),
    0 <= tu <= 255 ->
    (254 <= tu -> 70 <= Z.of_nat fuel) ->
    (63 <= tu -> 1 <= Z.of_nat fuel) ->
    (tu <= 62 -> 66 - tu <= Z.of_nat fuel) ->
    tu_loop fuel clock bit_per_pix num_lanes link_rate tu <> None.
Proof.
  induction fuel as [|fuel IH]; intros tu Htu F1 F2 F3.
  - exfalso. destruct (Z_le_gt_dec tu 62); lia.
  - cbn [tu_loop].
    set (tu1 := u8 (tu + 2)).
    destruct (_ =? 0); [discriminate|].
    destruct (Z.gtb_spec tu1 64) as [Hgt|Hle]; [discriminate|].
    match goal with |- context [if ?c then _ else _] => destruct c end;
      [|discriminate].
    assert (Htu1 : (tu <= 62 /\ tu1 = tu + 2) \/ (254 <= tu /\ tu1 = tu - 254)).
    { unfold tu1. destruct (Z_le_gt_dec tu 253).
      - rewrite u8_small in * by lia. left. fold tu1 in Hle.
        unfold tu1 in Hle. rewrite u8_small in Hle by lia. lia.
      - right. split; [lia|].
        assert (tu = 254 \/ tu = 255) as [-> | ->] by lia; reflexivity. }
    rewrite Nat2Z.inj_succ in *.
    apply IH; lia.
Qed.

Lemma tu_search_total (clock bit_per_pix num_lanes link_rate : Z) :
  tu_search clock bit_per_pix num_lanes link_rate <> None.
Proof.
  unfold tu_search. pose proof (u8_range TU_SIZE).
  apply tu_loop_total; change (Z.of_nat 130) with 130; lia.
Qed.

Variables clock bit_per_pix num_lanes link_rate : Z.

Hypothesis clock_range : 0 <= clock < 2 ^ 31.
Hypothesis bit_per_pix_range : 0 <= bit_per_pix < 256.
Hypothesis divisor_range : 0 < num_lanes * link_rate * 8 < 2 ^ 32.

Local Abbreviation vs := (valid_symbol_milli clock bit_per_pix num_lanes link_rate).

(** One turn of the loop on in-range inputs, in unbounded arithmetic. *)
Lemma tu_loop_turn (fuel : nat) (tu : Z) :
  0 <= tu <= 253 ->
  tu_loop (S fuel) clock bit_per_pix num_lanes link_rate tu =
  let tu1 := tu + 2 in
  if tu1 >? 64 then Some (TuError (- EINVAL))
  else if (vs tu1 / 1000 <=? 1) || (u64 (tu1 - vs tu1 / 1000) <? 4)
          || (vs tu1 mod 1000 >? 850) || (vs tu1 mod 1000 <? 100)
       then tu_loop fuel clock bit_per_pix num_lanes link_rate tu1
       else Some (TuFound tu1 (vs tu1 / 1000) (vs tu1 mod 1000)).
Proof.
  intros Htu. cbn [tu_loop]. cbv zeta.
  rewrite (u8_small (tu + 2)) by lia.
  rewrite (u64_small clock) by lia.
  assert (Hp : 0 <= (tu + 2) * clock < 2 ^ 39).
  { split; [nia|]. change (2 ^ 39) with (256 * 2 ^ 31). nia. }
  rewrite (u64_small ((tu + 2) * clock)) by lia.
  assert (Hq : 0 <= (tu + 2) * clock * bit_per_pix < 2 ^ 47).
  { split; [nia|]. change (2 ^ 47) with (2 ^ 39 * 256). nia. }
  rewrite (u64_small ((tu + 2) * clock * bit_per_pix)) by lia.
  assert (Hd : 0 < num_lanes * link_rate < 2 ^ 32) by lia.
  rewrite (u32_small (num_lanes * link_rate)) by lia.
  rewrite (u32_small (num_lanes * link_rate * 8)) by lia.
  destruct (Z.eqb_spec (num_lanes * link_rate * 8) 0) as [|_]; [lia|].
  fold (valid_symbol_milli clock bit_per_pix num_lanes link_rate (tu + 2)).
  rewrite (u32_small (vs (tu + 2) mod 1000))
    by (pose proof (Z.mod_pos_bound (vs (tu + 2)) 1000); lia).
  reflexivity.
Qed.

Lemma vs_nonneg (tu : Z) : 0 <= tu -> 0 <= vs tu.
Proof.
  intros Htu. unfold valid_symbol_milli.
  apply Z.div_pos; [nia|lia].
Qed.

(** Sizes reached from [tu] by steps of two. *)
Local Abbreviation reached tu t := (exists k, 1 <= k /\ t = tu + 2 * k).

Lemma tu_loop_smallest :
  forall (fuel : nat) (tu : Z),
    0 <= tu <= 253 ->
    1 <= Z.of_nat fuel -> 66 - tu < 2 * Z.of_nat fuel ->
    (forall t, reached tu t -> t <= 64 -> vs t / 1000 <= t) ->
    (exists t,
        tu_loop fuel clock bit_per_pix num_lanes link_rate tu
          = Some (TuFound t (vs t / 1000) (vs t mod 1000)) /\
        reached tu t /\ t <= 64 /\
        tu_fits clock bit_per_pix num_lanes link_rate t /\
        forall t', reached tu t' -> t' < t ->
                   ~ tu_fits clock bit_per_pix num_lanes link_rate t') \/
    (tu_loop fuel clock bit_per_pix num_lanes link_rate tu
       = Some (TuError (- EINVAL)) /\
     forall t', reached tu t' -> t' <= 64 ->
                ~ tu_fits clock bit_per_pix num_lanes link_rate t').
Proof.
  induction fuel as [|fuel IH]; intros tu Htu Hone Hfuel Hmargin.
  - simpl in Hone. lia.
  - rewrite tu_loop_turn by assumption. cbv zeta.
    destruct (Z.gtb_spec (tu + 2) 64) as [Hgt|Hle].
    { right. split; [reflexivity|].
      intros t' (k & Hk & ->) Ht'. lia. }
    assert (R1 : reached tu (tu + 2)) by (exists 1; lia).
    pose proof (Hmargin (tu + 2) R1 Hle) as Hm.
    pose proof (vs_nonneg (tu + 2) ltac:(lia)) as Hv.
    assert (Hs : 0 <= vs (tu + 2) / 1000) by (apply Z.div_pos; lia).
    rewrite (u64_small (tu + 2 - vs (tu + 2) / 1000)) by lia.
    assert (Hfit : tu_fits clock bit_per_pix num_lanes link_rate (tu + 2) <->
                   ((vs (tu + 2) / 1000 <=? 1)
                    || (tu + 2 - vs (tu + 2) / 1000 <? 4)
                    || (vs (tu + 2) mod 1000 >? 850)
                    || (vs (tu + 2) mod 1000 <? 100)) = false).
    { unfold tu_fits. cbv zeta.
      rewrite !orb_false_iff, Z.leb_gt, !Z.ltb_ge, Z.gtb_ltb, Z.ltb_ge. lia. }
    destruct ((vs (tu + 2) / 1000 <=? 1)
              || (tu + 2 - vs (tu + 2) / 1000 <? 4)
              || (vs (tu + 2) mod 1000 >? 850)
              || (vs (tu + 2) mod 1000 <? 100)) eqn:Hc.
    + assert (Hno : ~ tu_fits clock bit_per_pix num_lanes link_rate (tu + 2)).
      { intros F. apply Hfit in F. discriminate. }
      rewrite Nat2Z.inj_succ in Hfuel.
      destruct (IH (tu + 2) ltac:(lia) ltac:(lia) ltac:(lia)) as
          [(t & E & (k & Hk & ->) & Ht & F & Hmin)|(E & Hnone)].
      { intros t (k & Hk & ->) Ht. apply Hmargin; [exists (k + 1); lia|assumption]. }
      * left. exists (tu + 2 + 2 * k). split; [exact E|].
        split; [exists (k + 1); lia|]. split; [assumption|]. split; [assumption|].
        intros t' (k' & Hk' & ->) Hlt.
        destruct (Z.eq_dec k' 1) as [->|Hne]; [exact Hno|].
        apply Hmin; [exists (k' - 1); lia|lia].
      * right. split; [exact E|].
        intros t' (k' & Hk' & ->) Ht'.
        destruct (Z.eq_dec k' 1) as [->|Hne]; [exact Hno|].
        apply Hnone; [exists (k' - 1); lia|lia].
    + left. exists (tu + 2). split; [reflexivity|].
      split; [assumption|]. split; [assumption|].
      split; [now apply Hfit|].
      intros t' (k' & Hk' & ->) Hlt. lia.
Qed.

Hypothesis TU_SIZE_range : 0 <= TU_SIZE <= 253.
Hypothesis num_lanes_range : 0 <= num_lanes < 2 ^ 32.
Hypothesis link_rate_range : 0 <= link_rate < 2 ^ 32.

(** C2, as amended.  For a pixel clock, bits per pixel, lane count and link
    rate in range (non-negative clock, non-zero divisor that fits 32 bits)
    and such that the valid-symbol integer part never exceeds the size
    examined, the search accepts the smallest size among [TU_SIZE + 2],
    [TU_SIZE + 4], ..., at most 64, whose valid-symbol value has integer
    part above 1, margin [tu_size - integer_part] of at least 4 and
    remainder from 100 to 850, both bounds included; it yields that size
    with the integer part and the remainder.  When no such size exists it
    ends with [-EINVAL]. *)
Theorem tu_search_smallest_fit :
  (forall t, tu_candidate t -> vs t / 1000 <= t) ->
  (exists t,
      tu_search clock bit_per_pix num_lanes link_rate
        = Some (TuFound t (vs t / 1000) (vs t mod 1000)) /\
      tu_candidate t /\
      tu_fits clock bit_per_pix num_lanes link_rate t /\
      forall t', tu_candidate t' -> t' < t ->
                 ~ tu_fits clock bit_per_pix num_lanes link_rate t') \/
  (tu_search clock bit_per_pix num_lanes link_rate
     = Some (TuError (- EINVAL)) /\
   forall t', tu_candidate t' ->
              ~ tu_fits clock bit_per_pix num_lanes link_rate t').
Proof.
  intros Hmargin. unfold tu_search.
  rewrite (u32_small num_lanes), (u32_small link_rate), (u8_small TU_SIZE),
    (u8_small bit_per_pix) by lia.
  destruct (tu_loop_smallest 130 TU_SIZE TU_SIZE_range) as
      [(t & E & (k & Hk & ->) & Ht & F & Hmin)|(E & Hnone)].
  - change (Z.of_nat 130) with 130. lia.
  - change (Z.of_nat 130) with 130. lia.
  - intros t (k & Hk & ->) Ht. apply Hmargin. exists k. auto.
  - left. exists (TU_SIZE + 2 * k). split; [exact E|].
    split; [exists k; auto|]. split; [assumption|].
    intros t' (k' & Hk' & -> & Hle) Hlt. apply Hmin; [exists k'; auto|lia].
  - right. split; [exact E|].
    intros t' (k' & Hk' & -> & Hle). apply Hnone; [exists k'; auto|lia].
Qed.

(** A stream that fits the link keeps the integer part within the size. *)
Lemma stream_fits_link (t : Z) :
  clock * bit_per_pix <= 8000 * (num_lanes * link_rate) ->
  0 <= t -> vs t / 1000 <= t.
Proof.
  intros Hfit Ht. unfold valid_symbol_milli.
  apply Z.div_le_upper_bound; [lia|].
  apply Z.div_le_upper_bound; [lia|]. nia.
Qed.

End TuSearch.

Section ConfigVideo.

Context {H : Header} {P : Platform}.

(** With its two register writes done, [cdns_mhdp_config_video] stands or
    falls with the search. *)
Lemma config_video_tu_after_writes (color_fmt color_depth clock : Z)
      (d d1 d2 : cdns_mhdp_device) :
  cdns_mhdp_reg_write BND_HSYNC2VSYNC VIF_BYPASS_INTERLACE d = (0, d1) ->
  cdns_mhdp_reg_write HSYNC2VSYNC_POL_CTRL 0 d1 = (0, d2) ->
  cdns_mhdp_config_video_tu color_fmt color_depth clock d =
  (tu_search clock
     (u8 (if color_fmt =? YCBCR_4_2_2 then color_depth * 2 else color_depth * 3))
     (link_num_lanes d2) (u32 (link_rate d) / 1000), d2).
Proof.
  intros W1 W2. unfold cdns_mhdp_config_video_tu, bind.
  rewrite W1. ret_zero.
  rewrite W2. reflexivity.
Qed.

End ConfigVideo.

(** * Layerscape Gen4 PCIe: the vendor-ID read *)

Section LsPcieG4Facts.

Context {PP : PciPlatform}.

(** C8.  On revision 1.0 a read of the vendor-ID register writes 0 to the
    LUT register GCR, clearing the read-response-reordering enable bit,
    then performs the generic config read, then writes 1 to GCR, setting
    the bit; these are its only accesses and its result is that of the
    generic read in between.  The hardware is left as these three accesses
    leave it: [iowrite32] of 0 to [csr_axi_slave_base + PCIE_LUT_OFF +
    PCIE_LUT_GCR], the generic read on the hardware so changed, [iowrite32]
    of 1 to the same register.  For any other revision or register the LUT
    is not written: the call is the generic config read and nothing else,
    and the hardware is as that read leaves it.  The handle keeps its base
    address and revision. *)
Theorem read_other_conf_reordering (bus devfn where_ size : Z)
        (pcie : ls_pcie_g4) :
  let '(r, pcie') := ls_pcie_g4_read_other_conf bus devfn where_ size pcie in
  let gcr := csr_axi_slave_base pcie + PCIE_LUT_OFF + PCIE_LUT_GCR in
  csr_axi_slave_base pcie' = csr_axi_slave_base pcie /\
  rev pcie' = rev pcie /\
  if (rev pcie =? REV_1_0) && (where_ =? PCI_VENDOR_ID)
  then
    let cleared := iowrite32 0 gcr (pci_io pcie) in
    let answer := pci_generic_config_read bus devfn where_ size cleared in
    pci_trace pcie' =
      pci_trace pcie ++ [LutWrite PCIE_LUT_GCR 0;
                         ConfigRead bus devfn where_ size;
                         LutWrite PCIE_LUT_GCR 1] /\
    Z.testbit 0 PCIE_LUT_GCR_RRE = false /\
    Z.testbit 1 PCIE_LUT_GCR_RRE = true /\
    r = fst (generic_config_read bus devfn where_ size
               (ls_pcie_g4_lut_writel PCIE_LUT_GCR 0 pcie)) /\
    r = fst answer /\
    pci_io pcie' = iowrite32 1 gcr (snd answer)
  else
    let answer :=
      pci_generic_config_read bus devfn where_ size (pci_io pcie) in
    (r, pcie') = generic_config_read bus devfn where_ size pcie /\
    pci_trace pcie' = pci_trace pcie ++ [ConfigRead bus devfn where_ size] /\
    lut_writes PCIE_LUT_GCR (pci_trace pcie')
      = lut_writes PCIE_LUT_GCR (pci_trace pcie) /\
    r = fst answer /\
    pci_io pcie' = snd answer.
Proof.
  unfold ls_pcie_g4_read_other_conf.
  destruct ((rev pcie =? REV_1_0) && (where_ =? PCI_VENDOR_ID)) eqn:Hc.
  - change (Z.shiftl 0 PCIE_LUT_GCR_RRE) with 0.
    change (Z.shiftl 1 PCIE_LUT_GCR_RRE) with 1.
    unfold generic_config_read, ls_pcie_g4_lut_writel.
    cbn [csr_axi_slave_base rev pci_io pci_trace].
    change (u32 PCIE_LUT_GCR) with PCIE_LUT_GCR.
    change (u32 0) with 0. change (u32 1) with 1.
    destruct (pci_generic_config_read bus devfn where_ size _) as [r h].
    cbn [csr_axi_slave_base rev pci_io pci_trace fst snd].
    rewrite Hc.
    cbn [csr_axi_slave_base rev pci_io pci_trace fst snd].
    rewrite <- !app_assoc. cbn [app].
    repeat split; reflexivity.
  - unfold generic_config_read.
    destruct (pci_generic_config_read bus devfn where_ size (pci_io pcie))
      as [r h].
    cbn [csr_axi_slave_base rev pci_io pci_trace fst snd]. rewrite Hc.
    cbn [csr_axi_slave_base rev pci_io pci_trace fst snd].
    split; [reflexivity|]. split; [reflexivity|].
    split; [reflexivity|]. split; [reflexivity|].
    split; [|split; reflexivity].
    assert (G : forall t s, lut_writes PCIE_LUT_GCR (t ++ [ConfigRead bus devfn where_ s])
                            = lut_writes PCIE_LUT_GCR t).
    { induction t as [|[o v|b f w s'] t IH]; intros s; simpl; auto.
      destruct (o =? PCIE_LUT_GCR); simpl; now rewrite IH. }
    apply G.
Qed.

End LsPcieG4Facts.

(** * Runs on the scripted firmware *)

Section Scripted.

#[local] Existing Instance sample_header.
#[local] Existing Instance fifo_platform.

(** C1, as stated, fails: the header [2; 1; 0; 3] does not match the
    expected (module 1, opcode 2, length 8) and declares three payload
    bytes, but the firmware delivers one byte and then stalls; the call
    drains that one byte, not three, and returns [-EINVAL]. *)
Lemma validate_receive_short_drain :
  let d := fresh (answering [2; 1; 0; 3; 7]) in
  let (r, d') := cdns_mhdp_mailbox_validate_receive 1 2 8 d in
  r = - EINVAL /\
  mbox_rd d' = [2; 1; 0; 3] ++ [7] /\
  get_unaligned_be16 [2; 1; 0; 3] 2 = 3 /\
  length [7] <> 3%nat.
Proof. vm_compute. repeat split; discriminate. Qed.

(** The header reads themselves can fall short: with two bytes delivered
    the call reads two header bytes and returns [-ETIMEDOUT]. *)
Example validate_receive_header_timeout :
  let d := fresh (answering [2; 1]) in
  let (r, d') := cdns_mhdp_mailbox_validate_receive 1 2 8 d in
  r = - ETIMEDOUT /\ mbox_rd d' = [2; 1].
Proof. vm_compute. split; reflexivity. Qed.

(** C2, as stated, fails: at pixel clock 137250, 24 bits per pixel, 4 lanes
    and link rate 540000 ([link_rate] 540 after the division of line 805)
    the first size examined, 32, has valid-symbol value 6.100; the search
    accepts it although the remainder 100 is not strictly above 100. *)
Lemma tu_search_accepts_remainder_100 :
  tu_search 137250 24 4 540 = Some (TuFound 32 6 100) /\
  valid_symbol_milli 137250 24 4 540 32 = 6100 /\
  ~ (100 < valid_symbol_milli 137250 24 4 540 32 mod 1000 < 850).
Proof.
  split; [reflexivity|]. split; [reflexivity|].
  change (valid_symbol_milli 137250 24 4 540 32 mod 1000) with 100. lia.
Qed.

(** The other bound is included as well: remainder 850 is accepted. *)
Example tu_search_accepts_remainder_850 :
  tu_search 154125 24 4 540 = Some (TuFound 32 6 850).
Proof. reflexivity. Qed.

(** The spec's sample configuration. *)
Example tu_search_hbr2_1080p :
  tu_search 148500 24 4 540 = Some (TuFound 32 6 600).
Proof. reflexivity. Qed.

(** A clock too low for two valid symbols leaves no size that fits. *)
Example tu_search_no_fit :
  tu_search 100 24 4 540 = Some (TuError (- EINVAL)).
Proof. reflexivity. Qed.

(** A valid-symbol integer part above the size wraps the unsigned margin of
    line 835 and passes the margin test: on one lane at link rate 162 the
    size 34 is accepted with 93 valid symbols. *)
Example tu_search_margin_wraps :
  tu_search 148500 24 1 162 = Some (TuFound 34 93 500).
Proof. reflexivity. Qed.

(** C2 on the sample configuration: the stream fits the link and the
    search finds a size. *)
Lemma tu_search_smallest_fit_witness :
  (0 <= 148500 < 2 ^ 31 /\ 0 <= 24 < 256 /\ 0 < 4 * 540 * 8 < 2 ^ 32 /\
   0 <= TU_SIZE <= 253 /\ 0 <= 4 < 2 ^ 32 /\ 0 <= 540 < 2 ^ 32 /\
   148500 * 24 <= 8000 * (4 * 540)) /\
  exists t,
    tu_search 148500 24 4 540 =
      Some (TuFound t (valid_symbol_milli 148500 24 4 540 t / 1000)
                      (valid_symbol_milli 148500 24 4 540 t mod 1000)) /\
    tu_candidate t /\ tu_fits 148500 24 4 540 t.
Proof.
  assert (H1 : 0 <= 148500 < 2 ^ 31) by (split; [discriminate|reflexivity]).
  assert (H2 : 0 <= 24 < 256) by (split; [discriminate|reflexivity]).
  assert (H3 : 0 < 4 * 540 * 8 < 2 ^ 32) by (split; reflexivity).
  assert (H4 : 0 <= TU_SIZE <= 253) by (split; discriminate).
  assert (H5 : 0 <= 4 < 2 ^ 32) by (split; [discriminate|reflexivity]).
  assert (H6 : 0 <= 540 < 2 ^ 32) by (split; [discriminate|reflexivity]).
  assert (H7 : 148500 * 24 <= 8000 * (4 * 540)) by discriminate.
  split; [exact (conj H1 (conj H2 (conj H3 (conj H4 (conj H5 (conj H6 H7))))))|].
  destruct (tu_search_smallest_fit 148500 24 4 540 H1 H2 H3 H4 H5 H6)
    as [(t & E & C & F & _)|(E & _)].
  - intros t (k & Hk & -> & _).
    apply (stream_fits_link 148500 24 4 540 H3 (TU_SIZE + 2 * k) H7).
    change (@TU_SIZE sample_header) with 30. lia.
  - exists t. auto.
  - vm_compute in E. discriminate E.
Defined.

(** C3: the code returns 0 where the claim promises an error.  Block 2 is
    requested four times; every answer is well-formed and echoes the length
    128 but segment 0 instead of 1.  After the fourth mismatch the loop is
    left with [ret = 0]: the call succeeds and hands back the bytes of the
    last, mismatched answer. *)
Theorem get_edid_block_exhausted_returns_0 :
  let wrong := edid_reply 128 0 (repeat 0xee 128) in
  let d := fresh (answering (wrong ++ wrong ++ wrong ++ wrong)) in
  let '((r, edid), d') := cdns_mhdp_get_edid_block (repeat 0 128) 2 128 d in
  r = 0 /\ edid = repeat 0xee 128 /\
  mbox_wr d' = concat (repeat [0x02; 0x01; 0; 2; 1; 0] 4) /\
  rx (io d') = [].
Proof. vm_compute. repeat split; reflexivity. Qed.

(** The parts of C3 the code keeps: a matching answer on the fourth attempt
    succeeds; four attempts that all fail in the transport return the last
    error. *)
Example get_edid_block_fourth_attempt :
  let wrong := edid_reply 128 0 (repeat 0xee 128) in
  let right := edid_reply 128 1 (repeat 0x55 128) in
  let d := fresh (answering (wrong ++ wrong ++ wrong ++ right)) in
  let '((r, edid), d') := cdns_mhdp_get_edid_block (repeat 0 128) 2 128 d in
  r = 0 /\ edid = repeat 0x55 128.
Proof. vm_compute. split; reflexivity. Qed.

Example get_edid_block_silent_firmware :
  let d := fresh (answering []) in
  let '((r, edid), d') := cdns_mhdp_get_edid_block (repeat 0 128) 2 128 d in
  r = - ETIMEDOUT /\ edid = repeat 0 128 /\
  mbox_wr d' = concat (repeat [0x02; 0x01; 0; 2; 1; 0] 4).
Proof. vm_compute. repeat split; reflexivity. Qed.

End Scripted.

Section ScriptedCommands.

#[local] Existing Instance sample_header.
#[local] Existing Instance fifo_platform.

(** C6 on a register-read request sent to a firmware that takes every
    byte. *)
Lemma mailbox_send_frame_witness :
  let d := fresh (answering []) in
  Z.of_nat (length [0x12; 0x34]) < 2 ^ 16 /\
  let (r, d') := cdns_mhdp_mailbox_send 0x0a 0x07 2 [0x12; 0x34] d in
  exists evs k,
    run d d' evs /\ gated_writes evs /\
    wr_bytes evs = firstn k ([7; 10; 2 / 256; 2 mod 256] ++ [0x12; 0x34]) /\
    rd_bytes evs = [] /\
    ((r = 0 /\ k = 6%nat) \/
     (r = - ETIMEDOUT /\ (k < 6)%nat /\
      ends_flag_set MAILBOX_FULL_ADDR (trace d'))).
Proof.
  intros d.
  assert (Hsize : Z.of_nat (length [0x12; 0x34]) < 2 ^ 16) by reflexivity.
  split; [exact Hsize|].
  exact (mailbox_send_frame 0x0a 0x07 [0x12; 0x34] d Hsize).
Defined.

(** A write FIFO that stays full after three bytes: the send stops there. *)
Example mailbox_send_partial :
  let stuck := {| rx := []; tx_room := 3; tx := [];
                  over_us := 6000000; over_j := 0 |} in
  let (r, d') := cdns_mhdp_mailbox_send 0x0a 0x07 2 [0x12; 0x34] (fresh stuck) in
  r = - ETIMEDOUT /\ mbox_wr d' = [7; 10; 0] /\ tx (io d') = [7; 10; 0].
Proof. vm_compute. repeat split; reflexivity. Qed.

(** Activation succeeds on five acknowledgement bytes of any content. *)
Example set_firmware_active_any_ack :
  let d := fresh (answering [0xde; 0xad; 0xbe; 0xef; 0x99]) in
  let (r, d') := cdns_mhdp_set_firmware_active true d in
  r = 0 /\ mbox_wr d' = [1; 10; 0; 1; 1] /\
  mbox_rd d' = [0xde; 0xad; 0xbe; 0xef; 0x99].
Proof. vm_compute. repeat split; reflexivity. Qed.

(** Two acknowledgement bytes only: the third read times out, after the
    five bytes of the frame were written, and the last access is the poll
    that found the mailbox empty. *)
Example set_firmware_active_short_ack :
  let d := fresh (answering [0xde; 0xad]) in
  let (r, d') := cdns_mhdp_set_firmware_active false d in
  r = - ETIMEDOUT /\ mbox_wr d' = [1; 10; 0; 1; 0] /\
  mbox_rd d' = [0xde; 0xad] /\
  last (trace d') (BusWrite 0 0) = BusRead (u32 MAILBOX_EMPTY_ADDR) 1.
Proof. vm_compute. repeat split; reflexivity. Qed.

(** A mailbox that takes three bytes and then stays full: the fourth write
    times out and nothing is read, the answer staying queued. *)
Example set_firmware_active_full_mailbox :
  let f := {| rx := [1; 10; 0; 1; 1]; tx_room := 3; tx := [];
              over_us := 6000000; over_j := 0 |} in
  let (r, d') := cdns_mhdp_set_firmware_active true (fresh f) in
  r = - ETIMEDOUT /\ mbox_wr d' = [1; 10; 0] /\ mbox_rd d' = [] /\
  rx (io d') = [1; 10; 0; 1; 1] /\
  last (trace d') (BusWrite 0 0) = BusRead (u32 MAILBOX_FULL_ADDR) 1.
Proof. vm_compute. repeat split; reflexivity. Qed.

(** C5 on a read of register [0x1234] answered with the value [0xbeef]. *)
Lemma reg_read_checks_echo_witness :
  let d := fresh (answering (reg_read_reply 0x1234 0xbeef)) in
  let s1 := cdns_mhdp_mailbox_send MB_MODULE_ID_GENERAL GENERAL_READ_REGISTER 4
              (put_unaligned_be32 0x1234) d in
  let s2 := cdns_mhdp_mailbox_validate_receive MB_MODULE_ID_GENERAL
              GENERAL_READ_REGISTER 8 (snd s1) in
  let s3 := cdns_mhdp_mailbox_read_receive [0; 0; 0; 0; 0; 0; 0; 0] 8 (snd s2) in
  (u32 0x1234 <> 0 /\ s1 = (0, snd s1) /\ s2 = (0, snd s2) /\
   s3 = ((0, snd (fst s3)), snd s3) /\
   firstn 4 (snd (fst s3)) = put_unaligned_be32 0x1234) /\
  cdns_mhdp_reg_read 0x1234 d = (0xbeef, snd s3).
Proof.
  intros d s1 s2 s3.
  assert (Ha : u32 0x1234 <> 0) by discriminate.
  assert (H1 : s1 = (0, snd s1)) by (vm_compute; reflexivity).
  assert (H2 : s2 = (0, snd s2)) by (vm_compute; reflexivity).
  assert (H3 : s3 = ((0, snd (fst s3)), snd s3)) by (vm_compute; reflexivity).
  assert (He : firstn 4 (snd (fst s3)) = put_unaligned_be32 0x1234)
    by (vm_compute; reflexivity).
  split; [exact (conj Ha (conj H1 (conj H2 (conj H3 He))))|].
  rewrite (proj1 (proj2 (reg_read_checks_echo 0x1234 d) Ha
                    (snd s1) (snd s2) (snd s3) (snd (fst s3)) H1 H2 H3) He).
  f_equal.
Defined.

(** An answer that echoes another address is refused. *)
Example reg_read_wrong_echo :
  let d := fresh (answering (reg_read_reply 0x1235 0xbeef)) in
  fst (cdns_mhdp_reg_read 0x1234 d) = - EINVAL.
Proof. reflexivity. Qed.

Example reg_read_zero_address :
  let d := fresh (answering (reg_read_reply 0 0xbeef)) in
  cdns_mhdp_reg_read 0 d = (- EINVAL, d).
Proof. reflexivity. Qed.

(** C9 on a read of register [0x1234] answered with the value
    [0x80000001]. *)
Lemma reg_read_high_value_negative_witness :
  let d := fresh (answering (reg_read_reply 0x1234 0x80000001)) in
  let s1 := cdns_mhdp_mailbox_send MB_MODULE_ID_GENERAL GENERAL_READ_REGISTER 4
              (put_unaligned_be32 0x1234) d in
  let s2 := cdns_mhdp_mailbox_validate_receive MB_MODULE_ID_GENERAL
              GENERAL_READ_REGISTER 8 (snd s1) in
  let s3 := cdns_mhdp_mailbox_read_receive [0; 0; 0; 0; 0; 0; 0; 0] 8 (snd s2) in
  (u32 0x1234 <> 0 /\ s1 = (0, snd s1) /\ s2 = (0, snd s2) /\
   s3 = ((0, snd (fst s3)), snd s3) /\
   firstn 4 (snd (fst s3)) = put_unaligned_be32 0x1234 /\
   2 ^ 31 <= get_unaligned_be32 (snd (fst s3)) 4) /\
  cdns_mhdp_reg_read 0x1234 d = (0x80000001 - 2 ^ 32, snd s3) /\
  fst (cdns_mhdp_reg_read 0x1234 d) < 0.
Proof.
  intros d s1 s2 s3.
  assert (Ha : u32 0x1234 <> 0) by discriminate.
  assert (H1 : s1 = (0, snd s1)) by (vm_compute; reflexivity).
  assert (H2 : s2 = (0, snd s2)) by (vm_compute; reflexivity).
  assert (H3 : s3 = ((0, snd (fst s3)), snd s3)) by (vm_compute; reflexivity).
  assert (He : firstn 4 (snd (fst s3)) = put_unaligned_be32 0x1234)
    by (vm_compute; reflexivity).
  assert (Hh : 2 ^ 31 <= get_unaligned_be32 (snd (fst s3)) 4)
    by (vm_compute; discriminate).
  split; [exact (conj Ha (conj H1 (conj H2 (conj H3 (conj He Hh)))))|].
  pose proof (reg_read_high_value_negative 0x1234 d (snd s1) (snd s2) (snd s3)
                (snd (fst s3)) Ha H1 H2 H3 He Hh) as [E L].
  split; [|exact L].
  rewrite E. f_equal.
Defined.

(** A register holding [0xffffffea] reads as [-22], the value a failed read
    returns. *)
Example reg_read_value_looks_like_error :
  fst (cdns_mhdp_reg_read 0x1234
         (fresh (answering (reg_read_reply 0x1234 0xffffffea)))) = - EINVAL /\
  fst (cdns_mhdp_reg_read 0x1234
         (fresh (answering (reg_read_reply 0x9999 0)))) = - EINVAL.
Proof. split; reflexivity. Qed.

(** C10 on an answer for address [0x200]: the call returns 0, the buffer
    keeps its nines and the six status bytes stay in the mailbox. *)
Lemma adjust_lt_wrong_address_returns_0_witness :
  let d := fresh (answering (dpcd_reply 0x200 [1; 2; 3; 4; 5; 6])) in
  let payload0 := [0; 0; 0; 0; 0; 0; 0] in
  let dpcd := [9; 9; 9; 9; 9; 9] in
  let s1 := cdns_mhdp_mailbox_send MB_MODULE_ID_DP_TX DPTX_ADJUST_LT 7
              (adjust_lt_payload payload0 (u8 4) 400 [1; 1; 1; 1]) d in
  let s2 := cdns_mhdp_mailbox_validate_receive MB_MODULE_ID_DP_TX
              DPTX_READ_DPCD 11 (snd s1) in
  let s3 := cdns_mhdp_mailbox_read_receive [0; 0; 0; 0; 0] 5 (snd s2) in
  ((u8 4 = 4 \/ u8 4 = 2 \/ u8 4 = 1) /\ s1 = (0, snd s1) /\
   s2 = (0, snd s2) /\ s3 = ((0, snd (fst s3)), snd s3) /\
   u32 (get_unaligned_be24 (snd (fst s3)) 2) <> u32 DP_LANE0_1_STATUS) /\
  cdns_mhdp_adjust_lt payload0 4 400 [1; 1; 1; 1] dpcd d
    = ((0, dpcd), snd s3) /\
  rx (io (snd s3)) = [1; 2; 3; 4; 5; 6].
Proof.
  intros d payload0 dpcd s1 s2 s3.
  assert (Hl : u8 4 = 4 \/ u8 4 = 2 \/ u8 4 = 1) by (left; reflexivity).
  assert (H1 : s1 = (0, snd s1)) by (vm_compute; reflexivity).
  assert (H2 : s2 = (0, snd s2)) by (vm_compute; reflexivity).
  assert (H3 : s3 = ((0, snd (fst s3)), snd s3)) by (vm_compute; reflexivity).
  assert (Hw : u32 (get_unaligned_be24 (snd (fst s3)) 2) <> u32 DP_LANE0_1_STATUS)
    by (vm_compute; discriminate).
  split; [exact (conj Hl (conj H1 (conj H2 (conj H3 Hw))))|].
  split; [|vm_compute; reflexivity].
  exact (adjust_lt_wrong_address_returns_0 payload0 4 400 [1; 1; 1; 1] dpcd
           d (snd s1) (snd s2) (snd s3) (snd (fst s3)) Hl H1 H2 H3 Hw).
Defined.

(** With the expected address the six status bytes reach the buffer. *)
Example adjust_lt_right_address :
  let d := fresh (answering (dpcd_reply 0x202 [1; 2; 3; 4; 5; 6])) in
  fst (cdns_mhdp_adjust_lt [0; 0; 0; 0; 0; 0; 0] 4 400 [1; 1; 1; 1]
         [9; 9; 9; 9; 9; 9] d) = (0, [1; 2; 3; 4; 5; 6]).
Proof. reflexivity. Qed.

(** C4 on a firmware that answers every event request without the flag:
    at 250 jiffies per second the loop makes 25 rounds and gives up. *)
Lemma train_link_outcomes_witness :
  let quiet := concat (repeat (event_reply 0) 30) in
  let d := fresh (answering quiet) in
  snd (fst (training_start_rounds d)) = Some (repeat (RoundEvent 0) 25) /\
  forallb round_quiet (repeat (RoundEvent 0) 25) = true /\
  cdns_mhdp_train_link d = (- ETIMEDOUT, snd (training_start_rounds d)) /\
  link_rate (snd (training_start_rounds d)) = link_rate d /\
  link_num_lanes (snd (training_start_rounds d)) = link_num_lanes d.
Proof.
  intros quiet d.
  assert (Hr : snd (fst (training_start_rounds d))
               = Some (repeat (RoundEvent 0) 25)) by (vm_compute; reflexivity).
  assert (Hq : forallb round_quiet (repeat (RoundEvent 0) 25) = true)
    by reflexivity.
  split; [exact Hr|]. split; [exact Hq|].
  pose proof (train_link_outcomes d) as T.
  destruct (training_start_rounds d) as [[r rounds] d1].
  destruct T as (T & _).
  simpl in Hr.
  destruct (T _ Hr Hq) as (E & L1 & L2 & _).
  simpl. auto.
Defined.

(** The flag in the third event ends the polling; the status answer then
    sets rate and lane count. *)
Example train_link_success :
  let answers := event_reply 0 ++ event_reply 0 ++ event_reply 8
                 ++ reply 0x0b 0x01 [0x14; 4; 0; 0; 0; 0; 0; 0; 0; 0] in
  let (r, d') := cdns_mhdp_train_link (fresh (answering answers)) in
  r = 0 /\ link_rate d' = 540000 /\ link_num_lanes d' = 4.
Proof. vm_compute. repeat split; reflexivity. Qed.

(** A transport failure during polling ends the call with that error, not
    with a timeout of the loop. *)
Example train_link_bad_event_header :
  let answers := event_reply 0 ++ [0x0a; 0x01; 0; 3; 0; 0; 0] in
  let (r, d') := cdns_mhdp_train_link (fresh (answering answers)) in
  r = - EINVAL /\ link_rate d' = 0 /\ link_num_lanes d' = 0.
Proof. vm_compute. repeat split; reflexivity. Qed.

End ScriptedCommands.

Section ScriptedPcie.

#[local] Existing Instance table_pci.

Example read_vendor_id_rev_1_0 :
  let pcie := @Build_ls_pcie_g4 table_pci 0x3400000 0x10 [] [] in
  let '(r, pcie') := ls_pcie_g4_read_other_conf 1 0 0 2 pcie in
  r = (0, 0x1957) /\
  pci_trace pcie' = [LutWrite 0x28 0; ConfigRead 1 0 0 2; LutWrite 0x28 1] /\
  pci_io pcie' = [(0x3480028, 1); (0x3480028, 0)].
Proof. vm_compute. repeat split; reflexivity. Qed.

Example read_vendor_id_rev_2_0 :
  let pcie := @Build_ls_pcie_g4 table_pci 0x3400000 0x20 [] [] in
  let '(r, pcie') := ls_pcie_g4_read_other_conf 1 0 0 2 pcie in
  r = (0, 0x1957) /\ pci_trace pcie' = [ConfigRead 1 0 0 2] /\
  pci_io pcie' = [].
Proof. vm_compute. repeat split; reflexivity. Qed.

End ScriptedPcie.

(** * Byte order, buffers and timing of the mailbox primitives *)

Ltac ret_negative_in E :=
  replace (- ETIMEDOUT <? 0) with true in E
    by (symmetry; apply Z.ltb_lt; lia).

Section MailboxTiming.

Context {H : Header} {P : Platform}.

Lemma be24_bytes_value (val : Z) :
  Z.lor (Z.lor (Z.shiftl (u8 (Z.shiftr (u32 val) 16)) 16)
               (Z.shiftl (u8 (Z.shiftr (u32 val) 8)) 8))
        (u8 (u32 val)) = val mod 2 ^ 24.
Proof.
  replace (Z.shiftl (u8 (Z.shiftr (u32 val) 16)) 16)
    with (Z.shiftl (Z.shiftl (u8 (Z.shiftr (u32 val) 16)) 8) 8)
    by (rewrite Z.shiftl_shiftl by lia; reflexivity).
  rewrite <- Z.shiftl_lor.
  pose proof (u8_range (Z.shiftr (u32 val) 16)) as R0.
  pose proof (u8_range (Z.shiftr (u32 val) 8)) as R1.
  pose proof (u8_range (u32 val)) as R2.
  rewrite (lor_shiftl_byte _ _ (proj1 R0) R1).
  rewrite lor_shiftl_byte by (try assumption; lia).
  unfold u8, u32 in *. rewrite !Z.shiftr_div_pow2 by lia.
  rewrite <- (Z.mod_mod_divide val (2 ^ 32) (2 ^ 24))
    by (exists (2 ^ 8); reflexivity).
  set (w := val mod 2 ^ 32).
  change (2 ^ 24) with 16777216. change (2 ^ 16) with 65536.
  change (2 ^ 8) with 256.
  pose proof (Z.div_mod w 65536 ltac:(lia)).
  pose proof (Z.div_mod w 256 ltac:(lia)).
  pose proof (Z.div_mod w 16777216 ltac:(lia)).
  pose proof (Z.mod_pos_bound w 16777216 ltac:(lia)).
  pose proof (Z.div_mod (w / 65536) 256 ltac:(lia)).
  pose proof (Z.div_mod (w / 256) 256 ltac:(lia)).
  pose proof (Z.mod_pos_bound (w / 65536) 256 ltac:(lia)).
  pose proof (Z.mod_pos_bound (w / 256) 256 ltac:(lia)).
  pose proof (Z.mod_pos_bound w 256 ltac:(lia)).
  pose proof (Z.mod_pos_bound w 65536 ltac:(lia)).
  assert (w / 65536 / 256 = w / 16777216)
    by (rewrite Z.div_div by lia; reflexivity).
  assert (w / 256 / 256 = w / 65536)
    by (rewrite Z.div_div by lia; reflexivity).
  pose proof (Z.div_mod (w / 256) 256 ltac:(lia)).
  lia.
Qed.


Lemma shiftl_byte_below_24 (b k : Z) :
  0 <= k <= 16 -> 0 <= b < 256 -> 0 <= Z.shiftl b k < 2 ^ 24.
Proof.
  intros Hk Hb. rewrite Z.shiftl_mul_pow2 by lia.
  assert (0 < 2 ^ k) by (apply Z.pow_pos_nonneg; lia).
  assert (2 ^ k <= 2 ^ 16) by (apply Z.pow_le_mono_r; lia).
  split; [nia|]. change (2 ^ 24) with (256 * 2 ^ 16). nia.
Qed.

Lemma get_unaligned_be24_range (p : list Z) (off : nat) :
  Forall (fun b => 0 <= b < 256) p ->
  0 <= get_unaligned_be24 p off < 2 ^ 24.
Proof.
  intros B. unfold get_unaligned_be24.
  assert (N : forall i, 0 <= nth i p 0 < 256).
  { intros i. destruct (Nat.lt_ge_cases i (length p)) as [Hi|Hi].
    - rewrite Forall_forall in B. apply B, nth_In, Hi.
    - rewrite nth_overflow by assumption. lia. }
  repeat apply lor_below; try lia;
    try (apply shiftl_byte_below_24; [lia|apply N]).
  pose proof (N (off + 2)%nat). lia.
Qed.

(** A buffer after [bs] was stored from its start: [bs], then what the
    buffer held beyond. *)
Lemma store_bytes_prefix (bs buff : list Z) :
  (length bs <= length buff)%nat ->
  store_bytes 0 bs buff = bs ++ skipn (length bs) buff.
Proof.
  assert (G : forall (bs pre buff : list Z),
             (length bs <= length buff)%nat ->
             store_bytes (length pre) bs (pre ++ buff)
             = pre ++ bs ++ skipn (length bs) buff).
  { clear. induction bs as [|b bs IH]; intros pre buff L.
    - reflexivity.
    - destruct buff as [|x buff]; [simpl in L; lia|].
      simpl in L. cbn [store_bytes].
      assert (S0 : store (length pre) b (pre ++ x :: buff) = (pre ++ [b]) ++ buff).
      { clear. induction pre as [|p pre IHp]; simpl; [reflexivity|].
        now rewrite IHp. }
      rewrite S0. specialize (IH (pre ++ [b]) buff ltac:(lia)).
      rewrite length_app, Nat.add_1_r in IH. rewrite IH.
      rewrite <- app_assoc. reflexivity. }
  intros L. exact (G bs [] buff L).
Qed.

(** A poll that ends without its condition met ends past its deadline. *)
Lemma poll_loop_late (offset : Z) (cond : Z -> bool)
      (sleep_us timeout_us deadline : Z) :
  0 < sleep_us -> timeout_us <> 0 ->
  forall (fuel : nat) (d : cdns_mhdp_device),
    deadline - ktime d < Z.of_nat fuel * (Z.shiftr sleep_us 2 + 1) ->
    let (val, d') :=
      poll_loop fuel offset cond sleep_us timeout_us deadline d in
    cond val = false -> deadline < ktime d'.
Proof.
  intros Hs Ht.
  assert (Hlo : 1 <= Z.shiftr sleep_us 2 + 1).
  { pose proof (proj2 (Z.shiftr_nonneg sleep_us 2)). lia. }
  assert (Hnz : (timeout_us =? 0) = false) by now apply Z.eqb_neq.
  assert (Hsz : (sleep_us =? 0) = false) by (apply Z.eqb_neq; lia).
  induction fuel as [|fuel IH]; intros d Hfuel; simpl; unfold bind;
    pose proof (bus_read_run offset d) as R;
    destruct (cdns_mhdp_bus_read offset d) as [v d1];
    destruct R as [(_ & K & _) _];
    destruct (cond v) eqn:Ec; try (unfold ret; congruence);
    rewrite Hnz; cbn [negb andb];
    destruct (Z.gtb_spec (ktime d1) deadline) as [Hgt|Hle].
  - pose proof (bus_read_run offset d1) as R2.
    destruct (cdns_mhdp_bus_read offset d1) as [v2 d2].
    destruct R2 as [(_ & K2 & _) _]. intros _. lia.
  - simpl in Hfuel. lia.
  - pose proof (bus_read_run offset d1) as R2.
    destruct (cdns_mhdp_bus_read offset d1) as [v2 d2].
    destruct R2 as [(_ & K2 & _) _]. intros _. lia.
  - rewrite Hsz. unfold usleep_range.
    pose proof (sleep_for_run (Z.shiftr sleep_us 2 + 1) 0 d1
                  ltac:(lia) (Z.le_refl 0)) as S.
    destruct (sleep_for (Z.shiftr sleep_us 2 + 1) 0 d1) as [[] d2].
    destruct S as (_ & K2 & _).
    apply IH. rewrite Nat2Z.inj_succ, Z.mul_succ_l in Hfuel. lia.
Qed.

Lemma poll_timeout_late (offset : Z) (cond : Z -> bool)
      (sleep_us timeout_us : Z) (d : cdns_mhdp_device) :
  0 < sleep_us -> 0 < timeout_us ->
  let '((r, val), d') :=
    mhdp_readx_poll_timeout offset cond sleep_us timeout_us d in
  r <> 0 -> ktime d + timeout_us < ktime d'.
Proof.
  intros Hs Ht. unfold mhdp_readx_poll_timeout.
  assert (Hfuel : ktime d + timeout_us - ktime d
                  < Z.of_nat (poll_turns sleep_us timeout_us)
                    * (Z.shiftr sleep_us 2 + 1)).
  { assert (Hlo : 1 <= Z.shiftr sleep_us 2 + 1).
    { pose proof (proj2 (Z.shiftr_nonneg sleep_us 2)). lia. }
    unfold poll_turns.
    set (lo := Z.shiftr sleep_us 2 + 1) in *.
    assert (0 <= timeout_us / lo) by (apply Z.div_pos; lia).
    rewrite Z2Nat.id by lia.
    pose proof (Z.div_mod timeout_us lo ltac:(lia)).
    pose proof (Z.mod_pos_bound timeout_us lo ltac:(lia)).
    nia. }
  pose proof (poll_loop_late offset cond sleep_us timeout_us
                (ktime d + timeout_us) Hs ltac:(lia)
                (poll_turns sleep_us timeout_us) d Hfuel) as L.
  destruct (poll_loop _ offset cond sleep_us timeout_us _ d) as [v d1].
  destruct (cond v); [intros E; now contradiction E|].
  intros _. now apply L.
Qed.

Lemma mailbox_read_late (d : cdns_mhdp_device) :
  let (r, d') := cdns_mhdp_mailbox_read d in
  r < 0 -> ktime d + MAILBOX_TIMEOUT_US < ktime d'.
Proof.
  unfold cdns_mhdp_mailbox_read, bind.
  pose proof (poll_timeout_late MAILBOX_EMPTY_ADDR (fun val => s32 val =? 0)
                MAILBOX_RETRY_US MAILBOX_TIMEOUT_US d
                ltac:(reflexivity) ltac:(reflexivity)) as L.
  destruct (mhdp_readx_poll_timeout _ _ _ _ d) as [[r v] d1].
  destruct (Z.ltb_spec r 0) as [Hneg|Hpos].
  - unfold ret. intros _. apply L. lia.
  - destruct (cdns_mhdp_bus_read MAILBOX0_RD_DATA d1) as [x d2].
    unfold ret. pose proof (land_ff_range x). lia.
Qed.

Lemma mailbox_write_late (val : Z) (d : cdns_mhdp_device) :
  let (r, d') := cdp_dp_mailbox_write val d in
  r <> 0 -> ktime d + MAILBOX_TIMEOUT_US < ktime d'.
Proof.
  unfold cdp_dp_mailbox_write, bind.
  pose proof (poll_timeout_late MAILBOX_FULL_ADDR (fun full => s32 full =? 0)
                MAILBOX_RETRY_US MAILBOX_TIMEOUT_US d
                ltac:(reflexivity) ltac:(reflexivity)) as L.
  destruct (mhdp_readx_poll_timeout _ _ _ _ d) as [[r v] d1].
  destruct (Z.ltb_spec r 0) as [Hneg|Hpos].
  - unfold ret. intros _. apply L. lia.
  - destruct (cdns_mhdp_bus_write (u8 val) MAILBOX0_WR_DATA d1) as [x d2].
    unfold ret. intros E. now contradiction E.
Qed.


Lemma read_loop_late (n : nat) :
  forall (i : nat) (buff : list Z) (d : cdns_mhdp_device),
    let '((r, _), d') := read_loop n i buff d in
    r <> 0 -> ktime d + MAILBOX_TIMEOUT_US < ktime d'.
Proof.
  induction n as [|n IH]; intros i buff d; simpl.
  - unfold ret. intros E. now contradiction E.
  - unfold bind. pose proof (mailbox_read_cases d) as C.
    pose proof (mailbox_read_late d) as L.
    destruct (cdns_mhdp_mailbox_read d) as [r d1].
    destruct (Z.ltb_spec r 0) as [Hneg|Hpos].
    + unfold ret. intros _. now apply L.
    + specialize (IH (S i) (store i (u8 r) buff) d1).
      destruct (read_loop n (S i) (store i (u8 r) buff) d1) as [[r' buff'] d'].
      intros Hr. specialize (IH Hr).
      pose proof ETIMEDOUT_pos.
      destruct C as [[_ (evs & (_ & K & _) & _)]|(-> & _)]; lia.
Qed.

Lemma write_loop_late (n : nat) :
  forall (i : nat) (buf : list Z) (d : cdns_mhdp_device),
    let (r, d') := write_loop n i buf d in
    r <> 0 -> ktime d + MAILBOX_TIMEOUT_US < ktime d'.
Proof.
  induction n as [|n IH]; intros i buf d; simpl.
  - unfold ret. intros E. now contradiction E.
  - unfold bind. pose proof (mailbox_write_cases (nth i buf 0) d) as C.
    pose proof (mailbox_write_late (nth i buf 0) d) as L.
    destruct (cdp_dp_mailbox_write (nth i buf 0) d) as [r d1].
    destruct (Z.eqb_spec r 0) as [->|Hr]; cbn [negb].
    + specialize (IH (S i) buf d1).
      destruct (write_loop n (S i) buf d1) as [r' d'].
      intros Hr. specialize (IH Hr).
      destruct C as (evs & (_ & K & _) & _). lia.
    + unfold ret. intros _. now apply L.
Qed.

(** How a send ends: with the whole frame written, or timed out after a
    proper prefix of it. *)
Lemma send_outcome (module_id opcode : Z) (message : list Z)
      (d : cdns_mhdp_device) :
  Z.of_nat (length message) < 2 ^ 16 ->
  let (r, d') := cdns_mhdp_mailbox_send module_id opcode
                   (Z.of_nat (length message)) message d in
  (r = 0 /\ exchange d d' [] (mbox_frame opcode module_id message)) \/
  (r = - ETIMEDOUT /\
   exists k, (k < length (mbox_frame opcode module_id message))%nat /\
             exchange d d' [] (firstn k (mbox_frame opcode module_id message))).
Proof.
  intros Hsize. unfold mbox_frame.
  set (size := Z.of_nat (length message)) in *.
  unfold cdns_mhdp_mailbox_send, bind.
  assert (Hr : 0 <= size < 2 ^ 16) by (unfold size; lia).
  rewrite (u16_small size Hr).
  set (header := [u8 opcode; u8 module_id] ++ put_unaligned_be16 size).
  assert (Hh : sent_window 0 4 header
               = [u8 opcode; u8 module_id; size / 256; size mod 256])
    by (apply send_header_window; assumption).
  pose proof (write_loop_spec 4 0 header d) as W1.
  destruct (write_loop 4 0 header d) as [r1 d1].
  destruct W1 as (e1 & k1 & R1 & _ & Rd1 & Wr1 & Hcase1).
  rewrite Hh in Wr1.
  pose proof ETIMEDOUT_pos as Hpos.
  destruct Hcase1 as [[-> ->]|(-> & L1 & _)].
  - ret_zero.
    replace (Z.to_nat size) with (length message)
      by (unfold size; now rewrite Nat2Z.id).
    pose proof (write_loop_spec (length message) 0 message d1) as W2.
    destruct (write_loop (length message) 0 message d1) as [r2 d2].
    destruct W2 as (e2 & k2 & R2 & _ & Rd2 & Wr2 & Hcase2).
    rewrite sent_window_all in Wr2.
    assert (X : exchange d d2 []
                  ([u8 opcode; u8 module_id; size / 256; size mod 256]
                   ++ firstn k2 (map u8 message))).
    { exists (e1 ++ e2). split; [apply (run_trans _ _ _ _ _ R1 R2)|].
      rewrite rd_bytes_app, wr_bytes_app, Rd1, Rd2, Wr1, Wr2. auto. }
    destruct Hcase2 as [[-> ->]|(-> & L2 & _)]; [left|right].
    + split; [reflexivity|].
      rewrite <- (length_map u8 message), firstn_all in X. exact X.
    + split; [reflexivity|]. exists (4 + k2)%nat.
      split; [rewrite length_app, length_map; simpl; lia|].
      exact X.
  - ret_timeout. unfold ret. right. split; [reflexivity|].
    exists k1. split; [rewrite length_app; simpl; lia|].
    exists e1. split; [assumption|]. split; [assumption|].
    rewrite Wr1. rewrite firstn_app.
    match goal with
    | |- context [firstn ?n (map u8 message)] =>
        replace n with O by (simpl; lia)
    end.
    now rewrite firstn_O, app_nil_r.
Qed.

Lemma send_late (module_id opcode size : Z) (message : list Z)
      (d : cdns_mhdp_device) :
  let (r, d') := cdns_mhdp_mailbox_send module_id opcode size message d in
  r <> 0 -> ktime d + MAILBOX_TIMEOUT_US < ktime d'.
Proof.
  unfold cdns_mhdp_mailbox_send, bind. cbv zeta.
  match goal with |- context [write_loop 4 0 ?h d] =>
    pose proof (write_loop_spec 4 0 h d) as W1;
    pose proof (write_loop_late 4 0 h d) as L1;
    destruct (write_loop 4 0 h d) as [r1 d1] end.
  destruct W1 as (e1 & k1 & (_ & K1 & _) & _).
  destruct (Z.eqb_spec r1 0) as [->|Hr1]; cbn [negb].
  - match goal with |- context [write_loop ?n 0 message d1] =>
      pose proof (write_loop_late n 0 message d1) as L2;
      destruct (write_loop n 0 message d1) as [r2 d2] end.
    intros Hr. specialize (L2 Hr). lia.
  - unfold ret. intros _. now apply L1.
Qed.

(** A validated response header is the expected one. *)
Lemma validate_ok (module_id opcode req_size : Z) (d d' : cdns_mhdp_device) :
  cdns_mhdp_mailbox_validate_receive module_id opcode req_size d = (0, d') ->
  exchange d d'
    [u8 opcode; u8 module_id; u16 req_size / 256; u16 req_size mod 256] [].
Proof.
  intros E. unfold cdns_mhdp_mailbox_validate_receive, bind in E.
  cbv zeta in E.
  pose proof (read_loop_spec 4 0 [0; 0; 0; 0] d) as Rl.
  destruct (read_loop 4 0 [0; 0; 0; 0] d) as [[r1 header] d1].
  destruct Rl as (bs & X & B & Hh & Hcase).
  pose proof ETIMEDOUT_pos as Hpos. pose proof EINVAL_pos as Hpos'.
  destruct Hcase as [[-> L]|(-> & L & _)].
  - change (0 <? 0) with false in E. cbv beta iota in E.
    destruct bs as [|h0 [|h1 [|h2 [|h3 [|]]]]]; try discriminate L.
    simpl in Hh. subst header. unfold get_unaligned_be16 in E.
    cbn [nth Nat.add] in E.
    inversion B as [|? ? B0 B']; subst.
    inversion B' as [|? ? B1 B'']; subst.
    inversion B'' as [|? ? B2 B''']; subst.
    inversion B''' as [|? ? B3 _]; subst.
    rewrite (lor_shiftl_byte h2 h3) in E by lia.
    destruct (Z.eqb_spec (u8 opcode) h0) as [<-|]; cbn [negb orb] in E.
    2: { destruct (drain_loop _ d1) as [[] d2]. unfold ret in E.
         injection E as E1 E2. lia. }
    destruct (Z.eqb_spec (u8 module_id) h1) as [<-|]; cbn [negb orb] in E.
    2: { destruct (drain_loop _ d1) as [[] d2]. unfold ret in E.
         injection E as E1 E2. lia. }
    destruct (Z.eqb_spec (u16 req_size) (h2 * 256 + h3)) as [Hs|]; cbn [negb orb] in E.
    2: { destruct (drain_loop _ d1) as [[] d2]. unfold ret in E.
         injection E as E1 E2. lia. }
    unfold ret in E. injection E as <-.
    replace (u16 req_size / 256) with h2 by (rewrite Hs; apply Z.div_unique with h3; lia).
    replace (u16 req_size mod 256) with h3 by (rewrite Hs; apply Z.mod_unique with h2; lia).
    exact X.
  - ret_negative_in E. unfold ret in E. injection E as E1 E2. lia.
Qed.

(** The three transport functions return 0 or a negative errno. *)
Lemma send_status (module_id opcode size : Z) (message : list Z)
      (d : cdns_mhdp_device) :
  let (r, d') := cdns_mhdp_mailbox_send module_id opcode size message d in
  r = 0 \/ r = - ETIMEDOUT.
Proof.
  unfold cdns_mhdp_mailbox_send, bind. cbv zeta.
  match goal with |- context [write_loop 4 0 ?h d] =>
    pose proof (write_loop_spec 4 0 h d) as W1;
    destruct (write_loop 4 0 h d) as [r1 d1] end.
  destruct W1 as (e1 & k1 & _ & _ & _ & _ & Hcase1).
  pose proof ETIMEDOUT_pos as Hpos.
  destruct Hcase1 as [[-> _]|(-> & _)].
  - ret_zero.
    match goal with |- context [write_loop ?n 0 message d1] =>
      pose proof (write_loop_spec n 0 message d1) as W2;
      destruct (write_loop n 0 message d1) as [r2 d2] end.
    destruct W2 as (e2 & k2 & _ & _ & _ & _ & [[-> _]|(-> & _)]); auto.
  - ret_timeout. unfold ret. auto.
Qed.

Lemma validate_status (module_id opcode req_size : Z) (d : cdns_mhdp_device) :
  let (r, d') :=
    cdns_mhdp_mailbox_validate_receive module_id opcode req_size d in
  r = 0 \/ r = - ETIMEDOUT \/ r = - EINVAL.
Proof.
  unfold cdns_mhdp_mailbox_validate_receive, bind. cbv zeta.
  pose proof (read_loop_spec 4 0 [0; 0; 0; 0] d) as Rl.
  destruct (read_loop 4 0 [0; 0; 0; 0] d) as [[r1 header] d1].
  destruct Rl as (bs & _ & _ & _ & Hcase).
  pose proof ETIMEDOUT_pos as Hpos.
  destruct Hcase as [[-> _]|(-> & _)].
  - change (0 <? 0) with false. cbv beta iota.
    match goal with |- context [if ?c then _ else _] => destruct c end.
    + destruct (drain_loop _ d1) as [[] d2]. unfold ret. auto.
    + unfold ret. auto.
  - ret_negative. unfold ret. auto.
Qed.

Lemma read_receive_status (buff : list Z) (buff_size : Z)
      (d : cdns_mhdp_device) :
  let '((r, _), d') := cdns_mhdp_mailbox_read_receive buff buff_size d in
  r = 0 \/ r = - ETIMEDOUT.
Proof.
  unfold cdns_mhdp_mailbox_read_receive.
  pose proof (read_loop_spec (Z.to_nat (u16 buff_size)) 0 buff d) as Rl.
  destruct (read_loop _ 0 buff d) as [[r buff'] d'].
  destruct Rl as (bs & _ & _ & _ & [[-> _]|(-> & _)]); auto.
Qed.

End MailboxTiming.

(** * The byte primitives and the receive buffer *)

Section PrimitiveOutcomes.

Context {H : Header} {P : Platform}.

(** X1.  The 24-bit big-endian accessors of lines 58-72 are inverse to each
    other on the low 24 bits: what [put_unaligned_be24] stores,
    [get_unaligned_be24] reads back as the value modulo 2^24, the three
    stored bytes each fitting eight bits. *)
Theorem be24_round_trip (val : Z) :
  get_unaligned_be24 (put_unaligned_be24 val) 0 = val mod 2 ^ 24 /\
  Forall (fun b => 0 <= b < 256) (put_unaligned_be24 val).
Proof.
  split.
  - unfold get_unaligned_be24, put_unaligned_be24. cbn [nth Nat.add].
    apply be24_bytes_value.
  - unfold put_unaligned_be24. repeat constructor; apply u8_range.
Qed.

(** X2.  [cdns_mhdp_mailbox_read] never writes to the mailbox.  It either takes
    exactly one byte from the read-data register and returns it, a value
    from 0 to 255, or returns [-ETIMEDOUT] without having touched the
    read-data register, and then more than [MAILBOX_TIMEOUT_US]
    microseconds have passed since the call began. *)
Theorem mailbox_read_outcome (d : cdns_mhdp_device) :
  let (r, d') := cdns_mhdp_mailbox_read d in
  mbox_wr d' = mbox_wr d /\
  ((0 <= r < 256 /\ mbox_rd d' = mbox_rd d ++ [r]) \/
   (r = - ETIMEDOUT /\ mbox_rd d' = mbox_rd d /\
    ktime d + MAILBOX_TIMEOUT_US < ktime d')).
Proof.
  pose proof (mailbox_read_cases d) as C.
  pose proof (mailbox_read_late d) as L.
  destruct (cdns_mhdp_mailbox_read d) as [r d'].
  pose proof ETIMEDOUT_pos as Hpos.
  destruct C as [[Hr X]|(-> & X & _)];
    destruct (exchange_mbox _ _ _ _ X) as [Rd Wr];
    rewrite app_nil_r in *.
  - split; [assumption|]. left. auto.
  - split; [assumption|]. right.
    split; [reflexivity|]. split; [assumption|]. apply L. lia.
Qed.

(** X3.  [cdp_dp_mailbox_write] never reads from the mailbox.  It either puts
    exactly the low eight bits of [val] into the write-data register and
    returns 0, or returns [-ETIMEDOUT] with nothing written, and then more
    than [MAILBOX_TIMEOUT_US] microseconds have passed since the call
    began. *)
Theorem mailbox_write_outcome (val : Z) (d : cdns_mhdp_device) :
  let (r, d') := cdp_dp_mailbox_write val d in
  mbox_rd d' = mbox_rd d /\
  ((r = 0 /\ mbox_wr d' = mbox_wr d ++ [u8 val]) \/
   (r = - ETIMEDOUT /\ mbox_wr d' = mbox_wr d /\
    ktime d + MAILBOX_TIMEOUT_US < ktime d')).
Proof.
  pose proof (mailbox_write_cases val d) as C.
  pose proof (mailbox_write_late val d) as L.
  destruct (cdp_dp_mailbox_write val d) as [r d'].
  pose proof ETIMEDOUT_pos as Hpos.
  destruct C as (evs & R & _ & Rd & Hcase).
  assert (X : exchange d d' [] (wr_bytes evs)) by (exists evs; auto).
  destruct (exchange_mbox _ _ _ _ X) as [Rd' Wr'].
  rewrite app_nil_r in Rd'. split; [assumption|].
  destruct Hcase as [[-> W]|(-> & W & _)]; rewrite W in Wr'.
  - left. auto.
  - right. rewrite app_nil_r in Wr'.
    split; [reflexivity|]. split; [assumption|]. apply L. lia.
Qed.

(** X4.  A send or a receive that fails has waited out a full mailbox timeout:
    when [cdns_mhdp_mailbox_send] or [cdns_mhdp_mailbox_read_receive]
    returns non-zero, the result is [-ETIMEDOUT] and more than
    [MAILBOX_TIMEOUT_US] microseconds have passed since the call began. *)
Theorem transport_failure_is_late (module_id opcode size : Z)
        (message buff : list Z) (buff_size : Z) (d : cdns_mhdp_device) :
  (let (r, d') := cdns_mhdp_mailbox_send module_id opcode size message d in
   r <> 0 -> r = - ETIMEDOUT /\ ktime d + MAILBOX_TIMEOUT_US < ktime d') /\
  (let '((r, _), d') := cdns_mhdp_mailbox_read_receive buff buff_size d in
   r <> 0 -> r = - ETIMEDOUT /\ ktime d + MAILBOX_TIMEOUT_US < ktime d').
Proof.
  split.
  - pose proof (send_status module_id opcode size message d) as S.
    pose proof (send_late module_id opcode size message d) as L.
    destruct (cdns_mhdp_mailbox_send module_id opcode size message d) as [r d'].
    intros Hr. split; [tauto|auto].
  - pose proof (read_receive_status buff buff_size d) as S.
    unfold cdns_mhdp_mailbox_read_receive in *.
    pose proof (read_loop_late (Z.to_nat (u16 buff_size)) 0 buff d) as L.
    destruct (read_loop _ 0 buff d) as [[r buff'] d'].
    intros Hr. split; [tauto|auto].
Qed.

(** X5.  [cdns_mhdp_mailbox_read_receive] on a buffer with room for [buff_size]
    bytes: the bytes read land at the start of the buffer in the order
    read, the rest of the buffer keeps what it held; the call returns 0
    with all [buff_size] bytes read, or [-ETIMEDOUT] with fewer. *)
Theorem read_receive_buffer (buff : list Z) (buff_size : Z)
        (d : cdns_mhdp_device) :
  (Z.to_nat (u16 buff_size) <= length buff)%nat ->
  let '((r, buff'), d') := cdns_mhdp_mailbox_read_receive buff buff_size d in
  exists bs,
    exchange d d' bs [] /\
    buff' = bs ++ skipn (length bs) buff /\
    ((r = 0 /\ length bs = Z.to_nat (u16 buff_size)) \/
     (r = - ETIMEDOUT /\ (length bs < Z.to_nat (u16 buff_size))%nat)).
Proof.
  intros Hroom. unfold cdns_mhdp_mailbox_read_receive.
  pose proof (read_loop_spec (Z.to_nat (u16 buff_size)) 0 buff d) as Rl.
  destruct (read_loop _ 0 buff d) as [[r buff'] d'].
  destruct Rl as (bs & X & _ & -> & Hcase).
  exists bs. split; [assumption|].
  split.
  - apply store_bytes_prefix. destruct Hcase as [[_ L]|(_ & L & _)]; lia.
  - destruct Hcase as [[-> L]|(-> & L & _)]; auto.
Qed.

End PrimitiveOutcomes.

(** * The 4K window of the bus accessor *)

Section BusWindow.

Context {H : Header} {P : Platform}.

Lemma page_window (offset : Z) :
  let page := Z.shiftr (u32 offset) 12 in
  let window := Z.land (u32 offset) 0xfff in
  u32 offset = page * 4096 + window /\ 0 <= window < 4096 /\
  0 <= page < 2 ^ 20.
Proof.
  cbv zeta. pose proof (u32_range offset) as R.
  rewrite Z.shiftr_div_pow2 by lia.
  change 0xfff with (Z.ones 12). rewrite Z.land_ones by lia.
  change (2 ^ 12) with 4096.
  pose proof (Z.div_mod (u32 offset) 4096 ltac:(lia)).
  pose proof (Z.mod_pos_bound (u32 offset) 4096 ltac:(lia)).
  split; [lia|]. split; [lia|].
  split; [apply Z.div_pos; lia|].
  apply Z.div_lt_upper_bound; lia.
Qed.

(** X24.  On the two low-4K bus types an access to [offset] is made
    through a window: the page number [offset >> 12] is first written to
    the select register ([regs_sec + 8] for the APB, [regs_sec + 0xc] for
    the secure APB), then the word at [regs_base + (offset & 0xfff)] is
    read or written.  Page and window recompose the 32-bit offset:
    [offset = page * 4096 + window] with [window] below 4096 and [page]
    below 2^20. *)
Theorem bus_access_low4k (offset val : Z) (d : cdns_mhdp_device) :
  bus_type d = BUS_TYPE_LOW4K_APB \/ bus_type d = BUS_TYPE_LOW4K_SAPB ->
  exists page window,
    u32 offset = page * 4096 + window /\ 0 <= window < 4096 /\
    0 <= page < 2 ^ 20 /\
    let select :=
      regs_sec d + (match bus_type d with BUS_TYPE_LOW4K_APB => 8 | _ => 0xc end) in
    let paged := writel page select (io d) in
    fst (cdns_mhdp_bus_read offset d)
      = u32 (fst (readl (window + regs_base d) paged)) /\
    io (snd (cdns_mhdp_bus_read offset d))
      = snd (readl (window + regs_base d) paged) /\
    io (snd (cdns_mhdp_bus_write val offset d))
      = writel (u32 val) (window + regs_base d) paged.
Proof.
  intros Hb.
  destruct (page_window offset) as (E & Hw & Hp).
  exists (Z.shiftr (u32 offset) 12), (Z.land (u32 offset) 0xfff).
  split; [exact E|]. split; [exact Hw|]. split; [exact Hp|].
  assert (Hu : u32 (Z.shiftr (u32 offset) 12) = Z.shiftr (u32 offset) 12).
  { apply u32_small. change (2 ^ 32) with (4096 * 2 ^ 20). lia. }
  cbv zeta. unfold cdns_mhdp_bus_read, cdns_mhdp_bus_write.
  cbv zeta. unfold bind, mmio_writel, mmio_readl.
  destruct Hb as [-> | ->]; cbn [set_io io]; rewrite Hu, u32_idem;
    destruct (readl _ _) as [v h]; cbn [fst snd log set_io io]; auto.
Qed.

End BusWindow.

(** * DPCD, hot-plug and fire-and-forget commands *)

Section CommandOutcomes.

Context {H : Header} {C : CommandHeader} {P : Platform}.

(** A request sent, its response header validated and [n] response bytes
    read into a buffer of that size: what crossed the mailbox. *)
Lemma query_ok (module_id opcode ropcode req_size : Z) (message buff resp : list Z)
      (n : nat) (d d1 d2 d3 : cdns_mhdp_device) :
  Z.of_nat (length message) < 2 ^ 16 ->
  length buff = n -> Z.of_nat n < 2 ^ 16 ->
  cdns_mhdp_mailbox_send module_id opcode (Z.of_nat (length message))
    message d = (0, d1) ->
  cdns_mhdp_mailbox_validate_receive module_id ropcode req_size d1 = (0, d2) ->
  cdns_mhdp_mailbox_read_receive buff (Z.of_nat n) d2 = ((0, resp), d3) ->
  exchange d d3
    ([u8 ropcode; u8 module_id; u16 req_size / 256; u16 req_size mod 256]
     ++ resp)
    (mbox_frame opcode module_id message) /\
  length resp = n /\ Forall (fun b => 0 <= b < 256) resp.
Proof.
  intros Hm Hb Hn E1 E2 E3.
  pose proof (send_ok_frame module_id opcode message d d1 Hm E1) as X1.
  pose proof (validate_ok module_id ropcode req_size d1 d2 E2) as X2.
  destruct (read_receive_ok buff n d2 d3 resp Hb Hn E3) as (X3 & L & B).
  split; [|auto].
  pose proof (exchange_trans _ _ _ _ _ _ _ X1
                (exchange_trans _ _ _ _ _ _ _ X2 X3)) as X.
  rewrite !app_nil_r in X. exact X.
Qed.

(** X6.  [cdns_mhdp_dpcd_write] returns 0, [-ETIMEDOUT] or [-EINVAL].  When it
    returns 0, the request frame [DPTX_WRITE_DPCD, module, 0, 6, 0, 1,
    address (3 bytes, big-endian), value] was written in full, a response
    with the expected header and five more bytes was read, and the 24-bit
    address echoed in response bytes 2 to 4 equals the whole 32-bit
    [addr]; hence the call cannot return 0 for an address of 2^24 or
    more, whose upper byte the request does not carry. *)
Theorem dpcd_write_outcome (addr value : Z) (d : cdns_mhdp_device) :
  let (r, d') := cdns_mhdp_dpcd_write addr value d in
  (r = 0 \/ r = - ETIMEDOUT \/ r = - EINVAL) /\
  (r = 0 ->
   u32 addr < 2 ^ 24 /\
   exists reg,
     length reg = 5%nat /\ get_unaligned_be24 reg 2 = u32 addr /\
     exchange d d'
       ([u8 DPTX_WRITE_DPCD; u8 MB_MODULE_ID_DP_TX; 0; 5] ++ reg)
       (mbox_frame DPTX_WRITE_DPCD MB_MODULE_ID_DP_TX
          ([0; 1] ++ put_unaligned_be24 addr ++ [u8 value]))).
Proof.
  unfold cdns_mhdp_dpcd_write, bind. cbv zeta.
  set (msg := put_unaligned_be16 1 ++ put_unaligned_be24 (u32 addr) ++ [u8 value]).
  assert (Hmsg : msg = [0; 1] ++ put_unaligned_be24 addr ++ [u8 value]).
  { unfold msg, put_unaligned_be24. now rewrite u32_idem. }
  pose proof ETIMEDOUT_pos as Ht. pose proof EINVAL_pos as Hi.
  pose proof (send_status MB_MODULE_ID_DP_TX DPTX_WRITE_DPCD 6 msg d) as S1.
  destruct (cdns_mhdp_mailbox_send _ _ 6 msg d) as [r1 d1] eqn:E1.
  destruct (Z.eqb_spec r1 0) as [->|Hr1]; cbn [negb]; cbv beta iota.
  2: { unfold ret. split; [tauto|intros; contradiction]. }
  pose proof (validate_status MB_MODULE_ID_DP_TX DPTX_WRITE_DPCD 5 d1) as S2.
  destruct (cdns_mhdp_mailbox_validate_receive _ _ 5 d1) as [r2 d2] eqn:E2.
  destruct (Z.eqb_spec r2 0) as [->|Hr2]; cbn [negb]; cbv beta iota.
  2: { unfold ret. split; [tauto|intros; contradiction]. }
  pose proof (read_receive_status [0; 0; 0; 0; 0] 5 d2) as S3.
  destruct (cdns_mhdp_mailbox_read_receive [0; 0; 0; 0; 0] 5 d2)
    as [[r3 reg] d3] eqn:E3.
  destruct (Z.eqb_spec r3 0) as [->|Hr3]; cbn [negb]; cbv beta iota.
  2: { unfold ret. split; [tauto|intros; contradiction]. }
  change 6 with (Z.of_nat (length msg)) in E1.
  destruct (query_ok MB_MODULE_ID_DP_TX DPTX_WRITE_DPCD DPTX_WRITE_DPCD 5 msg
              [0; 0; 0; 0; 0] reg 5 d d1 d2 d3
              ltac:(reflexivity) ltac:(reflexivity) ltac:(reflexivity)
              E1 E2 E3) as (X & L & B).
  pose proof (get_unaligned_be24_range reg 2 B) as R.
  rewrite (u32_small (get_unaligned_be24 reg 2))
    by (change (2 ^ 32) with (256 * 2 ^ 24); lia).
  destruct (Z.eqb_spec (u32 addr) (get_unaligned_be24 reg 2)) as [Heq|Hne];
    cbn [negb]; unfold ret.
  - split; [tauto|]. intros _. split; [lia|].
    exists reg. split; [assumption|]. split; [now symmetry|].
    rewrite <- Hmsg. exact X.
  - split; [tauto|]. intros E. lia.
Qed.

(** X7.  [cdns_mhdp_dpcd_read] into a buffer of [len] bytes returns 0,
    [-ETIMEDOUT] or [-EINVAL].  When it returns 0, the request frame
    [DPTX_READ_DPCD, module, 0, 5, len (2 bytes), address (3 bytes)] was
    written in full and the response read is the header announcing
    [5 + len] bytes (modulo 2^16), five bytes that the call reads and does
    not examine, and [len] data bytes, which are what the buffer holds
    afterwards. *)
Theorem dpcd_read_outcome (addr : Z) (data : list Z) (len : Z)
        (d : cdns_mhdp_device) :
  length data = Z.to_nat (u16 len) ->
  let '((r, data'), d') := cdns_mhdp_dpcd_read addr data len d in
  (r = 0 \/ r = - ETIMEDOUT \/ r = - EINVAL) /\
  (r = 0 ->
   exists reg,
     length reg = 5%nat /\ length data' = Z.to_nat (u16 len) /\
     exchange d d'
       ([u8 DPTX_READ_DPCD; u8 MB_MODULE_ID_DP_TX;
         u16 (5 + u16 len) / 256; u16 (5 + u16 len) mod 256] ++ reg ++ data')
       (mbox_frame DPTX_READ_DPCD MB_MODULE_ID_DP_TX
          (put_unaligned_be16 len ++ put_unaligned_be24 addr))).
Proof.
  intros Hdata. unfold cdns_mhdp_dpcd_read, bind. cbv zeta.
  set (msg := put_unaligned_be16 (u16 len) ++ put_unaligned_be24 addr).
  assert (Hmsg : msg = put_unaligned_be16 len ++ put_unaligned_be24 addr).
  { unfold msg, put_unaligned_be16.
    now rewrite (u16_small (u16 len)) by (apply Z.mod_pos_bound; lia). }
  pose proof ETIMEDOUT_pos as Ht. pose proof EINVAL_pos as Hi.
  pose proof (send_status MB_MODULE_ID_DP_TX DPTX_READ_DPCD 5 msg d) as S1.
  destruct (cdns_mhdp_mailbox_send _ _ 5 msg d) as [r1 d1] eqn:E1.
  destruct (Z.eqb_spec r1 0) as [->|Hr1]; cbn [negb]; cbv beta iota.
  2: { unfold ret. split; [tauto|intros; contradiction]. }
  pose proof (validate_status MB_MODULE_ID_DP_TX DPTX_READ_DPCD
                (5 + u16 len) d1) as S2.
  destruct (cdns_mhdp_mailbox_validate_receive _ _ (5 + u16 len) d1)
    as [r2 d2] eqn:E2.
  destruct (Z.eqb_spec r2 0) as [->|Hr2]; cbn [negb]; cbv beta iota.
  2: { unfold ret. split; [tauto|intros; contradiction]. }
  pose proof (read_receive_status [0; 0; 0; 0; 0] 5 d2) as S3.
  destruct (cdns_mhdp_mailbox_read_receive [0; 0; 0; 0; 0] 5 d2)
    as [[r3 reg] d3] eqn:E3.
  destruct (Z.eqb_spec r3 0) as [->|Hr3]; cbn [negb]; cbv beta iota.
  2: { unfold ret. split; [tauto|intros; contradiction]. }
  change 5 with (Z.of_nat (length msg)) in E1.
  destruct (query_ok MB_MODULE_ID_DP_TX DPTX_READ_DPCD DPTX_READ_DPCD
              (5 + u16 len) msg [0; 0; 0; 0; 0] reg 5 d d1 d2 d3
              ltac:(reflexivity) ltac:(reflexivity) ltac:(reflexivity)
              E1 E2 E3) as (X & L & B).
  pose proof (read_receive_status data (u16 len) d3) as S4.
  destruct (cdns_mhdp_mailbox_read_receive data (u16 len) d3)
    as [[r4 data'] d4] eqn:E4.
  split; [tauto|]. intros ->.
  assert (Hlen : 0 <= u16 len < 2 ^ 16) by (apply Z.mod_pos_bound; lia).
  rewrite <- (Z2Nat.id (u16 len)) in E4 by lia.
  destruct (read_receive_ok data (Z.to_nat (u16 len)) d3 d4 data' Hdata
              ltac:(rewrite Z2Nat.id; lia) E4) as (X4 & L4 & _).
  exists reg. split; [assumption|]. split; [assumption|].
  pose proof (exchange_trans _ _ _ _ _ _ _ X X4) as X'.
  rewrite app_nil_r, <- app_assoc in X'. rewrite <- Hmsg. exact X'.
Qed.

(** X8.  [cdns_mhdp_get_hpd_status] returns [-ETIMEDOUT], [-EINVAL] or a status
    from 0 to 255, so the sign of the result tells failure from success.
    A non-negative result is the one byte that followed the validated
    response header, read after the request frame [DPTX_HPD_STATE, module,
    0, 0] was written in full. *)
Theorem get_hpd_status_outcome (d : cdns_mhdp_device) :
  let (r, d') := cdns_mhdp_get_hpd_status d in
  (r = - ETIMEDOUT \/ r = - EINVAL \/ 0 <= r < 256) /\
  (0 <= r ->
   exchange d d' [u8 DPTX_HPD_STATE; u8 MB_MODULE_ID_DP_TX; 0; 1; r]
     (mbox_frame DPTX_HPD_STATE MB_MODULE_ID_DP_TX [])).
Proof.
  unfold cdns_mhdp_get_hpd_status, bind.
  pose proof ETIMEDOUT_pos as Ht. pose proof EINVAL_pos as Hi.
  pose proof (send_status MB_MODULE_ID_DP_TX DPTX_HPD_STATE 0 [] d) as S1.
  destruct (cdns_mhdp_mailbox_send _ _ 0 [] d) as [r1 d1] eqn:E1.
  destruct (Z.eqb_spec r1 0) as [->|Hr1]; cbn [negb]; cbv beta iota.
  2: { unfold ret. split; [tauto|intros; lia]. }
  pose proof (validate_status MB_MODULE_ID_DP_TX DPTX_HPD_STATE 1 d1) as S2.
  destruct (cdns_mhdp_mailbox_validate_receive _ _ 1 d1) as [r2 d2] eqn:E2.
  destruct (Z.eqb_spec r2 0) as [->|Hr2]; cbn [negb]; cbv beta iota.
  2: { unfold ret. split; [tauto|intros; lia]. }
  pose proof (read_receive_status [0] 1 d2) as S3.
  destruct (cdns_mhdp_mailbox_read_receive [0] 1 d2) as [[r3 status] d3] eqn:E3.
  destruct (Z.eqb_spec r3 0) as [->|Hr3]; cbn [negb]; cbv beta iota.
  2: { unfold ret. split; [tauto|intros; lia]. }
  change 0 with (Z.of_nat (length (@nil Z))) in E1 at 1.
  destruct (query_ok MB_MODULE_ID_DP_TX DPTX_HPD_STATE DPTX_HPD_STATE 1 []
              [0] status 1 d d1 d2 d3
              ltac:(reflexivity) ltac:(reflexivity) ltac:(reflexivity)
              E1 E2 E3) as (X & L & B).
  destruct status as [|s [|]]; try discriminate L.
  inversion B as [|? ? Hs _]; subst. unfold ret. cbn [nth].
  split; [tauto|]. intros _. exact X.
Qed.

(** X9.  [cdns_mhdp_read_hpd], the same query through the general module:
    [-ETIMEDOUT], [-EINVAL] or a status from 0 to 255, a non-negative
    result being the byte that followed the validated response header. *)
Theorem read_hpd_outcome (d : cdns_mhdp_device) :
  let (r, d') := cdns_mhdp_read_hpd d in
  (r = - ETIMEDOUT \/ r = - EINVAL \/ 0 <= r < 256) /\
  (0 <= r ->
   exchange d d' [u8 GENERAL_GET_HPD_STATE; u8 MB_MODULE_ID_GENERAL; 0; 1; r]
     (mbox_frame GENERAL_GET_HPD_STATE MB_MODULE_ID_GENERAL [])).
Proof.
  unfold cdns_mhdp_read_hpd, bind.
  pose proof ETIMEDOUT_pos as Ht. pose proof EINVAL_pos as Hi.
  pose proof (send_status MB_MODULE_ID_GENERAL GENERAL_GET_HPD_STATE 0 [] d) as S1.
  destruct (cdns_mhdp_mailbox_send _ _ 0 [] d) as [r1 d1] eqn:E1.
  destruct (Z.eqb_spec r1 0) as [->|Hr1]; cbn [negb]; cbv beta iota.
  2: { unfold ret. split; [tauto|intros; lia]. }
  pose proof (validate_status MB_MODULE_ID_GENERAL GENERAL_GET_HPD_STATE 1 d1) as S2.
  destruct (cdns_mhdp_mailbox_validate_receive _ _ 1 d1) as [r2 d2] eqn:E2.
  destruct (Z.eqb_spec r2 0) as [->|Hr2]; cbn [negb]; cbv beta iota.
  2: { unfold ret. split; [tauto|intros; lia]. }
  pose proof (read_receive_status [0] 1 d2) as S3.
  destruct (cdns_mhdp_mailbox_read_receive [0] 1 d2) as [[r3 status] d3] eqn:E3.
  destruct (Z.eqb_spec r3 0) as [->|Hr3]; cbn [negb]; cbv beta iota.
  2: { unfold ret. split; [tauto|intros; lia]. }
  change 0 with (Z.of_nat (length (@nil Z))) in E1 at 1.
  destruct (query_ok MB_MODULE_ID_GENERAL GENERAL_GET_HPD_STATE
              GENERAL_GET_HPD_STATE 1 [] [0] status 1 d d1 d2 d3
              ltac:(reflexivity) ltac:(reflexivity) ltac:(reflexivity)
              E1 E2 E3) as (X & L & B).
  destruct status as [|s [|]]; try discriminate L.
  inversion B as [|? ? Hs _]; subst. unfold ret. cbn [nth].
  split; [tauto|]. intros _. exact X.
Qed.


Lemma send_sends_only (module_id opcode : Z) (message : list Z)
      (d : cdns_mhdp_device) :
  Z.of_nat (length message) < 2 ^ 16 ->
  sends_only (cdns_mhdp_mailbox_send module_id opcode
                (Z.of_nat (length message)) message)
             (mbox_frame opcode module_id message) d.
Proof.
  intros Hm. unfold sends_only.
  pose proof (send_outcome module_id opcode message d Hm) as O.
  pose proof (send_late module_id opcode (Z.of_nat (length message))
                message d) as L.
  destruct (cdns_mhdp_mailbox_send _ _ _ message d) as [r d'].
  pose proof ETIMEDOUT_pos as Ht.
  destruct O as [[-> X]|(-> & k & Hk & X)];
    destruct (exchange_mbox _ _ _ _ X) as [Rd Wr];
    rewrite app_nil_r in Rd; (split; [assumption|]).
  - left. auto.
  - right. split; [reflexivity|]. split; [eauto|]. apply L. lia.
Qed.

Lemma phy_address (addr : Z) :
  u32 (ADDR_PHY_AFE + u32 (Z.shiftl (u32 addr) 2)) = u32 (ADDR_PHY_AFE + 4 * addr).
Proof.
  unfold u32. rewrite Z.shiftl_mul_pow2 by lia. change (2 ^ 2) with 4.
  rewrite Z.add_mod_idemp_r by lia.
  rewrite <- (Z.add_mod_idemp_r ADDR_PHY_AFE (addr mod 2 ^ 32 * 4)) by lia.
  rewrite Z.mul_mod_idemp_l by lia.
  rewrite Z.add_mod_idemp_r by lia. f_equal. lia.
Qed.

(** X10.  The commands that only send ([cdns_mhdp_reg_write],
    [cdns_mhdp_reg_write_bit], [cdns_mhdp_event_config],
    [cdns_mhdp_set_video_status], [cdns_phy_reg_write]) read nothing from
    the mailbox and wait for no answer.  Each returns 0 with its frame
    written in full, or [-ETIMEDOUT] with a proper prefix of the frame
    written and more than a mailbox timeout gone.  The frames: register
    writes carry address and value as two big-endian words; the field write
    carries the 16-bit address, start bit, bit count and 32-bit value; the
    video command carries 1 for every non-zero [active], not its low byte;
    PHY register [addr] is register [ADDR_PHY_AFE + 4 * addr] modulo
    2^32. *)
Theorem write_commands_send_only (addr val start_bit bits_no active : Z)
        (d : cdns_mhdp_device) :
  sends_only (cdns_mhdp_reg_write addr val)
    (mbox_frame GENERAL_WRITE_REGISTER MB_MODULE_ID_GENERAL
       (put_unaligned_be32 addr ++ put_unaligned_be32 val)) d /\
  sends_only (cdns_mhdp_reg_write_bit addr start_bit bits_no val)
    (mbox_frame DPTX_WRITE_FIELD MB_MODULE_ID_DP_TX
       (put_unaligned_be16 addr ++ [u8 start_bit; u8 bits_no]
        ++ put_unaligned_be32 val)) d /\
  sends_only cdns_mhdp_event_config
    (mbox_frame DPTX_ENABLE_EVENT MB_MODULE_ID_DP_TX
       [Z.lor MHDP_EVENT_ENABLE_HPD MHDP_EVENT_ENABLE_TRAINING; 0; 0; 0; 0]) d /\
  sends_only (cdns_mhdp_set_video_status active)
    (mbox_frame DPTX_SET_VIDEO MB_MODULE_ID_DP_TX
       [if active =? 0 then 0 else 1]) d /\
  sends_only (cdns_phy_reg_write addr val)
    (mbox_frame GENERAL_WRITE_REGISTER MB_MODULE_ID_GENERAL
       (put_unaligned_be32 (ADDR_PHY_AFE + 4 * addr)
        ++ put_unaligned_be32 val)) d.
Proof.
  split; [|split; [|split; [|split]]].
  - exact (send_sends_only MB_MODULE_ID_GENERAL GENERAL_WRITE_REGISTER
             (put_unaligned_be32 addr ++ put_unaligned_be32 val) d
             ltac:(reflexivity)).
  - exact (send_sends_only MB_MODULE_ID_DP_TX DPTX_WRITE_FIELD
             (put_unaligned_be16 addr ++ [u8 start_bit; u8 bits_no]
              ++ put_unaligned_be32 val) d ltac:(reflexivity)).
  - pose proof (send_sends_only MB_MODULE_ID_DP_TX DPTX_ENABLE_EVENT
             [u8 (Z.lor MHDP_EVENT_ENABLE_HPD MHDP_EVENT_ENABLE_TRAINING);
              0; 0; 0; 0] d ltac:(reflexivity)) as S.
    unfold mbox_frame in *. cbn [map length] in *.
    rewrite u8_idem in S. exact S.
  - exact (send_sends_only MB_MODULE_ID_DP_TX DPTX_SET_VIDEO
             [if active =? 0 then 0 else 1] d ltac:(reflexivity)).
  - unfold cdns_phy_reg_write, cdns_mhdp_reg_write.
    rewrite phy_address, put_unaligned_be32_u32.
    exact (send_sends_only MB_MODULE_ID_GENERAL GENERAL_WRITE_REGISTER
             (put_unaligned_be32 (ADDR_PHY_AFE + 4 * addr)
              ++ put_unaligned_be32 val) d ltac:(reflexivity)).
Qed.

End CommandOutcomes.

(** * Firmware load and keep-alive check *)

Section FirmwareFacts.

Context {H : Header} {C : CommandHeader} {P : Platform}.

Lemma lor_shiftl_disjoint (a b k : Z) :
  0 <= k -> 0 <= a < 2 ^ k -> 0 <= b ->
  Z.lor a (Z.shiftl b k) = a + b * 2 ^ k.
Proof.
  intros Hk Ha Hb.
  assert (L : Z.land a (Z.shiftl b k) = 0).
  { apply Z.bits_inj'. intros n Hn.
    rewrite Z.land_spec, Z.bits_0.
    destruct (Z_lt_ge_dec n k) as [Hlt|Hge].
    - rewrite Z.shiftl_spec_low by lia. apply andb_false_r.
    - destruct (Z.eq_dec a 0) as [->|Ha0].
      + now rewrite Z.bits_0.
      + rewrite (Z.bits_above_log2 a n); [reflexivity|lia|].
        apply Z.lt_le_trans with k; [|lia].
        apply Z.log2_lt_pow2; lia. }
  rewrite <- (Z.lxor_lor _ _ L), <- (Z.add_nocarry_lxor _ _ L).
  now rewrite Z.shiftl_mul_pow2 by lia.
Qed.

Lemma land_ff_mod (x : Z) : Z.land x 0xff = x mod 256.
Proof. change 0xff with (Z.ones 8). now rewrite Z.land_ones by lia. Qed.

(** The version word assembled in lines 455-462. *)
Lemma fw_version_bytes (v0 v1 v2 v3 : Z) :
  Z.lor (Z.lor (Z.lor (Z.land v0 0xff) (Z.shiftl (Z.land v1 0xff) 8))
               (Z.shiftl (Z.land v2 0xff) 16))
        (Z.shiftl (Z.land v3 0xff) 24)
  = v0 mod 256 + 256 * (v1 mod 256) + 65536 * (v2 mod 256)
    + 16777216 * (v3 mod 256).
Proof.
  rewrite !land_ff_mod.
  pose proof (Z.mod_pos_bound v0 256 ltac:(lia)).
  pose proof (Z.mod_pos_bound v1 256 ltac:(lia)).
  pose proof (Z.mod_pos_bound v2 256 ltac:(lia)).
  pose proof (Z.mod_pos_bound v3 256 ltac:(lia)).
  rewrite (lor_shiftl_disjoint (v0 mod 256) (v1 mod 256) 8) by lia.
  rewrite (lor_shiftl_disjoint _ (v2 mod 256) 16)
    by (change (2 ^ 8) with 256; change (2 ^ 16) with 65536; lia).
  rewrite (lor_shiftl_disjoint _ (v3 mod 256) 24)
    by (change (2 ^ 8) with 256; change (2 ^ 16) with 65536;
        change (2 ^ 24) with 16777216; lia).
  change (2 ^ 8) with 256. change (2 ^ 16) with 65536.
  change (2 ^ 24) with 16777216. lia.
Qed.

Lemma load_loop_run (n : nat) :
  forall (base i : Z) (mem : list Z) (d : cdns_mhdp_device),
    let (_, d') := load_loop n base i mem d in
    run d d' (image_writes n (base + i) mem).
Proof.
  induction n as [|n IH]; intros base i mem d; simpl.
  - apply run_refl.
  - unfold bind.
    pose proof (bus_write_run (hd 0 mem) (base + i) d) as R1.
    destruct (cdns_mhdp_bus_write (hd 0 mem) (base + i) d) as [[] d1].
    specialize (IH base (i + 4) (tl mem) d1).
    destruct (load_loop n base (i + 4) (tl mem) d1) as [[] d2].
    rewrite Z.add_assoc in IH.
    exact (run_trans _ _ _ _ _ R1 IH).
Qed.

(** X11.  [cdns_mhdp_load_firmware], for image sizes of at most [2^31 - 4] bytes,
    holds the CPU in reset while it writes the two images, [(size + 3) / 4]
    words each, word after word at ascending addresses, releases the reset,
    and then polls [KEEP_ALIVE].  It returns [-EINVAL], never
    [-ETIMEDOUT], when the register still reads 0 after more than
    [FW_ALIVE_TIMEOUT_US] microseconds, the version registers then not
    being read and [fw_version] not written.  Otherwise it returns 0 after
    reading the four version registers once each, and [fw_version] is made
    of their low bytes, [VER_L] lowest. *)
Theorem load_firmware_outcome (i_mem : list Z) (i_size : Z)
        (d_mem : list Z) (d_size : Z) (d : cdns_mhdp_device) :
  u32 i_size <= 2 ^ 31 - 4 -> u32 d_size <= 2 ^ 31 - 4 ->
  let '((r, fw), d') := cdns_mhdp_load_firmware i_mem i_size d_mem d_size d in
  exists polls alive tail,
    trace d' =
      trace d
      ++ [BusWrite (u32 (Z.lor (Z.lor APB_IRAM_PATH APB_DRAM_PATH) APB_XT_RESET))
                   (u32 APB_CTRL)]
      ++ image_writes (load_turns i_size) ADDR_IMEM i_mem
      ++ image_writes (load_turns d_size) ADDR_DMEM d_mem
      ++ [BusWrite 0 (u32 APB_CTRL)]
      ++ map (BusRead (u32 KEEP_ALIVE)) (polls ++ [alive])
      ++ tail /\
    ((r = - EINVAL /\ fw = None /\ alive = 0 /\ tail = [] /\
      ktime d + FW_ALIVE_TIMEOUT_US < ktime d') \/
     (r = 0 /\ alive <> 0 /\
      exists v0 v1 v2 v3,
        tail = [BusRead (u32 VER_L) v0; BusRead (u32 VER_H) v1;
                BusRead (u32 VER_LIB_L_ADDR) v2;
                BusRead (u32 VER_LIB_H_ADDR) v3] /\
        fw = Some (v0 mod 256 + 256 * (v1 mod 256) + 65536 * (v2 mod 256)
                   + 16777216 * (v3 mod 256)))).
Proof.
  intros _ _. unfold cdns_mhdp_load_firmware, bind.
  set (reset := Z.lor (Z.lor APB_IRAM_PATH APB_DRAM_PATH) APB_XT_RESET).
  pose proof (bus_write_run reset APB_CTRL d) as R0.
  destruct (cdns_mhdp_bus_write reset APB_CTRL d) as [[] d0].
  pose proof (load_loop_run (load_turns i_size) ADDR_IMEM 0 i_mem d0) as R1.
  destruct (load_loop (load_turns i_size) ADDR_IMEM 0 i_mem d0) as [[] d1].
  pose proof (load_loop_run (load_turns d_size) ADDR_DMEM 0 d_mem d1) as R2.
  destruct (load_loop (load_turns d_size) ADDR_DMEM 0 d_mem d1) as [[] d2].
  rewrite Z.add_0_r in R1, R2.
  pose proof (bus_write_run 0 APB_CTRL d2) as R3.
  destruct (cdns_mhdp_bus_write 0 APB_CTRL d2) as [[] d3].
  change (u32 0) with 0 in R3.
  pose proof (poll_timeout_run KEEP_ALIVE (fun reg => negb (reg =? 0))
                2000 FW_ALIVE_TIMEOUT_US d3 ltac:(lia)) as R4.
  pose proof (poll_timeout_late KEEP_ALIVE (fun reg => negb (reg =? 0))
                2000 FW_ALIVE_TIMEOUT_US d3
                ltac:(reflexivity) ltac:(reflexivity)) as L4.
  destruct (mhdp_readx_poll_timeout KEEP_ALIVE _ 2000 FW_ALIVE_TIMEOUT_US d3)
    as [[r4 alive] d4].
  destruct R4 as (polls & R4 & Ha & Hr4).
  pose proof (run_trans _ _ _ _ _ R0
                (run_trans _ _ _ _ _ R1
                   (run_trans _ _ _ _ _ R2
                      (run_trans _ _ _ _ _ R3 R4)))) as R.
  pose proof ETIMEDOUT_pos as Ht.
  destruct (Z.eqb_spec alive 0) as [Hz|Hnz]; cbn [negb] in Hr4; subst r4.
  - ret_negative. unfold ret. exists polls, alive, [].
    rewrite !app_nil_r. split; [apply R|].
    left. split; [reflexivity|]. split; [reflexivity|].
    split; [assumption|]. split; [reflexivity|].
    destruct R0 as (_ & K0 & _). destruct R1 as (_ & K1 & _).
    destruct R2 as (_ & K2 & _). destruct R3 as (_ & K3 & _).
    specialize (L4 ltac:(lia)). lia.
  - change (0 <? 0) with false. cbv beta iota.
    pose proof (bus_read_run VER_L d4) as V0.
    destruct (cdns_mhdp_bus_read VER_L d4) as [v0 d5]. destruct V0 as [V0 _].
    pose proof (bus_read_run VER_H d5) as V1.
    destruct (cdns_mhdp_bus_read VER_H d5) as [v1 d6]. destruct V1 as [V1 _].
    pose proof (bus_read_run VER_LIB_L_ADDR d6) as V2.
    destruct (cdns_mhdp_bus_read VER_LIB_L_ADDR d6) as [v2 d7].
    destruct V2 as [V2 _].
    pose proof (bus_read_run VER_LIB_H_ADDR d7) as V3.
    destruct (cdns_mhdp_bus_read VER_LIB_H_ADDR d7) as [v3 d8].
    destruct V3 as [V3 _].
    unfold ret. exists polls, alive. eexists. split.
    + pose proof (run_trans _ _ _ _ _ R
                    (run_trans _ _ _ _ _ V0
                       (run_trans _ _ _ _ _ V1
                          (run_trans _ _ _ _ _ V2 V3)))) as R'.
      destruct R' as (_ & _ & _ & T). rewrite T.
      rewrite <- !app_assoc. reflexivity.
    + right. split; [reflexivity|]. split; [assumption|].
      exists v0, v1, v2, v3. split; [reflexivity|].
      now rewrite fw_version_bytes.
Qed.

Lemma udelay_run (usecs : Z) (d : cdns_mhdp_device) :
  0 <= usecs ->
  let (_, d') := udelay usecs d in
  run d d' [] /\ ktime d + usecs <= ktime d'.
Proof.
  intros Hu. unfold udelay.
  pose proof (sleep_for_run usecs 0 d Hu (Z.le_refl 0)) as S.
  destruct (sleep_for usecs 0 d) as [[] d']. tauto.
Qed.

Lemma check_alive_loop_spec (alive : Z) :
  forall (n : nat) (d : cdns_mhdp_device),
    let (b, d') := check_alive_loop n alive d in
    exists same fresh_,
      run d d' (map (BusRead (u32 KEEP_ALIVE)) (same ++ fresh_)) /\
      Forall (fun v => v = alive) same /\
      ktime d + 2 * Z.of_nat (length (same ++ fresh_)) <= ktime d' /\
      ((b = false /\ fresh_ = [] /\ length same = n) \/
       (b = true /\ (length same < n)%nat /\
        exists v, fresh_ = [v] /\ v <> alive)).
Proof.
  induction n as [|n IH]; intros d; cbn [check_alive_loop].
  - unfold ret. exists [], []. split; [apply run_refl|].
    split; [constructor|]. split; [simpl; lia|]. left. auto.
  - unfold bind.
    pose proof (udelay_run 2 d ltac:(lia)) as U.
    destruct (udelay 2 d) as [[] d0]. destruct U as [U K0].
    pose proof (bus_read_run KEEP_ALIVE d0) as R.
    destruct (cdns_mhdp_bus_read KEEP_ALIVE d0) as [v d1].
    destruct R as [R _].
    pose proof (run_trans _ _ _ _ _ U R) as R01. simpl in R01.
    assert (K1 : ktime d + 2 <= ktime d1).
    { destruct R as (_ & K & _). lia. }
    destruct (Z.eqb_spec alive v) as [<-|Hne].
    + specialize (IH d1).
      destruct (check_alive_loop n alive d1) as [b d'].
      destruct IH as (same & fresh_ & R2 & Hs & K2 & Hcase).
      exists (alive :: same), fresh_.
      split; [exact (run_trans _ _ _ _ _ R01 R2)|].
      split; [constructor; auto|].
      split.
      { change (length ((alive :: same) ++ fresh_))
          with (S (length (same ++ fresh_))).
        rewrite Nat2Z.inj_succ. lia. }
      destruct Hcase as [(-> & -> & <-)|(-> & L & Hv)]; [left|right].
      * auto.
      * split; [reflexivity|]. split; [|assumption].
        change (length (alive :: same)) with (S (length same)). lia.
    + unfold ret. exists [], [v].
      split; [exact R01|]. split; [constructor|].
      split; [simpl; lia|].
      right. split; [reflexivity|]. split; [simpl; lia|].
      exists v. split; [reflexivity|]. congruence.
Qed.

(** X12.  [cdns_mhdp_check_alive] reads [KEEP_ALIVE] once and then up to 50 more
    times, waiting two microseconds before each re-read; it touches no
    other register and writes nothing.  It stops with [true] at the first
    re-read that differs from the first value, and returns [false] exactly
    when all 50 re-reads equal it. *)
Theorem check_alive_outcome (d : cdns_mhdp_device) :
  let (b, d') := cdns_mhdp_check_alive d in
  exists alive same fresh_,
    trace d' =
      trace d ++ map (BusRead (u32 KEEP_ALIVE)) (alive :: same ++ fresh_) /\
    Forall (fun v => v = alive) same /\
    ktime d + 2 * Z.of_nat (length (same ++ fresh_)) <= ktime d' /\
    ((b = false /\ fresh_ = [] /\ length same = 50%nat) \/
     (b = true /\ (length same < 50)%nat /\
      exists v, fresh_ = [v] /\ v <> alive)).
Proof.
  unfold cdns_mhdp_check_alive, bind.
  pose proof (bus_read_run KEEP_ALIVE d) as R.
  destruct (cdns_mhdp_bus_read KEEP_ALIVE d) as [alive d0].
  destruct R as [R _].
  pose proof (check_alive_loop_spec alive 50 d0) as L.
  destruct (check_alive_loop 50 alive d0) as [b d'].
  destruct L as (same & fresh_ & R2 & Hs & K & Hcase).
  exists alive, same, fresh_.
  split.
  { destruct (run_trans _ _ _ _ _ R R2) as (_ & _ & _ & T). exact T. }
  split; [assumption|].
  split; [destruct R as (_ & K0 & _); lia|assumption].
Qed.

End FirmwareFacts.

(** * Bounds on link training, the transfer-unit search, the
      link-training adjustment request and the EDID fetch *)

Section BoundsFacts.

Context {H : Header} {P : Platform}.

Lemma training_timeout_rounds :
  msecs_to_jiffies LINK_TRAINING_TIMEOUT_MS
  <= 25 * msecs_to_jiffies LINK_TRAINING_RETRY_MS.
Proof.
  unfold msecs_to_jiffies, LINK_TRAINING_TIMEOUT_MS, LINK_TRAINING_RETRY_MS.
  pose proof HZ_pos as Hz.
  pose proof (Z.div_mod (20 * HZ + 999) 1000 ltac:(lia)) as E.
  pose proof (Z.mod_pos_bound (20 * HZ + 999) 1000 ltac:(lia)) as B.
  apply Z.lt_succ_r. apply Z.div_lt_upper_bound; lia.
Qed.

(** Every turn of the polling loop starts before the deadline and sleeps
    at least [msecs_to_jiffies 20] jiffies. *)
Lemma training_poll_rounds (timeout : Z) :
  forall (fuel : nat) (event : list Z) (d : cdns_mhdp_device),
    let '((_, rounds), _) := training_poll fuel timeout event d in
    rounds = [] \/
    (Z.of_nat (length rounds) - 1) * msecs_to_jiffies LINK_TRAINING_RETRY_MS
    < timeout - jiffies d.
Proof.
  pose proof (msecs_to_jiffies_pos LINK_TRAINING_RETRY_MS
                ltac:(unfold LINK_TRAINING_RETRY_MS; lia)) as Ht.
  set (t := msecs_to_jiffies LINK_TRAINING_RETRY_MS) in *.
  induction fuel as [|fuel IH]; intros event d; cbn [training_poll].
  - destruct (jiffies d <? timeout); auto.
  - destruct (Z.ltb_spec (jiffies d) timeout) as [Hlt|Hge]; [|auto].
    unfold bind, msleep.
    pose proof (sleep_for_run (LINK_TRAINING_RETRY_MS * 1000) t d
                  ltac:(unfold LINK_TRAINING_RETRY_MS; lia) ltac:(lia)) as S.
    fold t.
    destruct (sleep_for (LINK_TRAINING_RETRY_MS * 1000) t d) as [[] d0].
    destruct S as (_ & _ & J0).
    pose proof (send_exchange MB_MODULE_ID_DP_TX DPTX_READ_EVENT 0 [] d0) as S1.
    destruct (cdns_mhdp_mailbox_send MB_MODULE_ID_DP_TX DPTX_READ_EVENT 0 [] d0)
      as [r1 d1].
    destruct S1 as (w1 & X1).
    destruct (negb (r1 =? 0)); [unfold ret; right; simpl; lia|].
    pose proof (validate_exchange MB_MODULE_ID_DP_TX DPTX_READ_EVENT 2 d1) as S2.
    destruct (cdns_mhdp_mailbox_validate_receive MB_MODULE_ID_DP_TX
                DPTX_READ_EVENT 2 d1) as [r2 d2].
    destruct S2 as (rd2 & X2).
    destruct (negb (r2 =? 0)); [unfold ret; right; simpl; lia|].
    pose proof (read_receive_exchange event 2 d2) as S3.
    destruct (cdns_mhdp_mailbox_read_receive event 2 d2) as [[r3 event'] d3].
    destruct S3 as (rd3 & X3).
    destruct (negb (r3 =? 0)); [unfold ret; right; simpl; lia|].
    destruct (negb (Z.land (nth 1 event' 0) EQ_PHASE_FINISHED =? 0));
      [unfold ret; right; simpl; lia|].
    unfold log_round, bind.
    specialize (IH event' d3).
    destruct (training_poll fuel timeout event' d3) as [[r rounds] d'].
    unfold ret. right.
    change (length (RoundEvent (nth 1 event' 0) :: rounds))
      with (S (length rounds)).
    rewrite Nat2Z.inj_succ.
    destruct (exchange_link _ _ _ _ X1) as (_ & _ & ?).
    destruct (exchange_link _ _ _ _ X2) as (_ & _ & ?).
    destruct (exchange_link _ _ _ _ X3) as (_ & _ & ?).
    destruct IH as [->|IH]; [simpl; lia|nia].
Qed.

(** X13.  [cdns_mhdp_training_start] polls for the training event at most 25
    times, whatever the tick rate [HZ]: a round starts only before the
    500 ms deadline and sleeps at least 20 ms, both rounded up to
    jiffies. *)
Theorem training_rounds_bounded (d : cdns_mhdp_device) :
  let '((_, rounds), _) := training_start_rounds d in
  (length (match rounds with Some rs => rs | None => [] end) <= 25)%nat.
Proof.
  unfold training_start_rounds, bind.
  destruct (cdns_mhdp_mailbox_send MB_MODULE_ID_DP_TX DPTX_TRAINING_CONTROL 1
              [u8 LINK_TRAINING_RUN] d) as [r1 d1].
  destruct (negb (r1 =? 0)); [unfold ret; simpl; lia|].
  pose proof (training_poll_rounds
                (jiffies d1 + msecs_to_jiffies LINK_TRAINING_TIMEOUT_MS)
                (Z.to_nat (msecs_to_jiffies LINK_TRAINING_TIMEOUT_MS))
                [0; 0] d1) as B.
  destruct (training_poll _ _ [0; 0] d1) as [[r rounds] d'].
  pose proof training_timeout_rounds as T.
  pose proof (msecs_to_jiffies_pos LINK_TRAINING_RETRY_MS
                ltac:(unfold LINK_TRAINING_RETRY_MS; lia)) as Ht.
  destruct B as [->|B]; [simpl; lia|]. nia.
Qed.

(** What the transfer-unit loop accepts, on any inputs. *)
Lemma tu_loop_found (clock bit_per_pix num_lanes link_rate : Z) :
  forall (fuel : nat) (tu t s r : Z),
    tu_loop fuel clock bit_per_pix num_lanes link_rate tu
      = Some (TuFound t s r) ->
    0 <= t <= 64 /\ 2 <= s /\ 100 <= r <= 850 /\ 4 <= u64 (t - s) /\
    u32 (u32 (num_lanes * link_rate) * 8) <> 0 /\ bit_per_pix <> 0.
Proof.
  induction fuel as [|fuel IH]; intros tu t s r E; [discriminate E|].
  cbn [tu_loop] in E. cbv zeta in E.
  destruct (Z.eqb_spec (u32 (u32 (num_lanes * link_rate) * 8)) 0) as [|Hb];
    [discriminate E|].
  destruct (Z.gtb_spec (u8 (tu + 2)) 64) as [|Hle]; [discriminate E|].
  match type of E with (if ?c then _ else _) = _ => destruct c eqn:Hc end.
  - exact (IH _ _ _ _ E).
  - injection E as <- <- <-.
    rewrite !orb_false_iff in Hc. destruct Hc as (((Hs & Hm) & Hhi) & Hlo).
    rewrite Z.leb_gt in Hs. rewrite Z.ltb_ge in Hm, Hlo.
    rewrite Z.gtb_ltb, Z.ltb_ge in Hhi.
    pose proof (u8_range (tu + 2)).
    split; [lia|]. split; [lia|]. split; [lia|]. split; [lia|].
    split; [assumption|].
    intros ->. rewrite Z.mul_0_r in Hs. change (u64 0) with 0 in Hs.
    rewrite !Zdiv_0_l in Hs. lia.
Qed.

(** The loop reports a division by zero only when the divisor is zero. *)
Lemma tu_loop_divide_by_zero (clock bit_per_pix num_lanes link_rate : Z) :
  forall (fuel : nat) (tu : Z),
    tu_loop fuel clock bit_per_pix num_lanes link_rate tu
      = Some TuDivideByZero ->
    u32 (u32 (num_lanes * link_rate) * 8) = 0.
Proof.
  induction fuel as [|fuel IH]; intros tu E; [discriminate E|].
  cbn [tu_loop] in E. cbv zeta in E.
  destruct (Z.eqb_spec (u32 (u32 (num_lanes * link_rate) * 8)) 0) as [|Hb];
    [assumption|].
  destruct (u8 (tu + 2) >? 64); [discriminate E|].
  match type of E with (if ?c then _ else _) = _ => destruct c end.
  - exact (IH _ E).
  - discriminate E.
Qed.

Lemma tu_loop_error (clock bit_per_pix num_lanes link_rate : Z) :
  forall (fuel : nat) (tu e : Z),
    tu_loop fuel clock bit_per_pix num_lanes link_rate tu
      = Some (TuError e) ->
    e = - EINVAL.
Proof.
  induction fuel as [|fuel IH]; intros tu e E; [discriminate E|].
  cbn [tu_loop] in E. cbv zeta in E.
  destruct (u32 (u32 (num_lanes * link_rate) * 8) =? 0); [discriminate E|].
  destruct (u8 (tu + 2) >? 64); [now injection E|].
  match type of E with (if ?c then _ else _) = _ => destruct c end.
  - exact (IH _ _ E).
  - discriminate E.
Qed.

(** X14.  Whatever the pixel clock, colour depth, lane count and link rate, a
    solution the transfer-unit search returns has a size of at most 64, at
    least two valid symbols, a remainder from 100 to 850 thousandths and a
    margin [size - symbols] of at least 4 as the code computes it, in
    unsigned 64-bit arithmetic; the divisor [lanes * rate * 8] was not zero
    in 32 bits and the bits per pixel were not zero in 8 bits. *)
Theorem tu_search_found_bounds (clock bit_per_pix num_lanes link_rate : Z)
        (t s r : Z) :
  tu_search clock bit_per_pix num_lanes link_rate = Some (TuFound t s r) ->
  0 <= t <= 64 /\ 2 <= s /\ 100 <= r <= 850 /\ 4 <= u64 (t - s) /\
  u32 (u32 (u32 num_lanes * u32 link_rate) * 8) <> 0 /\ u8 bit_per_pix <> 0.
Proof.
  unfold tu_search. apply tu_loop_found.
Qed.

Lemma adjust_lt_payload_bytes (payload0 : list Z) (nlanes udelay : Z)
      (lanes_data : list Z) :
  length payload0 = 7%nat ->
  nlanes = 4 \/ nlanes = 2 \/ nlanes = 1 ->
  (Z.to_nat nlanes <= length lanes_data)%nat ->
  adjust_lt_payload payload0 nlanes udelay lanes_data =
  [nlanes] ++ put_unaligned_be16 udelay
  ++ firstn (Z.to_nat nlanes) lanes_data
  ++ skipn (3 + Z.to_nat nlanes) payload0.
Proof.
  intros L Hn Hl.
  destruct payload0 as [|p0 [|p1 [|p2 [|p3 [|p4 [|p5 [|p6 [|]]]]]]]];
    try discriminate L.
  unfold adjust_lt_payload, put_unaligned_be16.
  destruct Hn as [->|[->| ->]].
  - destruct lanes_data as [|l0 [|l1 [|l2 [|l3 ?]]]];
      try (simpl in Hl; lia). reflexivity.
  - destruct lanes_data as [|l0 [|l1 ?]]; try (simpl in Hl; lia). reflexivity.
  - destruct lanes_data as [|l0 ?]; try (simpl in Hl; lia). reflexivity.
Qed.

(** X15.  The request of [cdns_mhdp_adjust_lt] (lines 958-973).  A lane count
    other than 1, 2 or 4 returns [-EINVAL] with the handle and the buffer
    untouched.  Otherwise the call writes a prefix of one frame of seven
    payload bytes, the whole frame when it returns 0: lane count, delay (2
    bytes, big-endian), the lane settings, and behind them, for fewer than
    four lanes, the bytes the local array [payload] happened to hold at
    positions [3 + nlanes] to 6, which the function never sets. *)
Theorem adjust_lt_request (payload0 : list Z) (nlanes udelay : Z)
        (lanes_data dpcd : list Z) (d : cdns_mhdp_device) :
  length payload0 = 7%nat ->
  (Z.to_nat (u8 nlanes) <= length lanes_data)%nat ->
  let '((r, dpcd'), d') :=
    cdns_mhdp_adjust_lt payload0 nlanes udelay lanes_data dpcd d in
  if (u8 nlanes =? 4) || (u8 nlanes =? 2) || (u8 nlanes =? 1)
  then exists k,
      mbox_wr d' = mbox_wr d ++
        firstn k (mbox_frame DPTX_ADJUST_LT MB_MODULE_ID_DP_TX
                    ([u8 nlanes] ++ put_unaligned_be16 udelay
                     ++ firstn (Z.to_nat (u8 nlanes)) lanes_data
                     ++ skipn (3 + Z.to_nat (u8 nlanes)) payload0)) /\
      (r = 0 -> k = 11%nat)
  else r = - EINVAL /\ dpcd' = dpcd /\ d' = d.
Proof.
  intros L Hl. unfold cdns_mhdp_adjust_lt, bind. cbv zeta.
  rewrite <- !negb_orb.
  destruct ((u8 nlanes =? 4) || (u8 nlanes =? 2) || (u8 nlanes =? 1)) eqn:Hn;
    cbn [negb]; [|unfold ret; auto].
  assert (Hn' : u8 nlanes = 4 \/ u8 nlanes = 2 \/ u8 nlanes = 1).
  { rewrite !orb_true_iff, !Z.eqb_eq in Hn. tauto. }
  rewrite (adjust_lt_payload_bytes payload0 (u8 nlanes) udelay lanes_data
             L Hn' Hl).
  set (payload := [u8 nlanes] ++ put_unaligned_be16 udelay
                  ++ firstn (Z.to_nat (u8 nlanes)) lanes_data
                  ++ skipn (3 + Z.to_nat (u8 nlanes)) payload0).
  assert (Lp : length payload = 7%nat).
  { unfold payload. rewrite !length_app, length_firstn, length_skipn, L.
    unfold put_unaligned_be16.
    change (length [u8 nlanes]) with 1%nat.
    change (length [u8 (Z.shiftr (u16 udelay) 8); u8 (u16 udelay)]) with 2%nat.
    assert (Hc : Z.to_nat (u8 nlanes) = 4%nat \/ Z.to_nat (u8 nlanes) = 2%nat
                 \/ Z.to_nat (u8 nlanes) = 1%nat).
    { destruct Hn' as [E|[E|E]]; rewrite E; auto. }
    lia. }
  assert (E7 : 7 = Z.of_nat (length payload)) by (rewrite Lp; reflexivity).
  rewrite E7.
  pose proof (send_outcome MB_MODULE_ID_DP_TX DPTX_ADJUST_LT payload d
                ltac:(rewrite Lp; reflexivity)) as S1.
  destruct (cdns_mhdp_mailbox_send _ _ _ payload d) as [r1 d1].
  pose proof ETIMEDOUT_pos as Ht.
  destruct S1 as [[-> X1]|(-> & k & Hk & X1)].
  2: { ret_timeout. unfold ret. exists k.
       destruct (exchange_mbox _ _ _ _ X1) as [_ W]. split; [exact W|lia]. }
  ret_zero.
  assert (Hfull : forall d' rd, exchange d1 d' rd [] ->
            exists k,
              mbox_wr d' = mbox_wr d ++
                firstn k (mbox_frame DPTX_ADJUST_LT MB_MODULE_ID_DP_TX payload)
              /\ k = 11%nat).
  { intros d' rd X. exists 11%nat. split; [|reflexivity].
    destruct (exchange_mbox _ _ _ _ (exchange_trans _ _ _ _ _ _ _ X1 X))
      as [_ W].
    rewrite app_nil_r in W. rewrite W. f_equal. symmetry.
    apply firstn_all2. unfold mbox_frame.
    rewrite length_app, length_map, Lp. simpl. lia. }
  assert (Hweak : forall (r : Z) d' rd, exchange d1 d' rd [] ->
            exists k,
              mbox_wr d' = mbox_wr d ++
                firstn k (mbox_frame DPTX_ADJUST_LT MB_MODULE_ID_DP_TX payload)
              /\ (r = 0 -> k = 11%nat)).
  { intros r d' rd X. destruct (Hfull d' rd X) as (k & W & ->). eauto. }
  pose proof (validate_exchange MB_MODULE_ID_DP_TX DPTX_READ_DPCD (5 + 6) d1)
    as S2.
  destruct (cdns_mhdp_mailbox_validate_receive _ _ (5 + 6) d1) as [r2 d2].
  destruct S2 as (rd2 & X2).
  destruct (negb (r2 =? 0)); [unfold ret; eapply Hweak; exact X2|].
  pose proof (read_receive_exchange [0; 0; 0; 0; 0] 5 d2) as S3.
  destruct (cdns_mhdp_mailbox_read_receive [0; 0; 0; 0; 0] 5 d2)
    as [[r3 hdr] d3].
  destruct S3 as (rd3 & X3).
  pose proof (exchange_trans _ _ _ _ _ _ _ X2 X3) as X23. simpl in X23.
  destruct (negb (r3 =? 0)); [unfold ret; eapply Hweak; exact X23|].
  destruct (negb (u32 (get_unaligned_be24 hdr 2) =? u32 DP_LANE0_1_STATUS));
    [unfold ret; eapply Hweak; exact X23|].
  pose proof (read_receive_exchange dpcd 6 d3) as S4.
  destruct (cdns_mhdp_mailbox_read_receive dpcd 6 d3) as [[r4 dpcd'] d4].
  destruct S4 as (rd4 & X4).
  pose proof (exchange_trans _ _ _ _ _ _ _ X23 X4) as X24. simpl in X24.
  eapply Hweak; exact X24.
Qed.

Lemma edid_loop_bound (n : nat) :
  forall (block length_ ret0 : Z) (reg edid : list Z) (d : cdns_mhdp_device),
    let '((r, _), d') := edid_loop n block length_ ret0 reg edid d in
    (r = ret0 \/ r = 0 \/ r = - ETIMEDOUT \/ r = - EINVAL) /\
    exists rd wr, exchange d d' rd wr /\ (length wr <= 6 * n)%nat.
Proof.
  induction n as [|n IH]; intros block length_ ret0 reg edid d;
    cbn [edid_loop].
  - unfold ret. split; [auto|]. exists [], [].
    split; [apply exchange_refl|simpl; lia].
  - unfold bind. cbv zeta.
    set (msg := [u8 (block / 2); u8 (block mod 2)]).
    change 2 with (Z.of_nat (length msg)) at 1.
    pose proof (send_outcome MB_MODULE_ID_DP_TX DPTX_GET_EDID msg d
                  ltac:(reflexivity)) as S1.
    destruct (cdns_mhdp_mailbox_send _ _ _ msg d) as [r1 d1].
    assert (X1 : exists wr, exchange d d1 [] wr /\ (length wr <= 6)%nat).
    { destruct S1 as [[_ X]|(_ & k & Hk & X)]; eexists; (split; [exact X|]).
      - reflexivity.
      - rewrite length_firstn. change (length (mbox_frame _ _ msg)) with 6%nat.
        lia. }
    assert (Hr1 : r1 = 0 \/ r1 = - ETIMEDOUT) by (destruct S1; tauto).
    clear S1. destruct X1 as (w1 & X1 & L1).
    assert (Step : forall (ret1 : Z) reg1 edid1 d1' rd1,
               exchange d1 d1' rd1 [] ->
               ret1 = 0 \/ ret1 = - ETIMEDOUT \/ ret1 = - EINVAL ->
               let '((r, _), d') := edid_loop n block length_ ret1 reg1 edid1 d1' in
               (r = ret0 \/ r = 0 \/ r = - ETIMEDOUT \/ r = - EINVAL) /\
               exists rd wr, exchange d d' rd wr /\ (length wr <= 6 * S n)%nat).
    { intros ret1 reg1 edid1 d1' rd1 X Hret.
      specialize (IH block length_ ret1 reg1 edid1 d1').
      destruct (edid_loop n block length_ ret1 reg1 edid1 d1') as [[r e'] d'].
      destruct IH as (Hr & rd & wr & X' & Lw).
      split; [destruct Hr as [->|Hr]; tauto|].
      pose proof (exchange_trans _ _ _ _ _ _ _ X1
                    (exchange_trans _ _ _ _ _ _ _ X X')) as XX.
      eexists _, _. split; [exact XX|].
      rewrite length_app. simpl length. lia. }
    destruct (Z.eqb_spec r1 0) as [->|Hne]; cbn [negb]; cbv beta iota.
    2: { apply (Step r1 reg edid d1 [] (exchange_refl d1)). tauto. }
    pose proof (validate_exchange MB_MODULE_ID_DP_TX DPTX_GET_EDID
                  (u64 (2 + length_)) d1) as S2.
    pose proof (validate_status MB_MODULE_ID_DP_TX DPTX_GET_EDID
                  (u64 (2 + length_)) d1) as T2.
    destruct (cdns_mhdp_mailbox_validate_receive _ _ (u64 (2 + length_)) d1)
      as [r2 d2].
    destruct S2 as (rd2 & X2).
    destruct (Z.eqb_spec r2 0) as [->|Hne2]; cbn [negb]; cbv beta iota.
    2: { apply (Step r2 reg edid d2 rd2 X2). tauto. }
    pose proof (read_receive_exchange reg 2 d2) as S3.
    pose proof (read_receive_status reg 2 d2) as T3.
    destruct (cdns_mhdp_mailbox_read_receive reg 2 d2) as [[r3 reg'] d3].
    destruct S3 as (rd3 & X3).
    pose proof (exchange_trans _ _ _ _ _ _ _ X2 X3) as X23. simpl in X23.
    destruct (Z.eqb_spec r3 0) as [->|Hne3]; cbn [negb]; cbv beta iota.
    2: { apply (Step r3 reg' edid d3 _ X23). tauto. }
    pose proof (read_receive_exchange edid length_ d3) as S4.
    pose proof (read_receive_status edid length_ d3) as T4.
    destruct (cdns_mhdp_mailbox_read_receive edid length_ d3)
      as [[r4 edid'] d4].
    destruct S4 as (rd4 & X4).
    pose proof (exchange_trans _ _ _ _ _ _ _ X23 X4) as X24. simpl in X24.
    destruct (Z.eqb_spec r4 0) as [->|Hne4]; cbn [negb]; cbv beta iota.
    2: { apply (Step r4 reg' edid' d4 _ X24). tauto. }
    destruct ((nth 0 reg' 0 =? length_) && (nth 1 reg' 0 =? block / 2)).
    + unfold ret. split; [auto|].
      pose proof (exchange_trans _ _ _ _ _ _ _ X1 X24) as XX.
      eexists _, _. split; [exact XX|].
      rewrite app_nil_r. lia.
    + apply (Step 0 reg' edid' d4 _ X24). tauto.
Qed.

(** X16.  [cdns_mhdp_get_edid_block] makes at most four attempts: it writes at
    most 24 bytes, four request frames of six, to the mailbox, and returns
    0, [-ETIMEDOUT] or [-EINVAL]. *)
Theorem get_edid_block_bounded (edid : list Z) (block length_ : Z)
        (d : cdns_mhdp_device) :
  let '((r, _), d') := cdns_mhdp_get_edid_block edid block length_ d in
  (r = 0 \/ r = - ETIMEDOUT \/ r = - EINVAL) /\
  exists wr, mbox_wr d' = mbox_wr d ++ wr /\ (length wr <= 24)%nat.
Proof.
  unfold cdns_mhdp_get_edid_block.
  pose proof (edid_loop_bound 4 (u32 block) (u64 length_) 0 [0; 0] edid d) as B.
  destruct (edid_loop 4 (u32 block) (u64 length_) 0 [0; 0] edid d)
    as [[r edid'] d'].
  destruct B as (Hr & rd & wr & X & L).
  split; [tauto|]. exists wr.
  destruct (exchange_mbox _ _ _ _ X) as [_ W]. split; [exact W|simpl in L; lia].
Qed.

End BoundsFacts.

(** * Video configuration *)

Section VideoFacts.

Context {H : Header} {C : CommandHeader} {V : VideoHeader} {P : Platform}.

(** X17.  [cdns_mhdp_get_msa_misc] never returns a negative value: the result
    fits 15 bits, and its bit 14 is set exactly for the [Y_ONLY] pixel
    format, whatever the value of [BT_601] and the colour depth. *)
Theorem get_msa_misc_flag (video : video_info) :
  0 <= cdns_mhdp_get_msa_misc video < 2 ^ 15 /\
  Z.testbit (cdns_mhdp_get_msa_misc video) 14 = (color_fmt video =? Y_ONLY).
Proof.
  unfold cdns_mhdp_get_msa_misc. cbv zeta.
  set (val0 := if (color_fmt video =? PXL_RGB) || (color_fmt video =? Y_ONLY)
               then 0 else _).
  set (val1 := if color_depth video =? 6 then 0 else _).
  assert (H0 : 0 <= val0 < 256).
  { unfold val0.
    pose proof (u8_range (6 + BT_601 * 8)). pose proof (u8_range (5 + BT_601 * 8)).
    repeat match goal with |- context [if ?c then _ else _] => destruct c end;
      lia. }
  assert (H1 : 0 <= val1 <= 4).
  { unfold val1.
    repeat match goal with |- context [if ?c then _ else _] => destruct c end;
      lia. }
  change (Z.shiftl 1 14) with 16384.
  set (low := 2 * val0 + 32 * val1).
  assert (Hl : 0 <= low < 16384) by (unfold low; lia).
  destruct (color_fmt video =? Y_ONLY).
  - rewrite u32_small, s32_low by lia.
    split; [lia|].
    rewrite Z.testbit_true by lia. change (2 ^ 14) with 16384.
    replace ((low + 16384) / 16384) with 1
      by (apply Z.div_unique with low; lia).
    reflexivity.
  - rewrite Z.add_0_r, u32_small, s32_low by lia.
    split; [lia|].
    apply Z.testbit_false; [lia|]. change (2 ^ 14) with 16384.
    rewrite Z.div_small by lia. reflexivity.
Qed.

Lemma reg_write_outcome (addr val : Z) (d : cdns_mhdp_device) :
  let (r, d') := cdns_mhdp_reg_write addr val d in
  (r = 0 /\ exchange d d' [] (reg_frame addr val)) \/
  (r = - ETIMEDOUT /\
   exists k, (k <= 12)%nat /\ exchange d d' [] (firstn k (reg_frame addr val))).
Proof.
  unfold cdns_mhdp_reg_write, reg_frame.
  set (msg := put_unaligned_be32 addr ++ put_unaligned_be32 val).
  change 8 with (Z.of_nat (length msg)).
  pose proof (send_outcome MB_MODULE_ID_GENERAL GENERAL_WRITE_REGISTER msg d
                ltac:(reflexivity)) as S.
  destruct (cdns_mhdp_mailbox_send _ _ _ msg d) as [r d'].
  destruct S as [?|(-> & k & Hk & X)]; [left; assumption|right].
  split; [reflexivity|]. exists k. split; [|assumption].
  change (length (mbox_frame GENERAL_WRITE_REGISTER MB_MODULE_ID_GENERAL msg))
    with 12%nat in Hk. lia.
Qed.

(** A checked register write on the way to a zero result was complete. *)
Lemma checked_ok (addr val : Z) (k : M (option Z))
      (d d' : cdns_mhdp_device) :
  checked (cdns_mhdp_reg_write addr val) k d = (Some 0, d') ->
  exists d1, exchange d d1 [] (reg_frame addr val) /\ k d1 = (Some 0, d').
Proof.
  unfold checked, bind. intros E.
  pose proof (reg_write_outcome addr val d) as O.
  destruct (cdns_mhdp_reg_write addr val d) as [r d1].
  pose proof ETIMEDOUT_pos as Ht.
  destruct O as [[-> X]|(-> & _)].
  - ret_zero_in E. eauto.
  - ret_timeout_in E. unfold ret in E. injection E as E1 E2. lia.
Qed.

Lemma checked_status (addr val : Z) (k : M (option Z)) :
  (forall d, status_known (fst (k d))) ->
  forall d, status_known (fst (checked (cdns_mhdp_reg_write addr val) k d)).
Proof.
  intros Hk d. unfold checked, bind.
  pose proof (reg_write_outcome addr val d) as O.
  destruct (cdns_mhdp_reg_write addr val d) as [r d1].
  pose proof ETIMEDOUT_pos as Ht.
  destruct O as [[-> _]|(-> & _)].
  - ret_zero. apply Hk.
  - ret_timeout. unfold ret. simpl. auto.
Qed.

Lemma reg_write_bit_status (addr start_bit bits_no val : Z)
      (d : cdns_mhdp_device) :
  status_known
    (fst ((bind (cdns_mhdp_reg_write_bit addr start_bit bits_no val)
                (fun ret_ => ret (Some ret_))) d)).
Proof.
  unfold bind, cdns_mhdp_reg_write_bit.
  match goal with |- context [cdns_mhdp_mailbox_send ?m ?o ?s ?msg d] =>
    pose proof (send_status m o s msg d) as S;
    destruct (cdns_mhdp_mailbox_send m o s msg d) as [r d1] end.
  unfold ret. simpl. tauto.
Qed.

(** How the first part of [cdns_mhdp_config_video] ends. *)
Lemma config_video_tu_cases (fmt depth clk : Z) (d : cdns_mhdp_device) :
  let (outcome, d2) := cdns_mhdp_config_video_tu fmt depth clk d in
  match outcome with
  | Some (TuFound t s r) =>
      exchange d d2 []
        (reg_frame BND_HSYNC2VSYNC VIF_BYPASS_INTERLACE
         ++ reg_frame HSYNC2VSYNC_POL_CTRL 0) /\
      tu_search clk
        (u8 (if fmt =? YCBCR_4_2_2 then depth * 2 else depth * 3))
        (link_num_lanes d) (u32 (link_rate d) / 1000)
      = Some (TuFound t s r)
  | Some (TuError e) => e = - ETIMEDOUT \/ e = - EINVAL
  | Some TuDivideByZero =>
      u32 (u32 (u32 (link_num_lanes d) * (u32 (link_rate d) / 1000)) * 8) = 0
  | None => False
  end.
Proof.
  unfold cdns_mhdp_config_video_tu, bind.
  pose proof (reg_write_outcome BND_HSYNC2VSYNC VIF_BYPASS_INTERLACE d) as O1.
  destruct (cdns_mhdp_reg_write BND_HSYNC2VSYNC VIF_BYPASS_INTERLACE d)
    as [r1 d1].
  pose proof ETIMEDOUT_pos as Ht.
  destruct O1 as [[-> X1]|(-> & _)].
  2: { ret_timeout. unfold ret. auto. }
  ret_zero.
  pose proof (reg_write_outcome HSYNC2VSYNC_POL_CTRL 0 d1) as O2.
  destruct (cdns_mhdp_reg_write HSYNC2VSYNC_POL_CTRL 0 d1) as [r2 d2].
  destruct O2 as [[-> X2]|(-> & _)].
  2: { ret_timeout. unfold ret. auto. }
  ret_zero.
  pose proof (exchange_trans _ _ _ _ _ _ _ X1 X2) as X. simpl app in X.
  destruct (exchange_link _ _ _ _ X) as (_ & -> & _).
  assert (Hu : u32 (u32 (link_rate d) / 1000) = u32 (link_rate d) / 1000).
  { pose proof (u32_range (link_rate d)). apply u32_small.
    split; [apply Z.div_pos; lia|].
    apply Z.div_lt_upper_bound; lia. }
  destruct (tu_search clk _ (link_num_lanes d) (u32 (link_rate d) / 1000))
    as [[t s r|e|]|] eqn:E.
  - auto.
  - unfold tu_search in E. right. exact (tu_loop_error _ _ _ _ _ _ _ E).
  - unfold tu_search in E. rewrite Hu in E.
    exact (tu_loop_divide_by_zero _ _ _ _ _ _ E).
  - exact (tu_search_total _ _ _ _ E).
Qed.


Lemma video_link_rate_u32 (d : cdns_mhdp_device) :
  u32 (u32 (link_rate d) / 1000) = u32 (link_rate d) / 1000.
Proof.
  pose proof (u32_range (link_rate d)). apply u32_small.
  split; [apply Z.div_pos; lia|].
  apply Z.div_lt_upper_bound; lia.
Qed.

(** The registers after the FIFO size: their statuses. *)
Lemma config_video_regs_status (video : video_info) (mode : drm_display_mode)
      (bit_per_pix link_rate_ tu symbol : Z) (d : cdns_mhdp_device) :
  u32 (u32 (link_num_lanes d) * link_rate_) <> 0 -> bit_per_pix <> 0 ->
  status_known
    (fst (config_video_regs video mode bit_per_pix link_rate_ tu symbol d)).
Proof.
  intros Hl Hb. unfold config_video_regs. cbv zeta.
  unfold checked at 1. unfold bind at 1.
  match goal with |- context [cdns_mhdp_reg_write DP_FRAMER_TU ?v d] =>
    pose proof (reg_write_outcome DP_FRAMER_TU v d) as O;
    destruct (cdns_mhdp_reg_write DP_FRAMER_TU v d) as [r1 d1] end.
  pose proof ETIMEDOUT_pos as Ht.
  destruct O as [[-> X]|(-> & _)].
  2: { ret_timeout. unfold ret. simpl. auto. }
  ret_zero.
  destruct (exchange_link _ _ _ _ X) as (_ & -> & _).
  destruct (Z.eqb_spec (u32 (u32 (link_num_lanes d) * link_rate_)) 0)
    as [|_]; [contradiction|].
  destruct (Z.eqb_spec bit_per_pix 0) as [|_]; [contradiction|].
  cbn [orb]. unfold bind at 1.
  match goal with |- context [cdns_mhdp_reg_write (DP_VC_TABLE 15) ?v d1] =>
    destruct (cdns_mhdp_reg_write (DP_VC_TABLE 15) v d1) as [r2 d2] end.
  do 13 (cbv zeta; apply checked_status; intros ?).
  apply reg_write_bit_status.
Qed.

(** X18.  [cdns_mhdp_config_video] returns 0, [-ETIMEDOUT] or [-EINVAL], unless
    the divisor [lanes * rate * 8] of the transfer-unit search is zero in 32
    bits, where the division of line 825 is undefined.  The two divisions
    that size the FIFO (lines 846 and 847) never divide by zero: they are
    reached only with a solution of the search, which needs a non-zero
    divisor and non-zero bits per pixel. *)
Theorem config_video_status (video : video_info) (mode : drm_display_mode)
        (d : cdns_mhdp_device) :
  match fst (cdns_mhdp_config_video video mode d) with
  | Some r => r = 0 \/ r = - ETIMEDOUT \/ r = - EINVAL
  | None =>
      u32 (u32 (u32 (link_num_lanes d) * (u32 (link_rate d) / 1000)) * 8) = 0
  end.
Proof.
  unfold cdns_mhdp_config_video, bind. cbv zeta.
  pose proof (config_video_tu_cases (color_fmt video) (color_depth video)
                (clock mode) d) as T.
  destruct (cdns_mhdp_config_video_tu (color_fmt video) (color_depth video)
              (clock mode) d) as [[[t s r|e|]|] d2].
  - destruct T as [X E]. unfold tu_search in E.
    apply tu_loop_found in E.
    destruct E as (_ & _ & _ & _ & Hb & Hp).
    rewrite video_link_rate_u32 in Hb. rewrite u8_idem in Hp.
    destruct (exchange_link _ _ _ _ X) as (_ & L & _).
    match goal with |- context [config_video_regs video mode ?b ?l t s d2] =>
      pose proof (config_video_regs_status video mode b l t s d2) as S end.
    rewrite L in S.
    assert (Hl : u32 (u32 (link_num_lanes d) * (u32 (link_rate d) / 1000)) <> 0).
    { intros E0. apply Hb. now rewrite E0. }
    specialize (S Hl Hp).
    destruct (config_video_regs video mode _ _ t s d2) as [[r'|] d'];
      simpl in *; tauto.
  - unfold ret. simpl. tauto.
  - unfold ret. simpl. exact T.
  - contradiction.
Qed.

(** X19.  When [cdns_mhdp_config_video] returns 0, the search found a solution
    and the mailbox received, in this order and in full: the frames that
    write [BND_HSYNC2VSYNC] and [HSYNC2VSYNC_POL_CTRL], the frame that
    writes the solution to [DP_FRAMER_TU] (symbols in the low bits, size
    from bit 8, the counter-reset flag), the thirteen frames for the
    registers from [DP_FRAMER_PXL_REPR] to [DP_VERTICAL_1], [STREAM_CONFIG]
    getting 1, and the field write to [DP_VB_ID].  Between the third and
    the fifth frame lies the write of the FIFO size to [DP_VC_TABLE(15)],
    of which the zero result guarantees a prefix only: its status is
    overwritten without having been tested.  Nothing is read from the
    mailbox. *)
Theorem config_video_programs_registers
        (video : video_info) (mode : drm_display_mode)
        (d d' : cdns_mhdp_device) :
  cdns_mhdp_config_video video mode d = (Some 0, d') ->
  exists tu symbol rem fifo k vals,
    tu_search (clock mode)
      (u8 (if color_fmt video =? YCBCR_4_2_2 then color_depth video * 2
           else color_depth video * 3))
      (link_num_lanes d) (u32 (link_rate d) / 1000)
    = Some (TuFound tu symbol rem) /\
    length vals = 13%nat /\ nth 9 vals 0 = 1 /\
    mbox_rd d' = mbox_rd d /\
    mbox_wr d' =
      mbox_wr d
      ++ reg_frame BND_HSYNC2VSYNC VIF_BYPASS_INTERLACE
      ++ reg_frame HSYNC2VSYNC_POL_CTRL 0
      ++ reg_frame DP_FRAMER_TU
           (Z.lor (u32 (symbol + Z.shiftl tu 8)) (u32 TU_CNT_RST_EN))
      ++ firstn k (reg_frame (DP_VC_TABLE 15) fifo)
      ++ concat (map (fun av => reg_frame (fst av) (snd av))
                     (combine timing_registers vals))
      ++ mbox_frame DPTX_WRITE_FIELD MB_MODULE_ID_DP_TX
           (put_unaligned_be16 DP_VB_ID ++ [2; 1] ++ put_unaligned_be32 0).
Proof.
  intros E. unfold cdns_mhdp_config_video, bind in E. cbv zeta in E.
  pose proof (config_video_tu_cases (color_fmt video) (color_depth video)
                (clock mode) d) as T.
  destruct (cdns_mhdp_config_video_tu (color_fmt video) (color_depth video)
              (clock mode) d) as [[[t s r|e|]|] d2].
  2: { unfold ret in E. injection E as E1 E2.
       pose proof ETIMEDOUT_pos. pose proof EINVAL_pos. lia. }
  2, 3: discriminate E.
  destruct T as [X0 Hs].
  unfold config_video_regs in E. cbv zeta in E.
  apply checked_ok in E. destruct E as (d3 & X1 & E).
  destruct (_ || _) in E; [discriminate E|].
  unfold bind at 1 in E.
  match type of E with context [cdns_mhdp_reg_write (DP_VC_TABLE 15) ?v d3] =>
    pose proof (reg_write_outcome (DP_VC_TABLE 15) v d3) as O;
    set (fifo := v) in *;
    destruct (cdns_mhdp_reg_write (DP_VC_TABLE 15) fifo d3) as [r4 d4] end.
  assert (X2 : exists k, exchange d3 d4 []
                           (firstn k (reg_frame (DP_VC_TABLE 15) fifo))).
  { destruct O as [[_ X]|(_ & k & _ & X)].
    - exists 12%nat. exact X.
    - exists k. exact X. }
  clear O. destruct X2 as (k & X2).
  apply checked_ok in E. destruct E as (d5 & Y1 & E).
  apply checked_ok in E. destruct E as (d6 & Y2 & E).
  apply checked_ok in E. destruct E as (d7 & Y3 & E).
  apply checked_ok in E. destruct E as (d8 & Y4 & E).
  apply checked_ok in E. destruct E as (d9 & Y5 & E).
  apply checked_ok in E. destruct E as (d10 & Y6 & E).
  apply checked_ok in E. destruct E as (d11 & Y7 & E).
  apply checked_ok in E. destruct E as (d12 & Y8 & E).
  apply checked_ok in E. destruct E as (d13 & Y9 & E).
  apply checked_ok in E. destruct E as (d14 & Y10 & E).
  apply checked_ok in E. destruct E as (d15 & Y11 & E).
  apply checked_ok in E. destruct E as (d16 & Y12 & E).
  apply checked_ok in E. destruct E as (d17 & Y13 & E).
  unfold bind, cdns_mhdp_reg_write_bit in E.
  set (field := put_unaligned_be16 DP_VB_ID ++ [u8 2; u8 1]
                ++ put_unaligned_be32 0) in E.
  change 8 with (Z.of_nat (length field)) in E.
  destruct (cdns_mhdp_mailbox_send MB_MODULE_ID_DP_TX DPTX_WRITE_FIELD
              (Z.of_nat (length field)) field d17) as [r18 d18] eqn:E18.
  unfold ret in E. injection E as -> ->.
  pose proof (send_ok_frame MB_MODULE_ID_DP_TX DPTX_WRITE_FIELD field d17 d'
                ltac:(reflexivity) E18) as Y14.
  fold (mbox_frame DPTX_WRITE_FIELD MB_MODULE_ID_DP_TX field) in Y14.
  pose proof (exchange_trans _ _ _ _ _ _ _ X0
    (exchange_trans _ _ _ _ _ _ _ X1
    (exchange_trans _ _ _ _ _ _ _ X2
    (exchange_trans _ _ _ _ _ _ _ Y1
    (exchange_trans _ _ _ _ _ _ _ Y2
    (exchange_trans _ _ _ _ _ _ _ Y3
    (exchange_trans _ _ _ _ _ _ _ Y4
    (exchange_trans _ _ _ _ _ _ _ Y5
    (exchange_trans _ _ _ _ _ _ _ Y6
    (exchange_trans _ _ _ _ _ _ _ Y7
    (exchange_trans _ _ _ _ _ _ _ Y8
    (exchange_trans _ _ _ _ _ _ _ Y9
    (exchange_trans _ _ _ _ _ _ _ Y10
    (exchange_trans _ _ _ _ _ _ _ Y11
    (exchange_trans _ _ _ _ _ _ _ Y12
    (exchange_trans _ _ _ _ _ _ _ Y13 Y14)))))))))))))))) as X.
  destruct (exchange_mbox _ _ _ _ X) as [Rd Wr].
  cbn [app] in Rd. rewrite app_nil_r in Rd.
  destruct (exchange_link _ _ _ _ X0) as (_ & L & _).
  match type of Y1 with exchange _ _ _ (reg_frame _ ?v1) =>
  match type of Y2 with exchange _ _ _ (reg_frame _ ?v2) =>
  match type of Y3 with exchange _ _ _ (reg_frame _ ?v3) =>
  match type of Y4 with exchange _ _ _ (reg_frame _ ?v4) =>
  match type of Y5 with exchange _ _ _ (reg_frame _ ?v5) =>
  match type of Y6 with exchange _ _ _ (reg_frame _ ?v6) =>
  match type of Y7 with exchange _ _ _ (reg_frame _ ?v7) =>
  match type of Y8 with exchange _ _ _ (reg_frame _ ?v8) =>
  match type of Y9 with exchange _ _ _ (reg_frame _ ?v9) =>
  match type of Y10 with exchange _ _ _ (reg_frame _ ?v10) =>
  match type of Y11 with exchange _ _ _ (reg_frame _ ?v11) =>
  match type of Y12 with exchange _ _ _ (reg_frame _ ?v12) =>
  match type of Y13 with exchange _ _ _ (reg_frame _ ?v13) =>
    exists t, s, r, fifo, k,
      [v1; v2; v3; v4; v5; v6; v7; v8; v9; v10; v11; v12; v13]
  end end end end end end end end end end end end end.
  split; [exact Hs|]. split; [reflexivity|]. split; [reflexivity|].
  split; [exact Rd|].
  rewrite Wr. unfold timing_registers, field.
  cbn [combine map concat fst snd].
  change (u8 2) with 2. change (u8 1) with 1.
  rewrite <- !app_assoc. reflexivity.
Qed.

End VideoFacts.

(** * Layerscape Gen4 PCIe: host init, link state and hot reset *)

Section LsPcieG4ResetFacts.

Context {PP : PciPlatform} {MP : MobiveilPlatform}.

Lemma pf_readl_spec (off : Z) (s : g4_state) :
  let (v, s') := ls_pcie_g4_pf_readl off s in
  accesses s' = accesses s ++ [PfRead (u32 off) v] /\ 0 <= v < 2 ^ 32 /\
  rev (port s') = rev (port s).
Proof.
  unfold ls_pcie_g4_pf_readl. cbv zeta.
  destruct (ioread32 _ (pci_io (port s))) as [v h]. simpl.
  split; [reflexivity|]. split; [apply u32_range|reflexivity].
Qed.

Lemma csr_readl_spec (off : Z) (s : g4_state) :
  let (v, s') := g4_csr_readl off s in
  accesses s' = accesses s ++ [CsrRead 4 (u32 off) v] /\ 0 <= v < 2 ^ 32 /\
  rev (port s') = rev (port s).
Proof.
  unfold g4_csr_readl.
  destruct (csr_readl (u32 off) (pci_io (port s))) as [v h]. simpl.
  split; [reflexivity|]. split; [apply u32_range|reflexivity].
Qed.

Lemma testbit_u32 (x i : Z) : 0 <= i < 32 -> Z.testbit (u32 x) i = Z.testbit x i.
Proof. intros Hi. unfold u32. apply Z.mod_pow2_bits_low. lia. Qed.

Lemma testbit_u16 (x i : Z) : 0 <= i < 16 -> Z.testbit (u16 x) i = Z.testbit x i.
Proof. intros Hi. unfold u16. apply Z.mod_pow2_bits_low. lia. Qed.

Lemma link_up_spec (s : g4_state) :
  let (r, s') := ls_pcie_g4_link_up s in
  exists v,
    accesses s' = accesses s ++ [PfRead PCIE_PF_DBG v] /\
    0 <= v < 2 ^ 32 /\
    r = (if ltssm_l0 v then 1 else 0).
Proof.
  unfold ls_pcie_g4_link_up, gbind.
  pose proof (pf_readl_spec PCIE_PF_DBG s) as R.
  destruct (ls_pcie_g4_pf_readl PCIE_PF_DBG s) as [v s1].
  destruct R as (A & Hv & _).
  change (u32 PCIE_PF_DBG) with PCIE_PF_DBG in A.
  cbv zeta. unfold PF_DBG_LTSSM_MASK, PF_DBG_LTSSM_L0, ltssm_l0.
  change 0x3f with (Z.ones 6). rewrite Z.land_ones by lia.
  change (2 ^ 6) with 64. change 0x2d with 45.
  destruct (v mod 64 =? 45) eqn:E; unfold gret; exists v;
    (split; [exact A|]); (split; [exact Hv|]);
    change (2 ^ 6) with 64 in E; now rewrite E.
Qed.

(** X20.  [ls_pcie_g4_link_up] reads [PCIE_PF_DBG] once and reports the link up
    exactly when the low six bits of the value, the LTSSM state, are
    [0x2d]; the upper 26 bits play no part: two values that agree modulo
    64 give the same answer. *)
Theorem link_up_ltssm (s : g4_state) :
  let (r, s') := ls_pcie_g4_link_up s in
  exists v,
    accesses s' = accesses s ++ [PfRead PCIE_PF_DBG v] /\
    (r = 1 <-> v mod 64 = 45) /\ (r = 0 <-> v mod 64 <> 45).
Proof.
  pose proof (link_up_spec s) as L.
  destruct (ls_pcie_g4_link_up s) as [r s'].
  destruct L as (v & A & _ & ->). exists v. split; [exact A|].
  unfold ltssm_l0. destruct (Z.eqb_spec (v mod 64) 45) as [E|E].
  - split; split; intros; try reflexivity; try assumption;
      try discriminate; contradiction.
  - split; split; intros; try reflexivity; try assumption;
      try discriminate; contradiction.
Qed.

(** The value [workaround_A011451] writes back: the field under the mask
    holds 4, every other bit is as read. *)
Lemma ack_latency_bits (v i : Z) :
  Z.land 4 ACK_LAT_TO_VAL_MASK = 4 -> 0 <= ACK_LAT_TO_VAL_SHIFT ->
  0 <= i < 32 ->
  Z.testbit
    (u32 (Z.lor (Z.land v (u32 (Z.lnot (Z.shiftl ACK_LAT_TO_VAL_MASK
                                                 ACK_LAT_TO_VAL_SHIFT))))
                (u32 (Z.shiftl 4 ACK_LAT_TO_VAL_SHIFT)))) i
  = if Z.testbit (Z.shiftl ACK_LAT_TO_VAL_MASK ACK_LAT_TO_VAL_SHIFT) i
    then Z.testbit (Z.shiftl 4 ACK_LAT_TO_VAL_SHIFT) i
    else Z.testbit v i.
Proof.
  intros Hm Hs Hi.
  rewrite testbit_u32, Z.lor_spec, Z.land_spec, !testbit_u32, Z.lnot_spec
    by lia.
  assert (Hsub : Z.testbit (Z.shiftl 4 ACK_LAT_TO_VAL_SHIFT) i = true ->
                 Z.testbit (Z.shiftl ACK_LAT_TO_VAL_MASK ACK_LAT_TO_VAL_SHIFT) i
                 = true).
  { rewrite !Z.shiftl_spec by lia. intros H4.
    rewrite <- Hm, Z.land_spec in H4. now apply andb_true_iff in H4. }
  destruct (Z.testbit (Z.shiftl ACK_LAT_TO_VAL_MASK ACK_LAT_TO_VAL_SHIFT) i).
  - cbn [negb]. now rewrite andb_false_r.
  - cbn [negb]. rewrite andb_true_r.
    destruct (Z.testbit (Z.shiftl 4 ACK_LAT_TO_VAL_SHIFT) i).
    + discriminate (Hsub eq_refl).
    + apply orb_false_r.
Qed.

(** X21.  [ls_pcie_g4_host_init] returns 0 after reading the revision byte into
    [rev].  On revision 1.0 it then rewrites the ACK/replay timeout
    register once: the latency field under [ACK_LAT_TO_VAL_MASK] gets the
    value 4 and all other bits keep what was read.  On any other revision
    it writes nothing. *)
Theorem host_init_ack_latency (s : g4_state) :
  Z.land 4 ACK_LAT_TO_VAL_MASK = 4 -> 0 <= ACK_LAT_TO_VAL_SHIFT ->
  let (r, s') := ls_pcie_g4_host_init s in
  r = 0 /\
  exists b,
    rev (port s') = b /\ 0 <= b < 256 /\
    if b =? REV_1_0
    then exists v w,
        accesses s' =
          accesses s ++ [CsrRead 1 (u32 PCI_REVISION_ID) b;
                         CsrRead 4 (u32 GPEX_ACK_REPLAY_TO) v;
                         CsrWrite 4 w (u32 GPEX_ACK_REPLAY_TO)] /\
        forall i, 0 <= i < 32 ->
          Z.testbit w i =
          if Z.testbit (Z.shiftl ACK_LAT_TO_VAL_MASK ACK_LAT_TO_VAL_SHIFT) i
          then Z.testbit (Z.shiftl 4 ACK_LAT_TO_VAL_SHIFT) i
          else Z.testbit v i
    else accesses s' = accesses s ++ [CsrRead 1 (u32 PCI_REVISION_ID) b].
Proof.
  intros Hm Hs. unfold ls_pcie_g4_host_init, gbind, g4_csr_readb.
  destruct (csr_readb (u32 PCI_REVISION_ID) (pci_io (port s))) as [b h].
  cbn [g4_set_rev g4_step port rev accesses pci_io].
  destruct (Z.eqb_spec (u8 b) REV_1_0) as [Hr|Hr].
  - unfold workaround_A011451, gbind, g4_csr_readl, g4_csr_writel.
    cbn [g4_set_rev g4_step port pci_io accesses].
    destruct (csr_readl (u32 GPEX_ACK_REPLAY_TO) h) as [v h'].
    cbn [g4_set_rev g4_step port rev accesses pci_io gret].
    split; [reflexivity|]. exists (u8 b).
    split; [reflexivity|]. split; [apply u8_range|].
    destruct (Z.eqb_spec (u8 b) REV_1_0) as [_|]; [|contradiction].
    eexists (u32 v), _. split; [rewrite <- !app_assoc; reflexivity|].
    intros i Hi. now apply ack_latency_bits.
  - cbn [gret port rev accesses].
    split; [reflexivity|]. exists (u8 b).
    split; [reflexivity|]. split; [apply u8_range|].
    destruct (Z.eqb_spec (u8 b) REV_1_0) as [|_]; [contradiction|].
    reflexivity.
Qed.

Lemma usleep_spec (min max : Z) (s : g4_state) :
  let (_, s') := g4_usleep_range min max s in
  accesses s' = accesses s ++ [UsleepRange min max].
Proof. reflexivity. Qed.

(** The first loop of [ls_pcie_g4_reinit_hw]. *)
Lemma reinit_poll_spec : forall (to : nat) (s : g4_state),
  let (r, s') := reinit_poll to s in
  exists turns last,
    accesses s' = accesses s ++ concat (map reinit_turn (turns ++ [last])) /\
    forallb reinit_pending turns = true /\
    (length turns <= to)%nat /\
    ((r = -1 /\ reinit_pending last = true /\ length turns = to) \/
     (0 <= r /\ reinit_pending last = false)).
Proof.
  induction to as [|to IH]; intros s; cbn [reinit_poll]; unfold gbind;
    cbn [g4_usleep_range];
    pose proof (pf_readl_spec PCIE_PF_INT_STAT
                  (g4_step (pci_usleep_range 10 15 (pci_io (port s)))
                           (UsleepRange 10 15) s)) as R1;
    destruct (ls_pcie_g4_pf_readl PCIE_PF_INT_STAT _) as [val s1];
    destruct R1 as (A1 & _ & _);
    change (u32 PCIE_PF_INT_STAT) with PCIE_PF_INT_STAT in A1;
    cbn [g4_step accesses] in A1;
    pose proof (csr_readl_spec PAB_ACTIVITY_STAT s1) as R2;
    destruct (g4_csr_readl PAB_ACTIVITY_STAT s1) as [act s2];
    destruct R2 as (A2 & _ & _);
    assert (A : accesses s2 = accesses s ++ reinit_turn (val, act))
      by (rewrite A2, A1, <- !app_assoc; reflexivity);
    destruct ((Z.land val PF_INT_STAT_PABRST =? 0) || negb (act =? 0)) eqn:Hp.
  - unfold gret. exists [], (val, act). cbn [app map concat].
    rewrite app_nil_r. split; [exact A|]. split; [reflexivity|].
    split; [simpl; lia|]. left. auto.
  - unfold gret. exists [], (val, act). cbn [app map concat].
    rewrite app_nil_r. split; [exact A|]. split; [reflexivity|].
    split; [simpl; lia|]. right. split; [lia|exact Hp].
  - specialize (IH s2). destruct (reinit_poll to s2) as [r s'].
    destruct IH as (turns & last & A' & Hall & L & Hcase).
    exists ((val, act) :: turns), last.
    split.
    { rewrite A', A. cbn [app map concat]. now rewrite <- !app_assoc. }
    split.
    { cbn [forallb]. unfold reinit_pending at 1. cbn [fst snd].
      now rewrite Hp, Hall. }
    split; [simpl; lia|].
    destruct Hcase as [(-> & Hl & <-)|Hcase]; [left|right]; auto.
  - unfold gret. exists [], (val, act). cbn [app map concat].
    rewrite app_nil_r. split; [exact A|]. split; [reflexivity|].
    split; [simpl; lia|]. right. split; [lia|exact Hp].
Qed.

Lemma link_turns_cons (v : Z) (rest : list Z) (last : Z) :
  link_turns (v :: rest ++ [last])
  = PfRead PCIE_PF_DBG v :: UsleepRange 200 250 :: link_turns (rest ++ [last]).
Proof. destruct rest; reflexivity. Qed.

(** The second loop of [ls_pcie_g4_reinit_hw]. *)
Lemma link_poll_spec : forall (to : nat) (s : g4_state),
  let (r, s') := link_poll to s in
  exists downs last,
    accesses s' = accesses s ++ link_turns (downs ++ [last]) /\
    forallb (fun v => negb (ltssm_l0 v)) downs = true /\
    (length downs <= to)%nat /\
    ((r = -1 /\ ltssm_l0 last = false /\ length downs = to) \/
     (0 <= r /\ ltssm_l0 last = true)).
Proof.
  induction to as [|to IH]; intros s; cbn [link_poll]; unfold gbind;
    pose proof (link_up_spec s) as U;
    destruct (ls_pcie_g4_link_up s) as [up s1];
    destruct U as (v & A & _ & Hup);
    destruct (ltssm_l0 v) eqn:Hl; subst up;
    cbn [Z.eqb]; unfold gret.
  - exists [], v. split; [exact A|]. split; [reflexivity|].
    split; [simpl; lia|]. right. split; [lia|exact Hl].
  - exists [], v. split; [exact A|]. split; [reflexivity|].
    split; [simpl; lia|]. left. auto.
  - exists [], v. split; [exact A|]. split; [reflexivity|].
    split; [simpl; lia|]. right. split; [lia|exact Hl].
  - cbn [g4_usleep_range].
    specialize (IH (g4_step (pci_usleep_range 200 250 (pci_io (port s1)))
                            (UsleepRange 200 250) s1)).
    destruct (link_poll to _) as [r s'].
    destruct IH as (downs & last & A' & Hall & L & Hcase).
    cbn [g4_step accesses] in A'.
    exists (v :: downs), last.
    split.
    { rewrite A', A. cbn [app]. rewrite link_turns_cons.
      rewrite <- !app_assoc. reflexivity. }
    split; [cbn [forallb]; now rewrite Hl, Hall|].
    split; [simpl; lia|].
    destruct Hcase as [(-> & Hd & <-)|Hcase]; [left|right]; auto.
Qed.

(** [ls_pcie_g4_reinit_hw] only adds to the record of accesses. *)
Lemma reinit_hw_appends (s : g4_state) :
  let (_, s') := ls_pcie_g4_reinit_hw s in
  exists evs, accesses s' = accesses s ++ evs.
Proof.
  unfold ls_pcie_g4_reinit_hw, gbind.
  pose proof (reinit_poll_spec 100 s) as R.
  destruct (reinit_poll 100 s) as [to s1].
  destruct R as (turns & last & A & _).
  destruct (to <? 0).
  - cbn [g4_dev_err g4_step accesses]. rewrite A, <- app_assoc. eauto.
  - pose proof (pf_readl_spec PCIE_PF_DBG s1) as R1.
    destruct (ls_pcie_g4_pf_readl PCIE_PF_DBG s1) as [v1 s2].
    destruct R1 as (A1 & _).
    cbn [ls_pcie_g4_pf_writel].
    match goal with |- context [ls_pcie_g4_pf_readl PCIE_PF_DBG ?st] =>
      pose proof (pf_readl_spec PCIE_PF_DBG st) as R2;
      destruct (ls_pcie_g4_pf_readl PCIE_PF_DBG st) as [v2 s3] end.
    destruct R2 as (A2 & _).
    match goal with |- context [ls_pcie_g4_pf_readl PCIE_PF_DBG ?st] =>
      pose proof (pf_readl_spec PCIE_PF_DBG st) as R3;
      destruct (ls_pcie_g4_pf_readl PCIE_PF_DBG st) as [v3 s4] end.
    destruct R3 as (A3 & _).
    cbn [g4_host_init].
    match goal with |- context [link_poll 100 ?st] =>
      pose proof (link_poll_spec 100 st) as R4;
      destruct (link_poll 100 st) as [to2 s5] end.
    destruct R4 as (downs & state & A4 & _).
    cbn [g4_step accesses] in A2, A3, A4.
    destruct (to2 <? 0).
    + cbn [g4_dev_err g4_step accesses].
      rewrite A4, A3, A2, A1, A, <- !app_assoc. eauto.
    + unfold gret. rewrite A4, A3, A2, A1, A, <- !app_assoc. eauto.
Qed.

(** X22.  [ls_pcie_g4_reinit_hw] polls for the reset flag with no activity at
    most 101 times, sleeping before each poll.  When all 101 polls find
    the flag clear or activity pending it gives up, having written nothing
    and not called [mobiveil_host_init].  Otherwise it makes three
    read-modify-write accesses to [PCIE_PF_DBG] (set the write-enable bit
    31, set bit 27, clear bit 31), calls [mobiveil_host_init] for a
    re-initialisation and polls the link state at most 101 times, sleeping
    between polls; it reports a link-training timeout exactly when all 101
    polls found the link down. *)
Theorem reinit_hw_outcome (s : g4_state) :
  let (_, s') := ls_pcie_g4_reinit_hw s in
  exists turns last rest,
    accesses s' =
      accesses s ++ concat (map reinit_turn (turns ++ [last])) ++ rest /\
    forallb reinit_pending turns = true /\ (length turns <= 100)%nat /\
    if reinit_pending last
    then length turns = 100%nat /\ rest = [DevErr PollTimeout]
    else exists v1 v2 v3 downs state,
        rest =
          [PfRead PCIE_PF_DBG v1; PfWrite PCIE_PF_DBG (Z.lor v1 (2 ^ 31));
           PfRead PCIE_PF_DBG v2; PfWrite PCIE_PF_DBG (Z.lor v2 (2 ^ 27));
           PfRead PCIE_PF_DBG v3; PfWrite PCIE_PF_DBG (Z.land v3 (2 ^ 31 - 1));
           HostInit true]
          ++ link_turns (downs ++ [state])
          ++ (if ltssm_l0 state then [] else [DevErr LinkTrainingTimeout]) /\
        forallb (fun v => negb (ltssm_l0 v)) downs = true /\
        (length downs <= 100)%nat /\
        (ltssm_l0 state = false -> length downs = 100%nat).
Proof.
  unfold ls_pcie_g4_reinit_hw, gbind.
  pose proof (reinit_poll_spec 100 s) as R.
  destruct (reinit_poll 100 s) as [to s1].
  destruct R as (turns & last & A & Hall & L & Hcase).
  destruct Hcase as [(-> & Hl & Hn)|(Hto & Hl)].
  - change (-1 <? 0) with true. cbv beta iota.
    cbn [g4_dev_err g4_step accesses].
    exists turns, last, [DevErr PollTimeout].
    split; [rewrite A, <- app_assoc; reflexivity|].
    split; [assumption|]. split; [assumption|].
    rewrite Hl. auto.
  - replace (to <? 0) with false by (symmetry; apply Z.ltb_ge; lia).
    pose proof (pf_readl_spec PCIE_PF_DBG s1) as R1.
    destruct (ls_pcie_g4_pf_readl PCIE_PF_DBG s1) as [v1 s2].
    destruct R1 as (A1 & H1 & _).
    cbn [ls_pcie_g4_pf_writel].
    match goal with |- context [ls_pcie_g4_pf_readl PCIE_PF_DBG ?st] =>
      pose proof (pf_readl_spec PCIE_PF_DBG st) as R2;
      destruct (ls_pcie_g4_pf_readl PCIE_PF_DBG st) as [v2 s3] end.
    destruct R2 as (A2 & H2 & _).
    match goal with |- context [ls_pcie_g4_pf_readl PCIE_PF_DBG ?st] =>
      pose proof (pf_readl_spec PCIE_PF_DBG st) as R3;
      destruct (ls_pcie_g4_pf_readl PCIE_PF_DBG st) as [v3 s4] end.
    destruct R3 as (A3 & H3 & _).
    cbn [g4_host_init].
    match goal with |- context [link_poll 100 ?st] =>
      pose proof (link_poll_spec 100 st) as R4;
      destruct (link_poll 100 st) as [to2 s5] end.
    destruct R4 as (downs & state & A4 & Hd & Ld & Hcase).
    cbn [g4_step accesses] in A2, A3, A4.
    change (u32 PCIE_PF_DBG) with PCIE_PF_DBG in *.
    assert (W1 : u32 (Z.lor v1 PF_DBG_WE) = Z.lor v1 (2 ^ 31)).
    { apply u32_small. change PF_DBG_WE with (2 ^ 31).
      apply lor_below; lia. }
    assert (W2 : u32 (Z.lor v2 PF_DBG_PABR) = Z.lor v2 (2 ^ 27)).
    { apply u32_small. change PF_DBG_PABR with (2 ^ 27).
      apply lor_below; lia. }
    assert (W3 : u32 (Z.land v3 (u32 (Z.lnot PF_DBG_WE)))
                 = Z.land v3 (2 ^ 31 - 1)).
    { change (u32 (Z.lnot PF_DBG_WE)) with (2 ^ 31 - 1).
      apply u32_small.
      change (2 ^ 31 - 1) with (Z.ones 31). rewrite Z.land_ones by lia.
      pose proof (Z.mod_pos_bound v3 (2 ^ 31) ltac:(lia)). lia. }
    rewrite W1 in A2. rewrite W2 in A3. rewrite W3 in A4.
    assert (Hacc : forall s' tail,
               accesses s' = accesses s5 ++ tail ->
               accesses s' =
                 accesses s ++ concat (map reinit_turn (turns ++ [last])) ++
                 [PfRead PCIE_PF_DBG v1; PfWrite PCIE_PF_DBG (Z.lor v1 (2 ^ 31));
                  PfRead PCIE_PF_DBG v2; PfWrite PCIE_PF_DBG (Z.lor v2 (2 ^ 27));
                  PfRead PCIE_PF_DBG v3;
                  PfWrite PCIE_PF_DBG (Z.land v3 (2 ^ 31 - 1));
                  HostInit true]
                 ++ link_turns (downs ++ [state]) ++ tail).
    { intros s' tail E. rewrite E, A4, A3, A2, A1, A.
      rewrite <- !app_assoc. reflexivity. }
    destruct Hcase as [(-> & Hs & Hn)|(Hto2 & Hs)].
    + change (-1 <? 0) with true. cbv beta iota.
      cbn [g4_dev_err].
      exists turns, last. eexists. split.
      { apply Hacc. cbn [g4_step accesses]. reflexivity. }
      split; [assumption|]. split; [assumption|]. rewrite Hl.
      exists v1, v2, v3, downs, state. rewrite Hs.
      split; [reflexivity|]. split; [assumption|]. split; [assumption|].
      intros _. exact Hn.
    + replace (to2 <? 0) with false by (symmetry; apply Z.ltb_ge; lia).
      unfold gret.
      exists turns, last. eexists. split.
      { apply Hacc. symmetry. apply app_nil_r. }
      split; [assumption|]. split; [assumption|]. rewrite Hl.
      exists v1, v2, v3, downs, state. rewrite Hs.
      split; [reflexivity|]. split; [assumption|]. split; [assumption|].
      discriminate.
Qed.


(** X23.  [ls_pcie_g4_reset] first rewrites the bridge-control register with the
    bus-reset bits cleared and every other bit as read, and last re-enables
    the interrupts: it clears all pending status bits and then writes the
    enable mask.  This holds whatever the re-initialisation in between did,
    also when it gave up on a timeout. *)
Theorem reset_outcome (s : g4_state) :
  let (_, s') := ls_pcie_g4_reset s in
  exists ctrl w middle,
    accesses s' =
      accesses s
      ++ [CsrRead 2 (u32 PCI_BRIDGE_CONTROL) ctrl;
          CsrWrite 2 w (u32 PCI_BRIDGE_CONTROL)]
      ++ middle
      ++ [CsrWrite 4 0xffffffff (u32 PAB_INTP_AMBA_MISC_STAT);
          CsrWrite 4
            (u32 (Z.lor (Z.lor (Z.lor (Z.lor (Z.lor PAB_INTP_INTX_MASK
                                                    PAB_INTP_MSI)
                                             PAB_INTP_RESET)
                                      PAB_INTP_PCIE_UE)
                               PAB_INTP_IE_PMREDI)
                        PAB_INTP_IE_EC))
            (u32 PAB_INTP_AMBA_MISC_ENB)] /\
    0 <= w < 2 ^ 16 /\
    forall i, 0 <= i < 16 ->
      Z.testbit w i =
      Z.testbit ctrl i && negb (Z.testbit PCI_BRIDGE_CTL_BUS_RESET i).
Proof.
  unfold ls_pcie_g4_reset, gbind, g4_csr_readw.
  destruct (csr_readw (u32 PCI_BRIDGE_CONTROL) (pci_io (port s))) as [c h].
  cbn [g4_csr_writew].
  match goal with |- context [ls_pcie_g4_reinit_hw ?st] =>
    pose proof (reinit_hw_appends st) as R;
    destruct (ls_pcie_g4_reinit_hw st) as [[] s2] end.
  destruct R as (middle & A).
  cbn [g4_step accesses] in A.
  unfold ls_pcie_g4_enable_interrupt, gbind, g4_csr_writel.
  cbn [g4_step accesses port pci_io].
  exists (u16 c),
         (u16 (Z.land (u16 c) (u16 (Z.lnot PCI_BRIDGE_CTL_BUS_RESET)))),
         middle.
  split.
  { rewrite A. rewrite <- !app_assoc. cbn [app]. reflexivity. }
  split; [unfold u16; apply Z.mod_pos_bound; lia|].
  intros i Hi.
  rewrite testbit_u16, Z.land_spec by lia.
  rewrite (testbit_u16 (Z.lnot PCI_BRIDGE_CTL_BUS_RESET)), Z.lnot_spec by lia.
  reflexivity.
Qed.

End LsPcieG4ResetFacts.

(** * The further commands on the scripted firmware *)

Section ScriptedExtras.

#[local] Existing Instance sample_header.
#[local] Existing Instance sample_commands.
#[local] Existing Instance sample_video.
#[local] Existing Instance fifo_platform.

(** Three bytes received into a buffer of five: the last two stay. *)
Lemma read_receive_buffer_witness :
  let d := fresh (answering [1; 2; 3]) in
  (Z.to_nat (u16 3) <= length [9; 9; 9; 9; 9])%nat /\
  let '((r, buff'), d') :=
    cdns_mhdp_mailbox_read_receive [9; 9; 9; 9; 9] 3 d in
  exists bs,
    exchange d d' bs [] /\
    buff' = bs ++ skipn (length bs) [9; 9; 9; 9; 9] /\
    ((r = 0 /\ length bs = Z.to_nat (u16 3)) \/
     (r = - ETIMEDOUT /\ (length bs < Z.to_nat (u16 3))%nat)).
Proof.
  intros d.
  assert (Hroom : (Z.to_nat (u16 3) <= length [9; 9; 9; 9; 9])%nat)
    by (vm_compute; lia).
  split; [exact Hroom|]. clearbody d.
  exact (read_receive_buffer [9; 9; 9; 9; 9] 3 d Hroom).
Defined.

Example read_receive_keeps_tail :
  let '((r, buff'), _) :=
    cdns_mhdp_mailbox_read_receive [9; 9; 9; 9; 9] 3
      (fresh (answering [1; 2; 3])) in
  r = 0 /\ buff' = [1; 2; 3; 9; 9].
Proof. vm_compute. split; reflexivity. Qed.

(** A two-byte DPCD read answered in full. *)
Lemma dpcd_read_outcome_witness :
  let d := fresh (answering (dpcd_reply 0x100 [7; 8])) in
  length [0; 0] = Z.to_nat (u16 2) /\
  let '((r, data'), d') := cdns_mhdp_dpcd_read 0x100 [0; 0] 2 d in
  (r = 0 \/ r = - ETIMEDOUT \/ r = - EINVAL) /\
  (r = 0 ->
   exists reg,
     length reg = 5%nat /\ length data' = Z.to_nat (u16 2) /\
     exchange d d'
       ([u8 DPTX_READ_DPCD; u8 MB_MODULE_ID_DP_TX;
         u16 (5 + u16 2) / 256; u16 (5 + u16 2) mod 256] ++ reg ++ data')
       (mbox_frame DPTX_READ_DPCD MB_MODULE_ID_DP_TX
          (put_unaligned_be16 2 ++ put_unaligned_be24 0x100))).
Proof.
  intros d.
  assert (Hlen : length [0; 0] = Z.to_nat (u16 2)) by reflexivity.
  split; [exact Hlen|]. clearbody d.
  exact (dpcd_read_outcome 0x100 [0; 0] 2 d Hlen).
Defined.

(** The address echoed in a DPCD read response is not looked at: a
    response for another address fills the buffer all the same. *)
Example dpcd_read_ignores_echo :
  let '((r, data'), _) :=
    cdns_mhdp_dpcd_read 0x100 [0; 0] 2
      (fresh (answering (dpcd_reply 0x2ff [7; 8]))) in
  r = 0 /\ data' = [7; 8].
Proof. vm_compute. split; reflexivity. Qed.

(** A firmware that echoes the 24 address bits it was sent cannot satisfy
    a DPCD write to an address above them. *)
Example dpcd_write_high_address :
  let (r, d') :=
    cdns_mhdp_dpcd_write 0x1000202 0x55
      (fresh (answering (reply 0x04 0x01 [0; 1; 0x00; 0x02; 0x02]))) in
  r = - EINVAL /\ mbox_wr d' = [4; 1; 0; 6; 0; 1; 0; 2; 2; 0x55] /\
  mbox_rd d' = [4; 1; 0; 5; 0; 1; 0; 2; 2].
Proof. vm_compute. repeat split; reflexivity. Qed.

Example dpcd_write_echoed :
  let (r, _) :=
    cdns_mhdp_dpcd_write 0x000202 0x55
      (fresh (answering (reply 0x04 0x01 [0; 1; 0x00; 0x02; 0x02]))) in
  r = 0.
Proof. vm_compute. reflexivity. Qed.

(** The search on the 1080p60 stream over four lanes at 5.4 Gbit/s. *)
Lemma tu_search_found_bounds_witness :
  tu_search 148500 24 4 540 = Some (TuFound 32 6 600) /\
  0 <= 32 <= 64 /\ 2 <= 6 /\ 100 <= 600 <= 850 /\ 4 <= u64 (32 - 6) /\
  u32 (u32 (u32 4 * u32 540) * 8) <> 0 /\ u8 24 <> 0.
Proof.
  assert (E : tu_search 148500 24 4 540 = Some (TuFound 32 6 600))
    by reflexivity.
  split; [exact E|].
  exact (tu_search_found_bounds 148500 24 4 540 32 6 600 E).
Defined.

(** A one-lane adjustment request: bytes 4 to 6 of the payload are what
    the array held before. *)
Lemma adjust_lt_request_witness :
  let d := fresh (answering (dpcd_reply 0x202 [1; 2; 3; 4; 5; 6])) in
  let payload0 := [0xa0; 0xa1; 0xa2; 0xa3; 0xa4; 0xa5; 0xa6] in
  (length payload0 = 7%nat /\ (Z.to_nat (u8 1) <= length [5])%nat) /\
  let '((r, dpcd'), d') :=
    cdns_mhdp_adjust_lt payload0 1 400 [5] [0; 0; 0; 0; 0; 0] d in
  if (u8 1 =? 4) || (u8 1 =? 2) || (u8 1 =? 1)
  then exists k,
      mbox_wr d' = mbox_wr d ++
        firstn k (mbox_frame DPTX_ADJUST_LT MB_MODULE_ID_DP_TX
                    ([u8 1] ++ put_unaligned_be16 400
                     ++ firstn (Z.to_nat (u8 1)) [5]
                     ++ skipn (3 + Z.to_nat (u8 1)) payload0)) /\
      (r = 0 -> k = 11%nat)
  else r = - EINVAL /\ dpcd' = [0; 0; 0; 0; 0; 0] /\ d' = d.
Proof.
  intros d payload0.
  assert (H1 : length payload0 = 7%nat) by reflexivity.
  assert (H2 : (Z.to_nat (u8 1) <= length [5])%nat) by (vm_compute; lia).
  split; [exact (conj H1 H2)|]. clearbody d.
  exact (adjust_lt_request payload0 1 400 [5] [0; 0; 0; 0; 0; 0] d H1 H2).
Defined.

Example adjust_lt_sends_stale_bytes :
  let '((r, _), d') :=
    cdns_mhdp_adjust_lt [0xa0; 0xa1; 0xa2; 0xa3; 0xa4; 0xa5; 0xa6] 1 400 [5]
      [0; 0; 0; 0; 0; 0]
      (fresh (answering (dpcd_reply 0x202 [1; 2; 3; 4; 5; 6]))) in
  r = 0 /\
  mbox_wr d' = [0x12; 1; 0; 7; 1; 1; 0x90; 5; 0xa4; 0xa5; 0xa6].
Proof. vm_compute. split; reflexivity. Qed.

(** The 1080p60 RGB stream configured over four lanes at 5.4 Gbit/s, the
    firmware taking every byte. *)
Lemma config_video_programs_registers_witness :
  let d := set_link 540000 4 (fresh (answering [])) in
  let s := cdns_mhdp_config_video video_rgb8 mode_1080p d in
  s = (Some 0, snd s) /\
  exists tu symbol rem fifo k vals,
    tu_search (clock mode_1080p)
      (u8 (if color_fmt video_rgb8 =? YCBCR_4_2_2
           then color_depth video_rgb8 * 2 else color_depth video_rgb8 * 3))
      (link_num_lanes d) (u32 (link_rate d) / 1000)
    = Some (TuFound tu symbol rem) /\
    length vals = 13%nat /\ nth 9 vals 0 = 1 /\
    mbox_rd (snd s) = mbox_rd d /\
    mbox_wr (snd s) =
      mbox_wr d
      ++ reg_frame BND_HSYNC2VSYNC VIF_BYPASS_INTERLACE
      ++ reg_frame HSYNC2VSYNC_POL_CTRL 0
      ++ reg_frame DP_FRAMER_TU
           (Z.lor (u32 (symbol + Z.shiftl tu 8)) (u32 TU_CNT_RST_EN))
      ++ firstn k (reg_frame (DP_VC_TABLE 15) fifo)
      ++ concat (map (fun av => reg_frame (fst av) (snd av))
                     (combine timing_registers vals))
      ++ mbox_frame DPTX_WRITE_FIELD MB_MODULE_ID_DP_TX
           (put_unaligned_be16 DP_VB_ID ++ [2; 1] ++ put_unaligned_be32 0).
Proof.
  intros d s.
  assert (E : s = (Some 0, snd s)) by (vm_compute; reflexivity).
  split; [exact E|]. clearbody d.
  exact (config_video_programs_registers video_rgb8 mode_1080p d (snd s) E).
Defined.

(** The values that configuration sends for the transfer unit and the
    FIFO: 6 symbols in a unit of 32 with the reset flag, and a FIFO size
    of 4. *)
Example config_video_1080p_frames :
  let s := cdns_mhdp_config_video video_rgb8 mode_1080p
             (set_link 540000 4 (fresh (answering []))) in
  fst s = Some 0 /\
  firstn 12 (skipn 24 (mbox_wr (snd s))) = reg_frame DP_FRAMER_TU 0xa006 /\
  firstn 12 (skipn 36 (mbox_wr (snd s))) = reg_frame (DP_VC_TABLE 15) 4.
Proof. vm_compute. repeat split; reflexivity. Qed.

Example hpd_status_plugged :
  let (r, _) := cdns_mhdp_get_hpd_status
                  (fresh (answering (reply 0x11 0x01 [1]))) in
  r = 1.
Proof. vm_compute. reflexivity. Qed.

End ScriptedExtras.

Section ScriptedFirmware.

#[local] Existing Instance sample_header.
#[local] Existing Instance sample_commands.
#[local] Existing Instance version_platform.

(** Two instruction words and one data word loaded into a device whose
    firmware comes up. *)
Lemma load_firmware_outcome_witness :
  let d := fresh_version in
  (u32 8 <= 2 ^ 31 - 4 /\ u32 4 <= 2 ^ 31 - 4) /\
  let '((r, fw), d') := cdns_mhdp_load_firmware [0x11; 0x22] 8 [0x33] 4 d in
  exists polls alive tail,
    trace d' =
      trace d
      ++ [BusWrite (u32 (Z.lor (Z.lor APB_IRAM_PATH APB_DRAM_PATH) APB_XT_RESET))
                   (u32 APB_CTRL)]
      ++ image_writes (load_turns 8) ADDR_IMEM [0x11; 0x22]
      ++ image_writes (load_turns 4) ADDR_DMEM [0x33]
      ++ [BusWrite 0 (u32 APB_CTRL)]
      ++ map (BusRead (u32 KEEP_ALIVE)) (polls ++ [alive])
      ++ tail /\
    ((r = - EINVAL /\ fw = None /\ alive = 0 /\ tail = [] /\
      ktime d + FW_ALIVE_TIMEOUT_US < ktime d') \/
     (r = 0 /\ alive <> 0 /\
      exists v0 v1 v2 v3,
        tail = [BusRead (u32 VER_L) v0; BusRead (u32 VER_H) v1;
                BusRead (u32 VER_LIB_L_ADDR) v2;
                BusRead (u32 VER_LIB_H_ADDR) v3] /\
        fw = Some (v0 mod 256 + 256 * (v1 mod 256) + 65536 * (v2 mod 256)
                   + 16777216 * (v3 mod 256)))).
Proof.
  intros d.
  assert (H1 : u32 8 <= 2 ^ 31 - 4) by discriminate.
  assert (H2 : u32 4 <= 2 ^ 31 - 4) by discriminate.
  split; [exact (conj H1 H2)|]. clearbody d.
  exact (load_firmware_outcome [0x11; 0x22] 8 [0x33] 4 d H1 H2).
Defined.

Example load_firmware_version :
  let '((r, fw), d') :=
    cdns_mhdp_load_firmware [0x11; 0x22] 8 [0x33] 4 fresh_version in
  r = 0 /\ fw = Some 0x78560234 /\
  io d' = [(0x00, 0); (0x20000, 0x33); (0x10004, 0x22); (0x10000, 0x11);
           (0x00, 7)].
Proof. vm_compute. repeat split; reflexivity. Qed.

(** A keep-alive counter that does not move is read 51 times. *)
Example check_alive_stuck_counter :
  let (b, d') := cdns_mhdp_check_alive fresh_version in
  b = false /\ trace d' = repeat (BusRead 0x18 5) 51 /\ 100 <= ktime d'.
Proof. vm_compute. repeat split; try reflexivity. discriminate. Qed.

End ScriptedFirmware.

Section ScriptedReset.

#[local] Existing Instance table_pci.
#[local] Existing Instance sample_mobiveil.

(** Host init on the revision-1.0 sample port. *)
Lemma host_init_ack_latency_witness :
  (Z.land 4 ACK_LAT_TO_VAL_MASK = 4 /\ 0 <= ACK_LAT_TO_VAL_SHIFT) /\
  let (r, s') := ls_pcie_g4_host_init fresh_port in
  r = 0 /\
  exists b,
    rev (port s') = b /\ 0 <= b < 256 /\
    if b =? REV_1_0
    then exists v w,
        accesses s' =
          accesses fresh_port ++ [CsrRead 1 (u32 PCI_REVISION_ID) b;
                                  CsrRead 4 (u32 GPEX_ACK_REPLAY_TO) v;
                                  CsrWrite 4 w (u32 GPEX_ACK_REPLAY_TO)] /\
        forall i, 0 <= i < 32 ->
          Z.testbit w i =
          if Z.testbit (Z.shiftl ACK_LAT_TO_VAL_MASK ACK_LAT_TO_VAL_SHIFT) i
          then Z.testbit (Z.shiftl 4 ACK_LAT_TO_VAL_SHIFT) i
          else Z.testbit v i
    else accesses s' =
         accesses fresh_port ++ [CsrRead 1 (u32 PCI_REVISION_ID) b].
Proof.
  assert (H1 : Z.land 4 ACK_LAT_TO_VAL_MASK = 4) by reflexivity.
  assert (H2 : 0 <= ACK_LAT_TO_VAL_SHIFT) by discriminate.
  split; [exact (conj H1 H2)|].
  exact (host_init_ack_latency fresh_port H1 H2).
Defined.

Example host_init_rev_1_0 :
  let (r, s') := ls_pcie_g4_host_init fresh_port in
  r = 0 /\ rev (port s') = 0x10 /\
  accesses s' = [CsrRead 1 0x08 0x10; CsrRead 4 0x438 0x1bcd;
                 CsrWrite 4 0x0004 0x438].
Proof. vm_compute. repeat split; reflexivity. Qed.

(** The reset work on the sample port: one poll finds the reset flagged,
    the link is up at the first look. *)
Example reset_sample_port :
  let (_, s') := ls_pcie_g4_reset fresh_port in
  accesses s' =
    [CsrRead 2 0x3e 0x43; CsrWrite 2 0x03 0x3e;
     UsleepRange 10 15; PfRead 0x18 0x80000000; CsrRead 4 0x81c 0;
     PfRead 0x7fc 0x2d; PfWrite 0x7fc 0x8000002d;
     PfRead 0x7fc 0x2d; PfWrite 0x7fc 0x0800002d;
     PfRead 0x7fc 0x2d; PfWrite 0x7fc 0x2d;
     HostInit true; PfRead 0x7fc 0x2d;
     CsrWrite 4 0xffffffff 0x0b1c; CsrWrite 4 0xfea 0x0b0c].
Proof. vm_compute. reflexivity. Qed.

End ScriptedReset.

Section ScriptedWindow.

#[local] Existing Instance sample_header.
#[local] Existing Instance version_platform.

(** Register [0x2034] through the APB window with the window at
    [0x1000]: page 2 is selected, the word at [0x1034] accessed. *)
Lemma bus_access_low4k_witness :
  let d := @Build_cdns_mhdp_device version_platform
             BUS_TYPE_LOW4K_APB 0x1000 0x8000 0 0 [] 0 0 [] in
  (bus_type d = BUS_TYPE_LOW4K_APB \/ bus_type d = BUS_TYPE_LOW4K_SAPB) /\
  exists page window,
    u32 0x2034 = page * 4096 + window /\ 0 <= window < 4096 /\
    0 <= page < 2 ^ 20 /\
    let select :=
      regs_sec d + (match bus_type d with BUS_TYPE_LOW4K_APB => 8 | _ => 0xc end) in
    let paged := writel page select (io d) in
    fst (cdns_mhdp_bus_read 0x2034 d)
      = u32 (fst (readl (window + regs_base d) paged)) /\
    io (snd (cdns_mhdp_bus_read 0x2034 d))
      = snd (readl (window + regs_base d) paged) /\
    io (snd (cdns_mhdp_bus_write 0xbeef 0x2034 d))
      = writel (u32 0xbeef) (window + regs_base d) paged.
Proof.
  intros d.
  assert (Hb : bus_type d = BUS_TYPE_LOW4K_APB
               \/ bus_type d = BUS_TYPE_LOW4K_SAPB) by (left; reflexivity).
  split; [exact Hb|].
  exact (bus_access_low4k 0x2034 0xbeef d Hb).
Defined.

Example bus_write_low4k_accesses :
  let d := @Build_cdns_mhdp_device version_platform
             BUS_TYPE_LOW4K_APB 0x1000 0x8000 0 0 [] 0 0 [] in
  io (snd (cdns_mhdp_bus_write 0xbeef 0x2034 d))
  = [(0x1034, 0xbeef); (0x8008, 2)].
Proof. vm_compute. reflexivity. Qed.

End ScriptedWindow.
